(** * LabFace attendance core: sessions, presence events, attendance rows

    A shallow embedding of the Express/Knex handlers of the backend

      - routes/classes   : POST /:id/start, POST /:id/stop,
                           POST /sessions/:session_id/force-absent
      - routes/presence  : POST /            (CCTV / ML pipeline events)
      - routes/attendance: POST /checkin     (selfie check-in)
      - config/socketio  : broadcastPresenceEvent, broadcastSessionStatus

    over the MySQL tables [classes], [class_students], [sessions],
    [attendance] and [presence_events].

    Modelling conventions.
      - A table is the list of its rows in insertion order; [.first()] is
        the first row of the list that satisfies the [where] clause.
      - Timestamps are integers, milliseconds since the epoch (what
        [Date.getTime()] returns).  A request is served at one clock
        reading [now]: every [new Date()] of a handler reads it.
      - JavaScript numbers that hold minutes are exact rationals ([Q]).
      - A string is the list of the bytes of its UTF-8 encoding.
      - Handlers are state transformers [World -> World * Outcome]; a
        thrown exception that reaches [next(error)] is the outcome
        [Next e], and the writes made before it stay (no transaction is
        opened by the handlers).
      - [logger.info] lines are not part of the state. *)

From Stdlib Require Import ZArith QArith List String Ascii Bool Lia DecimalString.
From Stdlib Require Import Permutation.
From Stdlib Require DecimalZ DecimalPos.
Import ListNotations.
Open Scope string_scope.
Open Scope Z_scope.

(** ** JavaScript helpers *)

Module JS.

(** [x || d] on a possibly undefined string: the empty string is falsy. *)
Definition or_default (x : option string) (d : string) : string :=
  match x with
  | Some s => if String.eqb s "" then d else s
  | None => d
  end.

(** Truthiness of a possibly undefined string / number. *)
Definition truthyS (x : option string) : bool :=
  match x with
  | Some s => negb (String.eqb s "")
  | None => false
  end.

Definition truthyZ (x : option Z) : bool :=
  match x with
  | Some z => negb (z =? 0)
  | None => false
  end.

(** [`${n}`] / [n.toString()] for an integer. *)
Definition toString (n : Z) : string := NilZero.string_of_int (Z.to_int n).

(** [`${s}`] for a possibly undefined string. *)
Definition template (x : option string) : string :=
  match x with
  | Some s => s
  | None => "undefined"
  end.

(** Strings are the UTF-8 encoding of the text.  [parseInt] skips the
    white space and the line terminators of the language
    ([StrWhiteSpaceChar]).  Six of them take one byte: TAB, LF, VT, FF,
    CR and SP. *)
Definition isWhiteSpace (c : ascii) : bool :=
  let n := nat_of_ascii c in
  (Nat.eqb n 32 || Nat.eqb n 9 || Nat.eqb n 10 || Nat.eqb n 11
   || Nat.eqb n 12 || Nat.eqb n 13)%bool.

(** One takes two bytes: U+00A0 (C2 A0). *)
Definition isWhiteSpace2 (c1 c2 : ascii) : bool :=
  (Nat.eqb (nat_of_ascii c1) 194 && Nat.eqb (nat_of_ascii c2) 160)%bool.

(** The others take three bytes: U+1680 (E1 9A 80), U+2000 to U+200A
    (E2 80 80 to E2 80 8A), U+2028 and U+2029 (E2 80 A8, E2 80 A9),
    U+202F (E2 80 AF), U+205F (E2 81 9F), U+3000 (E3 80 80) and U+FEFF
    (EF BB BF). *)
Definition isWhiteSpace3 (c1 c2 c3 : ascii) : bool :=
  let n1 := nat_of_ascii c1 in
  let n2 := nat_of_ascii c2 in
  let n3 := nat_of_ascii c3 in
  (Nat.eqb n1 225 && Nat.eqb n2 154 && Nat.eqb n3 128
   || Nat.eqb n1 226 && Nat.eqb n2 128
      && ((128 <=? n3)%nat && (n3 <=? 138)%nat
          || Nat.eqb n3 168 || Nat.eqb n3 169 || Nat.eqb n3 175)
   || Nat.eqb n1 226 && Nat.eqb n2 129 && Nat.eqb n3 159
   || Nat.eqb n1 227 && Nat.eqb n2 128 && Nat.eqb n3 128
   || Nat.eqb n1 239 && Nat.eqb n2 187 && Nat.eqb n3 191)%bool.

(** The first byte of a character of two bytes or more. *)
Definition isLeadByte (c : ascii) : bool := (192 <=? nat_of_ascii c)%nat.

(** The string without the white space at its start. *)
Fixpoint trimStart (s : string) : string :=
  match s with
  | String c1 r1 =>
      if isWhiteSpace c1 then trimStart r1
      else if isLeadByte c1 then
        match r1 with
        | String c2 r2 =>
            if isWhiteSpace2 c1 c2 then trimStart r2
            else
              match r2 with
              | String c3 r3 => if isWhiteSpace3 c1 c2 c3 then trimStart r3 else s
              | EmptyString => s
              end
        | EmptyString => s
        end
      else s
  | EmptyString => s
  end.

(** Value of a digit in the given radix (10 or 16), if it is one. *)
Definition digitValue (radix : Z) (c : ascii) : option Z :=
  let n := Z.of_nat (nat_of_ascii c) in
  let v :=
    if (48 <=? n) && (n <=? 57) then Some (n - 48)
    else if (97 <=? n) && (n <=? 102) then Some (n - 87)
    else if (65 <=? n) && (n <=? 70) then Some (n - 55)
    else None in
  match v with
  | Some d => if d <? radix then Some d else None
  | None => None
  end.

(** Longest prefix of digits, accumulated; [None] when there is no digit. *)
Fixpoint digits (radix : Z) (s : string) (acc : option Z) : option Z :=
  match s with
  | String c r =>
      match digitValue radix c with
      | Some d =>
          digits radix r (Some (radix * match acc with Some a => a | None => 0 end + d))
      | None => acc
      end
  | EmptyString => acc
  end.

(** [parseInt(s)] with no radix argument: leading white space is skipped,
    a sign is read, a [0x]/[0X] prefix selects base 16, then the longest
    run of digits is converted.  [None] is [NaN]. *)
Definition parseInt (s : string) : option Z :=
  let s1 := trimStart s in
  let '(sign, s2) :=
    match s1 with
    | String "-" r => (-1, r)
    | String "+" r => (1, r)
    | _ => (1, s1)
    end in
  let '(radix, s3) :=
    match s2 with
    | String "0" (String "x" r) => (16, r)
    | String "0" (String "X" r) => (16, r)
    | _ => (10, s2)
    end in
  match digits radix s3 None with
  | Some n => Some (sign * n)
  | None => None
  end.

End JS.

(** ** Configuration read from [process.env] *)

Record Env := mkEnv {
  LATE_THRESHOLD_MINUTES : option string;
  MINIO_ENDPOINT : option string
}.

(** [parseInt(process.env.LATE_THRESHOLD_MINUTES || '30')]. *)
Definition lateThresholdMinutes (env : Env) : option Z :=
  JS.parseInt (JS.or_default (LATE_THRESHOLD_MINUTES env) "30").

(** ** Tables *)

Inductive SessionStatus := open | closed.

Inductive AttendanceStatus := present | late | absent.

Definition SessionStatus_eqb (a b : SessionStatus) : bool :=
  match a, b with
  | open, open | closed, closed => true
  | _, _ => false
  end.

Definition is_checked_in (s : AttendanceStatus) : bool :=
  match s with
  | present | late => true
  | absent => false
  end.

(** [classes]: only the columns the handlers read. *)
Record ClassRow := mkClass {
  c_class_id : Z;
  c_professor_id : string
}.

(** [class_students]. *)
Record EnrollmentRow := mkEnrollment {
  e_class_id : Z;
  e_student_id : string
}.

(** [sessions]. *)
Record SessionRow := mkSession {
  s_session_id : Z;
  s_class_id : Z;
  s_session_date : Z;          (* UTC day number of the ISO date *)
  s_start_ts : Z;
  s_end_ts : option Z;
  s_status : SessionStatus
}.

(** [attendance], [UNIQUE(session_id, student_id)].  The surrogate key
    [attendance_id] is never read and is left out. *)
Record AttendanceRow := mkAttendance {
  a_session_id : Z;
  a_student_id : string;
  a_status : AttendanceStatus;
  a_checkin_ts : option Z;
  a_checkout_ts : option Z;
  a_presence_minutes : option Z;
  a_selfie_url : option string
}.

(** The [details] object of a presence event. *)
Record Details := mkDetails {
  d_image_url : option string;
  d_score : option Q;
  d_confidence : option Q;
  d_camera : option string
}.

(** [presence_events]. *)
Record EventRow := mkEvent {
  ev_event_id : Z;
  ev_session_id : Z;
  ev_student_id : string;
  ev_event_type : string;
  ev_event_ts : Z;
  ev_source : string;
  ev_details : option Details
}.

(** Messages emitted on the socket.io server, oldest first. *)
Record PresencePayload := mkPayload {
  p_event_id : option Z;
  p_student_id : string;
  p_event_type : string;
  p_timestamp : Z;
  p_source : string;
  p_score : option Q;
  p_image_url : option string;
  p_details : option Details
}.

Inductive Emit :=
| EmitPresenceEvent (room : string) (event : PresencePayload)
| EmitSessionStatus (room : string) (sessionId : string) (status : string).

Record World := mkWorld {
  classes : list ClassRow;
  class_students : list EnrollmentRow;
  sessions : list SessionRow;
  next_session_id : Z;
  attendance : list AttendanceRow;
  presence_events : list EventRow;
  next_event_id : Z;
  emitted : list Emit
}.

(** ** Responses *)

Inductive DbError := ER_DUP_ENTRY.

Inductive Error :=
| DatabaseError (e : DbError)
| StorageError.

Inductive Json :=
| JsonError (error : string)
| JsonFailure (error : string)                      (* { success: false, error } *)
| JsonMessage (message : string)
| JsonSessionStarted (message : string) (session_id : Z)
| JsonEventRecorded (event_id : Z) (message : string)
| JsonCheckedIn (status : AttendanceStatus) (message : string)
| JsonAbsentDone (message : string) (absent_count : Z).

Inductive Outcome :=
| Responded (code : Z) (body : Json)
| Next (e : Error).

(** ** The query builder on the tables *)

Module Db.

(** [.where(p).first()]. *)
Definition first {A : Type} (p : A -> bool) (t : list A) : option A :=
  find p t.

(** [.where(p).update(f)]: every matching row is rewritten. *)
Definition update {A : Type} (p : A -> bool) (f : A -> A) (t : list A) : list A :=
  map (fun r => if p r then f r else r) t.

(** [.where({ session_id, student_id })] on [attendance]. *)
Definition same_key (session_id : Z) (student_id : string) (r : AttendanceRow) : bool :=
  (a_session_id r =? session_id) && String.eqb (a_student_id r) student_id.

Definition has_key (r : AttendanceRow) (t : list AttendanceRow) : bool :=
  existsb (same_key (a_session_id r) (a_student_id r)) t.

(** [.insert(row).onConflict(['session_id','student_id']).merge()]:
    on MySQL, [INSERT ... ON DUPLICATE KEY UPDATE] of every column of the
    inserted object.  The handlers insert [session_id], [student_id],
    [status], [checkin_ts] and [selfie_url]; the other columns of an
    existing row are kept. *)
Definition merge (row old : AttendanceRow) : AttendanceRow :=
  mkAttendance (a_session_id row) (a_student_id row) (a_status row)
    (a_checkin_ts row) (a_checkout_ts old) (a_presence_minutes old)
    (a_selfie_url row).

Definition insert_onConflict_merge (row : AttendanceRow) (t : list AttendanceRow)
  : list AttendanceRow :=
  if has_key row t
  then update (same_key (a_session_id row) (a_student_id row)) (merge row) t
  else t ++ [row].

(** [.insert(rows)] with no conflict clause: the first row whose key is
    already in the table (or earlier in the batch) raises the duplicate
    entry error. *)
Fixpoint insert_all (rows t : list AttendanceRow) : DbError + list AttendanceRow :=
  match rows with
  | [] => inr t
  | r :: rs => if has_key r t then inl ER_DUP_ENTRY else insert_all rs (t ++ [r])
  end.

End Db.

(** Field updates of the world. *)
Definition with_sessions (w : World) (t : list SessionRow) (n : Z) : World :=
  mkWorld (classes w) (class_students w) t n (attendance w)
    (presence_events w) (next_event_id w) (emitted w).

Definition with_attendance (w : World) (t : list AttendanceRow) : World :=
  mkWorld (classes w) (class_students w) (sessions w) (next_session_id w) t
    (presence_events w) (next_event_id w) (emitted w).

Definition with_presence_events (w : World) (t : list EventRow) (n : Z) : World :=
  mkWorld (classes w) (class_students w) (sessions w) (next_session_id w)
    (attendance w) t n (emitted w).

Definition with_emitted (w : World) (l : list Emit) : World :=
  mkWorld (classes w) (class_students w) (sessions w) (next_session_id w)
    (attendance w) (presence_events w) (next_event_id w) l.

(** ** config/socketio *)

Module SocketIO.

Definition room (sessionId : string) : string := "attendance:" ++ sessionId.

Definition broadcastPresenceEvent (sessionId : string) (event : PresencePayload)
    (w : World) : World :=
  with_emitted w (emitted w ++ [EmitPresenceEvent (room sessionId) event]).

Definition broadcastSessionStatus (sessionId status : string) (w : World) : World :=
  with_emitted w (emitted w ++ [EmitSessionStatus (room sessionId) sessionId status]).

End SocketIO.

(** [where({ session_id, status: 'open' })] on [sessions]. *)
Definition open_session (session_id : Z) (s : SessionRow) : bool :=
  (s_session_id s =? session_id) && SessionStatus_eqb (s_status s) open.

(** [where({ class_id, status: 'open' })] on [sessions]. *)
Definition open_for_class (class_id : Z) (s : SessionRow) : bool :=
  (s_class_id s =? class_id) && SessionStatus_eqb (s_status s) open.

(** [isLate ? 'late' : 'present']. *)
Definition status_of (isLate : bool) : AttendanceStatus :=
  if isLate then late else present.

(** ** routes/presence *)

Module Presence.

(** [diffMinutes > lateThresholdMinutes]; a comparison with [NaN] is
    false. *)
Definition isStudentLate (env : Env) (now : Z) (sessionStart : Z) : bool :=
  match lateThresholdMinutes env with
  | Some lateThresholdMinutes =>
      let diffMinutes : Q := (now - sessionStart) # 60000 in
      negb (Qle_bool diffMinutes (inject_Z lateThresholdMinutes))
  | None => false
  end.

Record Body := mkBody {
  b_session_id : option Z;
  b_student_id : option string;
  b_event_type : option string;
  b_source : option string;
  b_details : option Details
}.

(** [details?.image_url || null]. *)
Definition image_url_of (details : option Details) : option string :=
  match details with
  | Some d => if JS.truthyS (d_image_url d) then d_image_url d else None
  | None => None
  end.

(** [router.post('/')]. *)
Definition record (env : Env) (now : Z) (body : Body) (w : World) : World * Outcome :=
  match b_session_id body, b_student_id body, b_event_type body with
  | Some session_id, Some student_id, Some event_type =>
    if negb (JS.truthyZ (Some session_id)) || negb (JS.truthyS (Some student_id))
       || negb (JS.truthyS (Some event_type))
    then (w, Responded 400 (JsonError "Missing required fields"))
    else
      match Db.first (open_session session_id) (sessions w) with
      | None => (w, Responded 400 (JsonError "Session not found or not active"))
      | Some session =>
        let eventId := next_event_id w in
        let source := JS.or_default (b_source body) "cctv" in
        let w1 := with_presence_events w
                    (presence_events w ++
                     [mkEvent eventId session_id student_id event_type now source
                        (b_details body)])
                    (eventId + 1) in
        let w2 :=
          if String.eqb event_type "in" then
            let isLate := isStudentLate env now (s_start_ts session) in
            let status := status_of isLate in
            with_attendance w1
              (Db.insert_onConflict_merge
                 (mkAttendance session_id student_id status (Some now) None None
                    (image_url_of (b_details body)))
                 (attendance w1))
          else if String.eqb event_type "out" then
            with_attendance w1
              (Db.update (Db.same_key session_id student_id)
                 (fun r => mkAttendance (a_session_id r) (a_student_id r) (a_status r)
                             (a_checkin_ts r) (Some now) (a_presence_minutes r)
                             (a_selfie_url r))
                 (attendance w1))
          else w1 in
        let w3 := SocketIO.broadcastPresenceEvent (JS.toString session_id)
                    (mkPayload (Some eventId) student_id event_type now source None None
                       (b_details body)) w2 in
        (w3, Responded 201 (JsonEventRecorded eventId "Presence event recorded"))
      end
  | _, _, _ => (w, Responded 400 (JsonError "Missing required fields"))
  end.

End Presence.

(** ** routes/attendance *)

Module Attendance.

(** The second copy of the helper, in routes/attendance. *)
Definition isStudentLate (env : Env) (now : Z) (sessionStart : Z) : bool :=
  match lateThresholdMinutes env with
  | Some lateThresholdMinutes =>
      let diffMinutes : Q := (now - sessionStart) # 60000 in
      negb (Qle_bool diffMinutes (inject_Z lateThresholdMinutes))
  | None => false
  end.

(** Body accepted by [attendanceSchemas.checkin]. *)
Record Body := mkBody {
  b_session_id : Z;
  b_image_data : string
}.

(** What the two collaborators of the check-in answer: the object store
    on [putObject], the ML service on [POST /match]. *)
Inductive PutResult := PutOk | PutThrows.

Record MatchData := mkMatchData {
  m_matched : bool;
  m_student_id : option string;
  m_score : option Q;
  m_confidence : option Q
}.

Inductive MatchResult :=
| MatchReply (data : MatchData)
| MatchThrows.

(** [mlResponse.data.matched && mlResponse.data.student_id === req.user.id]. *)
Definition confirmed (data : MatchData) (user : string) : bool :=
  m_matched data &&
  match m_student_id data with
  | Some s => String.eqb s user
  | None => false
  end.

(** [router.post('/checkin')]; [user] is [req.user.id]. *)
Definition checkin (env : Env) (now : Z) (user : string) (body : Body)
    (put : PutResult) (ml : MatchResult) (w : World) : World * Outcome :=
  let session_id := b_session_id body in
  match Db.first (open_session session_id) (sessions w) with
  | None => (w, Responded 400 (JsonError "Session not found or not active"))
  | Some session =>
    let imageKey := "checkins/" ++ JS.toString session_id ++ "/" ++ user ++ "_"
                    ++ JS.toString now ++ ".jpg" in
    match put with
    | PutThrows => (w, Next StorageError)
    | PutOk =>
      let imageUrl := JS.template (MINIO_ENDPOINT env) ++ "/labface/" ++ imageKey in
      match ml with
      | MatchThrows =>
          (w, Responded 500 (JsonFailure "Face recognition service unavailable"))
      | MatchReply data =>
        if confirmed data user then
          let isLate := isStudentLate env now (s_start_ts session) in
          let status := status_of isLate in
          let w1 := with_attendance w
                      (Db.insert_onConflict_merge
                         (mkAttendance session_id user status (Some now) None None
                            (Some imageUrl))
                         (attendance w)) in
          let w2 := with_presence_events w1
                      (presence_events w1 ++
                       [mkEvent (next_event_id w1) session_id user "in" now "face"
                          (Some (mkDetails (Some imageUrl) (m_score data)
                                   (m_confidence data) None))])
                      (next_event_id w1 + 1) in
          let w3 := SocketIO.broadcastPresenceEvent (JS.toString session_id)
                      (mkPayload None user "in" now "face" (m_score data)
                         (Some imageUrl) None) w2 in
          (w3, Responded 200
                 (JsonCheckedIn status
                    (if isLate then "Checked in late" else "Checked in successfully")))
        else
          (w, Responded 400
                (JsonFailure "Face recognition failed. Please try again or contact support."))
      end
    end
  end.

End Attendance.

(** ** routes/classes: session lifecycle and absence computation *)

Module Classes.

(** [where({ class_id: classId, professor_id: req.user.id })]. *)
Definition owned_class (classId : Z) (user : string) (c : ClassRow) : bool :=
  (c_class_id c =? classId) && String.eqb (c_professor_id c) user.

(** [router.post('/:id/start')]; [classId] is the parsed route parameter,
    [user] is [req.user.id]. *)
Definition start (now : Z) (user : string) (classId : Z) (w : World) : World * Outcome :=
  match Db.first (owned_class classId user) (classes w) with
  | None => (w, Responded 404 (JsonError "Class not found"))
  | Some existingClass =>
    match Db.first (open_for_class classId) (sessions w) with
    | Some activeSession =>
        (w, Responded 400 (JsonError "Session already active for this class"))
    | None =>
      let sessionId := next_session_id w in
      let w1 := with_sessions w
                  (sessions w ++
                   [mkSession sessionId classId (now / 86400000) now None open])
                  (sessionId + 1) in
      let w2 := SocketIO.broadcastSessionStatus (JS.toString sessionId) "started" w1 in
      (w2, Responded 201 (JsonSessionStarted "Session started successfully" sessionId))
    end
  end.

(** The [update] of the stop handler: [{ end_ts: new Date(), status: 'closed' }]. *)
Definition close (now : Z) (s : SessionRow) : SessionRow :=
  mkSession (s_session_id s) (s_class_id s) (s_session_date s) (s_start_ts s)
    (Some now) closed.

(** [router.post('/:id/stop')]. *)
Definition stop (now : Z) (classId : Z) (w : World) : World * Outcome :=
  match Db.first (open_for_class classId) (sessions w) with
  | None => (w, Responded 400 (JsonError "No active session found"))
  | Some activeSession =>
    let w1 := with_sessions w
                (Db.update (fun s => s_session_id s =? s_session_id activeSession)
                   (close now) (sessions w))
                (next_session_id w) in
    let w2 := SocketIO.broadcastSessionStatus
                (JS.toString (s_session_id activeSession)) "stopped" w1 in
    (w2, Responded 200 (JsonMessage "Session stopped successfully"))
  end.

(** The session row of the join [sessions ⋈ classes] filtered on the
    session id and on the professor of the class. *)
Definition session_of_professor (sessionId : Z) (user : string) (w : World)
  : option SessionRow :=
  Db.first
    (fun s => (s_session_id s =? sessionId) &&
              existsb (fun c => (c_class_id c =? s_class_id s) &&
                                String.eqb (c_professor_id c) user) (classes w))
    (sessions w).

(** [enrolledStudents]: the [student_id]s of [class_students] for a class. *)
Definition enrolledStudents (class_id : Z) (w : World) : list string :=
  map e_student_id (filter (fun e => e_class_id e =? class_id) (class_students w)).

(** [presentStudentIds]: the [student_id]s of the attendance rows of the
    session whose status is ['present'] or ['late']. *)
Definition presentStudentIds (sessionId : Z) (w : World) : list string :=
  map a_student_id
    (filter (fun a => (a_session_id a =? sessionId) && is_checked_in (a_status a))
       (attendance w)).

(** [presentStudentIds.includes(id)]. *)
Definition includes (ids : list string) (id : string) : bool :=
  existsb (String.eqb id) ids.

Definition absentStudents (sessionId : Z) (session : SessionRow) (w : World) : list string :=
  filter (fun s => negb (includes (presentStudentIds sessionId w) s))
    (enrolledStudents (s_class_id session) w).

(** [{ session_id, student_id, status: 'absent', checkin_ts: new Date() }]. *)
Definition absent_record (now : Z) (sessionId : Z) (student_id : string) : AttendanceRow :=
  mkAttendance sessionId student_id absent (Some now) None None None.

(** [router.post('/sessions/:session_id/force-absent')]. *)
Definition forceAbsent (now : Z) (user : string) (sessionId : Z) (w : World)
  : World * Outcome :=
  match session_of_professor sessionId user w with
  | None => (w, Responded 404 (JsonError "Session not found"))
  | Some session =>
    let absentees := absentStudents sessionId session w in
    let done := Responded 200 (JsonAbsentDone "Absent computation completed"
                                 (Z.of_nat (List.length absentees))) in
    if (0 <? Z.of_nat (List.length absentees)) then
      let attendanceRecords := map (absent_record now sessionId) absentees in
      match Db.insert_all attendanceRecords (attendance w) with
      | inr t => (with_attendance w t, done)
      | inl e => (w, Next (DatabaseError e))
      end
    else (w, done)
  end.

End Classes.

(** ** Requests served one after the other *)

Inductive Request :=
| ReqStart (user : string) (classId : Z)
| ReqStop (classId : Z)
| ReqForceAbsent (user : string) (sessionId : Z)
| ReqPresence (body : Presence.Body)
| ReqCheckin (user : string) (body : Attendance.Body)
    (put : Attendance.PutResult) (ml : Attendance.MatchResult).

Definition handle (env : Env) (now : Z) (r : Request) (w : World) : World * Outcome :=
  match r with
  | ReqStart user classId => Classes.start now user classId w
  | ReqStop classId => Classes.stop now classId w
  | ReqForceAbsent user sessionId => Classes.forceAbsent now user sessionId w
  | ReqPresence body => Presence.record env now body w
  | ReqCheckin user body put ml => Attendance.checkin env now user body put ml w
  end.

(** A run: each request comes with the clock reading it is served at. *)
Fixpoint run (env : Env) (reqs : list (Z * Request)) (w : World) : World * list Outcome :=
  match reqs with
  | [] => (w, [])
  | (now, r) :: rest =>
      let '(w1, o) := handle env now r w in
      let '(w2, os) := run env rest w1 in
      (w2, o :: os)
  end.

(** The database before any session was started. *)
Definition fresh (cs : list ClassRow) (en : list EnrollmentRow) : World :=
  mkWorld cs en [] 1 [] [] 1 [].

(** ** middleware/auth and the guarded routes *)

Module Auth.

(** [s.split(sep)] for a one-character separator. *)
Fixpoint split (sep : ascii) (s : string) : list string :=
  match s with
  | EmptyString => [EmptyString]
  | String c r =>
      if Ascii.eqb c sep then EmptyString :: split sep r
      else match split sep r with
           | h :: t => String c h :: t
           | [] => [String c EmptyString]
           end
  end.

(** [req.user]: the [id], [type] and [email] of the token payload. *)
Record User := mkUser {
  u_id : string;
  u_type : string;
  u_email : string
}.

(** [authHeader && authHeader.split(' ')[1]]. *)
Definition token_of (authorization : option string) : option string :=
  match authorization with
  | Some authHeader =>
      if JS.truthyS (Some authHeader) then nth_error (split " " authHeader) 1
      else Some authHeader
  | None => None
  end.

(** [authenticateToken].  [verify token] is [jwt.verify(token, secret)]:
    the payload of a token that verifies, [None] when the call throws.
    The result is the response of the middleware, or the user it puts on
    the request before calling [next()]. *)
Definition authenticateToken (verify : string -> option User)
    (authorization : option string) : Outcome + User :=
  match token_of authorization with
  | Some token =>
      if negb (JS.truthyS (Some token))
      then inl (Responded 401 (JsonError "Access token required"))
      else match verify token with
           | Some decoded =>
               inr (mkUser (u_id decoded) (u_type decoded) (u_email decoded))
           | None => inl (Responded 403 (JsonError "Invalid or expired token"))
           end
  | None => inl (Responded 401 (JsonError "Access token required"))
  end.

(** [requireProfessor]: its response, or [None] when it calls [next()]. *)
Definition requireProfessor (user : option User) : option Outcome :=
  match user with
  | Some u =>
      if negb (String.eqb (u_type u) "professor")
      then Some (Responded 403 (JsonError "Professor access required"))
      else None
  | None => Some (Responded 403 (JsonError "Professor access required"))
  end.

(** [requireStudent]. *)
Definition requireStudent (user : option User) : option Outcome :=
  match user with
  | Some u =>
      if negb (String.eqb (u_type u) "student")
      then Some (Responded 403 (JsonError "Student access required"))
      else None
  | None => Some (Responded 403 (JsonError "Student access required"))
  end.

(** A route declared with [authenticateToken, requireProfessor, handler]. *)
Definition professor_route (verify : string -> option User)
    (authorization : option string) (handler : User -> World -> World * Outcome)
    (w : World) : World * Outcome :=
  match authenticateToken verify authorization with
  | inl response => (w, response)
  | inr user =>
      match requireProfessor (Some user) with
      | Some response => (w, response)
      | None => handler user w
      end
  end.

End Auth.

(** The three guarded routes of routes/classes, from the request header
    to the answer. *)
Module Routes.

(** [router.post('/:id/start', authenticateToken, requireProfessor, ...)]. *)
Definition start (verify : string -> option Auth.User) (authorization : option string)
    (now classId : Z) (w : World) : World * Outcome :=
  Auth.professor_route verify authorization
    (fun user => Classes.start now (Auth.u_id user) classId) w.

(** [router.post('/:id/stop', authenticateToken, requireProfessor, ...)]. *)
Definition stop (verify : string -> option Auth.User) (authorization : option string)
    (now classId : Z) (w : World) : World * Outcome :=
  Auth.professor_route verify authorization (fun _ => Classes.stop now classId) w.

(** [router.post('/sessions/:session_id/force-absent', authenticateToken,
    requireProfessor, ...)]. *)
Definition forceAbsent (verify : string -> option Auth.User)
    (authorization : option string) (now sessionId : Z) (w : World) : World * Outcome :=
  Auth.professor_route verify authorization
    (fun user => Classes.forceAbsent now (Auth.u_id user) sessionId) w.

End Routes.

(** ** routes/presence: the two listings *)

(** [students]: the columns the listings and the export read. *)
Record StudentRow := mkStudent {
  st_student_id : string;
  st_first_name : string;
  st_last_name : string;
  st_email : option string
}.

Module PresenceQueries.

(** A row of the listings: [presence_events.*] and three columns of the
    student. *)
Record EventView := mkView {
  v_event : EventRow;
  v_first_name : string;
  v_last_name : string;
  v_email : option string
}.

(** [.join('students', 'presence_events.student_id', 'students.student_id')]. *)
Definition join_students (students : list StudentRow) (events : list EventRow)
  : list EventView :=
  flat_map
    (fun e =>
       map (fun s => mkView e (st_first_name s) (st_last_name s) (st_email s))
         (filter (fun s => String.eqb (st_student_id s) (ev_student_id e)) students))
    events.

(** [.orderBy('presence_events.event_ts', 'desc')].  SQL leaves the order
    of rows with equal timestamps open, and it may differ from one query
    to the next.  This insertion is one of the orders allowed: it keeps
    rows of equal timestamp in table order. *)
Fixpoint insert_desc (v : EventView) (l : list EventView) : list EventView :=
  match l with
  | [] => [v]
  | x :: r =>
      if ev_event_ts (v_event x) <=? ev_event_ts (v_event v) then v :: l
      else x :: insert_desc v r
  end.

Definition orderBy_event_ts_desc (l : list EventView) : list EventView :=
  fold_right insert_desc [] l.

(** The rows the two routes select, before they are ordered: the join
    and [.where('presence_events.session_id', session_id)];
    [session_id] is the id the database reads from the request
    parameter. *)
Definition session_rows (students : list StudentRow) (session_id : Z) (w : World)
  : list EventView :=
  join_students students
    (filter (fun e => ev_session_id e =? session_id) (presence_events w)).

(** The rows of a session, newest first, in the order chosen above. *)
Definition events_of_session (students : list StudentRow) (session_id : Z) (w : World)
  : list EventView :=
  orderBy_event_ts_desc (session_rows students session_id w).

Inductive Listing :=
| ListError (code : Z) (error : string)
| ListRows (rows : list EventView).

(** [router.get('/')]: [session_id] is [None] when the query parameter is
    missing or empty. *)
Definition listing (students : list StudentRow) (session_id : option Z) (w : World)
  : Listing :=
  match session_id with
  | None => ListError 400 "Session ID required"
  | Some sid => ListRows (events_of_session students sid w)
  end.

(** [router.get('/realtime/:session_id')]: a query of its own, with the
    same join, [where] and [orderBy], and [.limit(100)].  [orderBy] is
    the order in which the database returns the rows this time: any of
    the orders that [ORDER BY event_ts DESC] allows, which need not be
    the one of another query. *)
Definition realtime (orderBy : list EventView -> list EventView)
    (students : list StudentRow) (session_id : Z) (w : World) : Listing :=
  ListRows (firstn 100 (orderBy (session_rows students session_id w))).

End PresenceQueries.

(** ** routes/attendance: the export *)

Module AttendanceExport.

(** A row of the select: four columns of the student, four of the
    attendance row. *)
Record Row := mkRow {
  x_student_id : string;
  x_first_name : string;
  x_last_name : string;
  x_email : option string;
  x_status : AttendanceStatus;
  x_checkin_ts : option Z;
  x_checkout_ts : option Z;
  x_presence_minutes : option Z
}.

(** [db('attendance').join('students', ...).where('attendance.session_id',
    session_id).select(...)]. *)
Definition rows (students : list StudentRow) (session_id : Z) (w : World) : list Row :=
  flat_map
    (fun a =>
       map (fun s => mkRow (st_student_id s) (st_first_name s) (st_last_name s)
                       (st_email s) (a_status a) (a_checkin_ts a) (a_checkout_ts a)
                       (a_presence_minutes a))
         (filter (fun s => String.eqb (st_student_id s) (a_student_id a)) students))
    (filter (fun a => a_session_id a =? session_id) (attendance w)).

(** The text of the [status] column. *)
Definition status_text (s : AttendanceStatus) : string :=
  match s with
  | present => "present"
  | late => "late"
  | absent => "absent"
  end.

(** [`${email}`] for a nullable column. *)
Definition email_text (e : option string) : string :=
  match e with
  | Some s => s
  | None => "null"
  end.

(** [`${ts || ''}`] for a nullable timestamp; [showDate] is the text of
    a [Date] in a template. *)
Definition date_text (showDate : Z -> string) (ts : option Z) : string :=
  match ts with
  | Some t => showDate t
  | None => ""
  end.

(** [`${presence_minutes || ''}`]: null and 0 are falsy. *)
Definition minutes_text (m : option Z) : string :=
  match m with
  | Some n => if n =? 0 then "" else JS.toString n
  | None => ""
  end.

(** The eight values of a line. *)
Definition fields (showDate : Z -> string) (r : Row) : list string :=
  [x_student_id r; x_first_name r; x_last_name r; email_text (x_email r);
   status_text (x_status r); date_text showDate (x_checkin_ts r);
   date_text showDate (x_checkout_ts r); minutes_text (x_presence_minutes r)].

(** The template of a line: the eight values separated by commas. *)
Definition line (showDate : Z -> string) (r : Row) : string :=
  x_student_id r ++ "," ++ x_first_name r ++ "," ++ x_last_name r ++ ","
  ++ email_text (x_email r) ++ "," ++ status_text (x_status r) ++ ","
  ++ date_text showDate (x_checkin_ts r) ++ ","
  ++ date_text showDate (x_checkout_ts r) ++ ","
  ++ minutes_text (x_presence_minutes r).

Definition newline : string := String (ascii_of_nat 10) EmptyString.

(** [lines.join(sep)]. *)
Fixpoint join (sep : string) (lines : list string) : string :=
  match lines with
  | [] => EmptyString
  | [x] => x
  | x :: r => x ++ sep ++ join sep r
  end.

Definition header_text : string :=
  "Student ID,First Name,Last Name,Email,Status,Check-in Time,Check-out Time,Presence Minutes".

Definition csvHeader : string := header_text ++ newline.

Definition csv (showDate : Z -> string) (attendance : list Row) : string :=
  csvHeader ++ join newline (map (line showDate) attendance).

Inductive Response :=
| ExportError (code : Z) (error : string)
| ExportCsv (filename : string) (body : string)
| ExportJson (session : SessionRow) (attendance : list Row).

(** [router.get('/export')].  [session_id] is [None] when the query
    parameter is missing or empty, [format] is [None] when it is missing
    (the default ['csv'] applies to a missing parameter only). *)
Definition exportAttendance (showDate : Z -> string) (students : list StudentRow)
    (session_id : option Z) (format : option string) (w : World) : Response :=
  match session_id with
  | None => ExportError 400 "Session ID required"
  | Some sid =>
    match Db.first
            (fun s => (s_session_id s =? sid) &&
                      existsb (fun c => c_class_id c =? s_class_id s) (classes w))
            (sessions w) with
    | None => ExportError 404 "Session not found"
    | Some session =>
      let attendance := rows students sid w in
      if String.eqb (match format with Some f => f | None => "csv" end) "csv"
      then ExportCsv ("attendance_" ++ JS.toString sid ++ ".csv") (csv showDate attendance)
      else ExportJson session attendance
    end
  end.

End AttendanceExport.

(** ** config/socketio: rooms *)

Module Rooms.

(** What a client sends: the two events [initializeSocketIO] listens to,
    and the loss of the connection. *)
Inductive ClientMessage :=
| JoinAttendance (sessionId : string)
| LeaveAttendance (sessionId : string)
| Disconnected.

(** Who is in which room: pairs (socket id, room). *)
Definition Memberships := list (string * string).

Definition in_room (socket room : string) (m : Memberships) : bool :=
  existsb (fun p => String.eqb (fst p) socket && String.eqb (snd p) room) m.

(** [socket.join(room)]: the rooms of a socket are a set. *)
Definition join (socket room : string) (m : Memberships) : Memberships :=
  if in_room socket room m then m else (socket, room) :: m.

(** [socket.leave(room)]. *)
Definition leave (socket room : string) (m : Memberships) : Memberships :=
  filter (fun p => negb (String.eqb (fst p) socket && String.eqb (snd p) room)) m.

(** A socket that disconnects is taken out of its rooms by socket.io;
    the handler of the event only logs. *)
Definition disconnect (socket : string) (m : Memberships) : Memberships :=
  filter (fun p => negb (String.eqb (fst p) socket)) m.

(** The listeners set up for a socket by [initializeSocketIO]. *)
Definition on (socket : string) (msg : ClientMessage) (m : Memberships) : Memberships :=
  match msg with
  | JoinAttendance sessionId => join socket (SocketIO.room sessionId) m
  | LeaveAttendance sessionId => leave socket (SocketIO.room sessionId) m
  | Disconnected => disconnect socket m
  end.

(** The messages of the clients, served in order. *)
Definition serve (msgs : list (string * ClientMessage)) (m : Memberships) : Memberships :=
  fold_left (fun m sm => on (fst sm) (snd sm) m) msgs m.

Definition room_of (e : Emit) : string :=
  match e with
  | EmitPresenceEvent room _ => room
  | EmitSessionStatus room _ _ => room
  end.

(** [io.to(room).emit(...)]: the sockets the message is sent to. *)
Definition receivers (e : Emit) (m : Memberships) : list string :=
  map fst (filter (fun p => String.eqb (snd p) (room_of e)) m).

End Rooms.

(** ** lib/socket: the client of the channel *)

Module SocketService.

(** [socket] ([None] is [null]) with its [connected] flag, and
    [reconnectAttempts]. *)
Record State := mkState {
  socket : option bool;
  reconnectAttempts : Z
}.

Definition maxReconnectAttempts : Z := 5.

Definition initial : State := mkState None 0.

(** [connect(token)]: an existing connected socket is kept; otherwise a
    new socket is made, which is not connected yet. *)
Definition connect (s : State) : State :=
  match socket s with
  | Some true => s
  | _ => mkState (Some false) (reconnectAttempts s)
  end.

(** The listener of ['connect']: the socket is connected, the counter is
    reset. *)
Definition on_connect (s : State) : State :=
  mkState (match socket s with Some _ => Some true | None => None end) 0.

(** The listener of ['disconnect']: the socket is no longer connected. *)
Definition on_disconnect (s : State) : State :=
  mkState (match socket s with Some _ => Some false | None => None end)
    (reconnectAttempts s).

(** [handleReconnect()], the listener of ['connect_error']: the new
    state and the delay, in milliseconds, of the reconnection it
    schedules, if it schedules one. *)
Definition handleReconnect (s : State) : State * option Z :=
  if reconnectAttempts s <? maxReconnectAttempts then
    let attempts := reconnectAttempts s + 1 in
    let delay := 2 ^ attempts * 1000 in
    (mkState (socket s) attempts, Some delay)
  else (s, None).

(** [joinAttendanceRoom(sessionId)] / [leaveAttendanceRoom(sessionId)]:
    the message sent to the server, if any. *)
Definition joinAttendanceRoom (sessionId : string) (s : State)
  : option Rooms.ClientMessage :=
  match socket s with
  | Some true => Some (Rooms.JoinAttendance sessionId)
  | _ => None
  end.

Definition leaveAttendanceRoom (sessionId : string) (s : State)
  : option Rooms.ClientMessage :=
  match socket s with
  | Some true => Some (Rooms.LeaveAttendance sessionId)
  | _ => None
  end.

(** [disconnect()]. *)
Definition disconnect (s : State) : State :=
  match socket s with
  | Some _ => mkState None (reconnectAttempts s)
  | None => s
  end.

(** What happens to the service: calls of its methods and events of its
    socket. *)
Inductive Event :=
| CallConnect
| CallDisconnect
| SocketConnect
| SocketDisconnect
| SocketConnectError.

(** One event: the new state and the delay of the reconnection that was
    scheduled, if one was. *)
Definition step (s : State) (e : Event) : State * option Z :=
  match e with
  | CallConnect => (connect s, None)
  | CallDisconnect => (disconnect s, None)
  | SocketConnect => (on_connect s, None)
  | SocketDisconnect => (on_disconnect s, None)
  | SocketConnectError => handleReconnect s
  end.

(** A history of events: the final state and the delays scheduled, in
    order. *)
Fixpoint run (s : State) (events : list Event) : State * list Z :=
  match events with
  | [] => (s, [])
  | e :: rest =>
      let '(s1, d) := step s e in
      let '(s2, ds) := run s1 rest in
      (s2, match d with Some delay => delay :: ds | None => ds end)
  end.

End SocketService.

(** ** lib/auth: what the browser keeps of the login *)

Module ClientAuth.

(** [User]: the user stored by the login, with its optional names. *)
Record User := mkUser {
  id : string;
  type : string;
  email : string;
  first_name : option string;
  last_name : option string
}.

End ClientAuth.

(** ** app/professor/session: the page that watches a session *)

Module SessionPage.

(** The test that opens the effect,
    [!user || user.type !== 'professor']; [user] is what [getUser()]
    returned, [None] for [null]. *)
Definition turned_away (user : option ClientAuth.User) : bool :=
  match user with
  | Some u => negb (String.eqb (ClientAuth.type u) "professor")
  | None => true
  end.

(** What the effect of the page did: the state of the service, the
    message sent to the server, if any, and whether it returned its
    cleanup. *)
Record Mounted := mkMounted {
  service : SocketService.State;
  sent : option Rooms.ClientMessage;
  cleanup : bool
}.

(** The effect run when the page of a session is shown.  A visitor who
    is not a professor is sent to ['/'] and the effect returns at once:
    the service is not touched and no cleanup is returned.  Otherwise
    [if (token) socketService.connect(token)], then
    [setupSocketListeners()], whose first statement is
    [socketService.joinAttendanceRoom(params.sessionId)]; [has_token]
    says that [getToken()] returned a non-empty string. *)
Definition mount (user : option ClientAuth.User) (has_token : bool)
    (sessionId : string) (s : SocketService.State) : Mounted :=
  if turned_away user then mkMounted s None false
  else
    let s1 := if has_token then SocketService.connect s else s in
    mkMounted s1 (SocketService.joinAttendanceRoom sessionId s1) true.

(** When the page goes away, the cleanup of the effect, if it returned
    one: [socketService.leaveAttendanceRoom(params.sessionId)]. *)
Definition unmount (m : Mounted) (sessionId : string) (s : SocketService.State)
  : option Rooms.ClientMessage :=
  if cleanup m then SocketService.leaveAttendanceRoom sessionId s else None.

End SessionPage.

(** * Vocabulary of the properties *)

(** ** Frames *)

Record same_sessions (w w' : World) : Prop := {
  same_classes : classes w' = classes w;
  same_class_students : class_students w' = class_students w;
  same_session_rows : sessions w' = sessions w;
  same_next_session_id : next_session_id w' = next_session_id w
}.

Record same_attendance (w w' : World) : Prop := {
  same_attendance_rows : attendance w' = attendance w;
  same_event_rows : presence_events w' = presence_events w;
  same_next_event_id : next_event_id w' = next_event_id w
}.

(** ** Sessions *)

(** Number of open sessions of a class. *)
Definition open_count (c : Z) (t : list SessionRow) : nat :=
  List.length (filter (open_for_class c) t).

Definition one_open_per_class (w : World) : Prop :=
  forall c, (open_count c (sessions w) <= 1)%nat.

(** The invariant of the [sessions] table: one open session per class,
    and the primary key (ids below the auto-increment counter, pairwise
    distinct). *)
Record sessions_wf (w : World) : Prop := {
  wf_one_open : one_open_per_class w;
  wf_ids_fresh : Forall (fun s => s_session_id s < next_session_id w) (sessions w);
  wf_ids_unique : NoDup (map s_session_id (sessions w))
}.

(** ** Attendance rows *)

Definition key (r : AttendanceRow) : Z * string := (a_session_id r, a_student_id r).

(** The unique index of [attendance]. *)
Definition attendance_unique (w : World) : Prop := NoDup (map key (attendance w)).

(** The rows of a pair. *)
Definition records_of (session_id : Z) (student_id : string) (w : World)
  : list AttendanceRow :=
  filter (Db.same_key session_id student_id) (attendance w).

(** The pair has at least as many rows in [t'] as in [t]. *)
Definition grows (sid : Z) (pid : string) (t t' : list AttendanceRow) : Prop :=
  (List.length (filter (Db.same_key sid pid) t)
   <= List.length (filter (Db.same_key sid pid) t'))%nat.

(** The row that an ENTER inserts. *)
Definition entered (env : Env) (now sid : Z) (pid : string) (session : SessionRow)
    (evidence : option string) : AttendanceRow :=
  mkAttendance sid pid (status_of (Presence.isStudentLate env now (s_start_ts session)))
    (Some now) None None evidence.

(** The [update] of an EXIT on a row. *)
Definition checked_out (now : Z) (r : AttendanceRow) : AttendanceRow :=
  mkAttendance (a_session_id r) (a_student_id r) (a_status r) (a_checkin_ts r)
    (Some now) (a_presence_minutes r) (a_selfie_url r).

(** The rows of the absence computation, as the handler builds them. *)
Definition absent_row (now sessionId : Z) (r : AttendanceRow) : Prop :=
  a_session_id r = sessionId
  /\ a_status r = absent
  /\ a_checkin_ts r = Some now
  /\ a_checkout_ts r = None
  /\ a_presence_minutes r = None
  /\ a_selfie_url r = None.

(** Every enrolled student of the class has an attendance row for the
    session: what the absence computation establishes when it succeeds. *)
Definition reconciled (sessionId class_id : Z) (w : World) : Prop :=
  forall student,
    In student (Classes.enrolledStudents class_id w) ->
    exists r, In r (attendance w)
              /\ a_session_id r = sessionId /\ a_student_id r = student.

(** ** Presence events and their answers *)

(** The event row that an accepted request appends. *)
Definition logged (now sid : Z) (pid et : string) (source : option string)
    (details : option Details) (w : World) : EventRow :=
  mkEvent (next_event_id w) sid pid et now (JS.or_default source "cctv") details.

(** A sequence of presence events, as requests. *)
Definition as_requests (events : list (Z * Presence.Body)) : list (Z * Request) :=
  map (fun e => (fst e, ReqPresence (snd e))) events.

(** The body is an ENTER of the pair. *)
Definition is_enter (sid : Z) (pid : string) (body : Presence.Body) : bool :=
  match Presence.b_session_id body, Presence.b_student_id body,
        Presence.b_event_type body with
  | Some s, Some p, Some e => (s =? sid) && String.eqb p pid && String.eqb e "in"
  | _, _, _ => false
  end.

(** The handler answered 201. *)
Definition accepted (o : Outcome) : bool :=
  match o with
  | Responded 201 _ => true
  | _ => false
  end.

(** Some ENTER of the pair in the sequence was accepted. *)
Definition enter_accepted (sid : Z) (pid : string)
    (events : list (Z * Presence.Body)) (outs : list Outcome) : Prop :=
  Exists (fun eo => is_enter sid pid (snd (fst eo)) && accepted (snd eo) = true)
    (combine events outs).

(** The request got a response (it did not end in the error handler). *)
Definition responded (o : Outcome) : Prop :=
  exists code json, o = Responded code json.

(** The request is answered with a 4xx / 5xx status, or ends in the error
    handler. *)
Definition failure (o : Outcome) : Prop :=
  match o with
  | Responded code _ => 400 <= code
  | Next _ => True
  end.

(** ** The face check-in *)

(** [imageUrl] of the check-in handler. *)
Definition imageUrl (env : Env) (now session_id : Z) (user : string) : string :=
  JS.template (MINIO_ENDPOINT env) ++ "/labface/"
  ++ ("checkins/" ++ JS.toString session_id ++ "/" ++ user ++ "_"
      ++ JS.toString now ++ ".jpg").

(** The ML service answered, with [matched] set and the id of the caller. *)
Definition ml_confirms (ml : Attendance.MatchResult) (user : string) : bool :=
  match ml with
  | Attendance.MatchReply data => Attendance.confirmed data user
  | Attendance.MatchThrows => false
  end.

(** ** Sample data *)

(** 09:00, 09:10 and 09:45 of the same day, in milliseconds. *)
Definition t_09_00 : Z := 9 * 3600000.
Definition t_09_10 : Z := 9 * 3600000 + 10 * 60000.
Definition t_09_45 : Z := 9 * 3600000 + 45 * 60000.

(** Class 1 of professor P1 with student S1 enrolled, session 1 started
    at 09:00. *)
Definition one_student_session : World :=
  fst (run (mkEnv None None) [(t_09_00, ReqStart "P1" 1)]
         (fresh [mkClass 1 "P1"] [mkEnrollment 1 "S1"])).

(** That state after the absence computation of 10:00. *)
Definition after_first_absence_run : World :=
  fst (Classes.forceAbsent 36000000 "P1" 1 one_student_session).

(** An EXIT of student S1 on session 1, with nothing else in the body. *)
Definition exit_S1 : Presence.Body :=
  Presence.mkBody (Some 1) (Some "S1") (Some "out") None None.

(** An ENTER of student S1 on session 1, seen on an image with a score. *)
Definition enter_S1 (image : option string) (score : option Q) : Presence.Body :=
  Presence.mkBody (Some 1) (Some "S1") (Some "in") None
    (Some (mkDetails image score None None)).

(** Session 1 after the ENTER of S1 at 09:10. *)
Definition S1_present : World :=
  fst (Presence.record (mkEnv None None) t_09_10 (enter_S1 None None)
         one_student_session).

(** Session 1 after the ENTER of S1 at 09:10, seen on image a.jpg with
    score 0.9. *)
Definition S1_seen : World :=
  fst (Presence.record (mkEnv None None) t_09_10
         (enter_S1 (Some "a.jpg") (Some (9 # 10))) one_student_session).

(** The reply of the ML service: a match, for student S2. *)
Definition match_for_S2 : Attendance.MatchResult :=
  Attendance.MatchReply
    (Attendance.mkMatchData true (Some "S2") (Some (9 # 10)) (Some (9 # 10))).

(** ** Proof steps *)

(** Case analysis on the tests of a handler. *)
Ltac handler_cases :=
  repeat match goal with
         | |- context [match ?x with _ => _ end] =>
             lazymatch x with
             | context [match _ with _ => _ end] => fail
             | _ => destruct x eqn:?
             end
         end.

(** ** The event log and the channel *)

(** The request appended an event to the log: a presence event answered
    201, a check-in answered 200. *)
Definition logs_event (r : Request) (o : Outcome) : bool :=
  match r, o with
  | ReqPresence _, Responded 201 _ => true
  | ReqCheckin _ _ _ _, Responded 200 _ => true
  | _, _ => false
  end.

(** Number of requests of a run that appended an event. *)
Fixpoint logged_count (reqs : list (Z * Request)) (outs : list Outcome) : nat :=
  match reqs, outs with
  | (_, r) :: reqs', o :: outs' =>
      ((if logs_event r o then 1 else 0) + logged_count reqs' outs')%nat
  | _, _ => 0%nat
  end.

(** [n] consecutive ids from [first]. *)
Definition consecutive (first : Z) (n : nat) : list Z :=
  map (fun k => first + Z.of_nat k) (seq 0 n).

(** What a presence message on the channel says: room, student, event
    type and source.  Status messages say nothing about events. *)
Definition published (e : Emit) : list (string * string * string * string) :=
  match e with
  | EmitPresenceEvent room p => [(room, p_student_id p, p_event_type p, p_source p)]
  | EmitSessionStatus _ _ _ => []
  end.

(** The same four values, read from a row of the log. *)
Definition announcement (ev : EventRow) : string * string * string * string :=
  (SocketIO.room (JS.toString (ev_session_id ev)), ev_student_id ev,
   ev_event_type ev, ev_source ev).

(** The channel says what the log holds, in the same order. *)
Definition channel_mirrors_log (w : World) : Prop :=
  flat_map published (emitted w) = map announcement (presence_events w).

(** The log holds an ENTER of the pair. *)
Definition entered_in_log (sid : Z) (pid : string) (w : World) : Prop :=
  exists e, In e (presence_events w)
            /\ ev_session_id e = sid /\ ev_student_id e = pid
            /\ ev_event_type e = "in".

(** The log backs the attendance table: a present or late row has an
    ENTER of its pair in the log, and every logged ENTER has a present or
    late row. *)
Definition log_backs_attendance (w : World) : Prop :=
  (forall r, In r (attendance w) -> is_checked_in (a_status r) = true ->
             entered_in_log (a_session_id r) (a_student_id r) w)
  /\ (forall e, In e (presence_events w) -> ev_event_type e = "in" ->
                exists r, In r (attendance w)
                          /\ a_session_id r = ev_session_id e
                          /\ a_student_id r = ev_student_id e
                          /\ is_checked_in (a_status r) = true).

(** ** Request headers *)

(** The string has no space. *)
Fixpoint no_space (s : string) : bool :=
  match s with
  | EmptyString => true
  | String c r => negb (Ascii.eqb c " ") && no_space r
  end.

(** The answers of the two middlewares. *)
Definition unauthorized (o : Outcome) : Prop :=
  o = Responded 401 (JsonError "Access token required")
  \/ o = Responded 403 (JsonError "Invalid or expired token")
  \/ o = Responded 403 (JsonError "Professor access required").

(** ** What the handlers write in a row *)

(** The duration is null, the entry timestamp is set, and an absent row
    has no evidence. *)
Definition row_shape (r : AttendanceRow) : Prop :=
  a_presence_minutes r = None
  /\ a_checkin_ts r <> None
  /\ (a_status r = absent -> a_selfie_url r = None).

(** ** Listings *)

(** Each row is at least as recent as the rows after it. *)
Fixpoint newest_first (l : list PresenceQueries.EventView) : Prop :=
  match l with
  | [] => True
  | x :: r =>
      (forall y, In y r ->
                 ev_event_ts (PresenceQueries.v_event y)
                 <= ev_event_ts (PresenceQueries.v_event x))
      /\ newest_first r
  end.

(** What [ORDER BY event_ts DESC] promises of its result: the rows it
    was given, each as often as it was given, newest first. *)
Definition ordered_by_event_ts_desc (rows result : list PresenceQueries.EventView)
  : Prop :=
  Permutation rows result /\ newest_first result.

(** Student S1 as the [students] table has it. *)
Definition student_S1 : StudentRow := mkStudent "S1" "Ada" "Cruz" None.

(** Session 1 after an ENTER and an EXIT of S1 handled at the same clock
    reading, 09:10. *)
Definition S1_in_and_out_at_once : World :=
  fst (run (mkEnv None None)
         [(t_09_10, ReqPresence (enter_S1 None None)); (t_09_10, ReqPresence exit_S1)]
         one_student_session).

(** ** Separated text *)

(** The string does not hold the character. *)
Fixpoint lacks (c : ascii) (s : string) : bool :=
  match s with
  | EmptyString => true
  | String x r => negb (Ascii.eqb x c) && lacks c r
  end.

(** Number of occurrences of the character in the string. *)
Fixpoint occurrences (c : ascii) (s : string) : nat :=
  match s with
  | EmptyString => 0%nat
  | String x r => ((if Ascii.eqb x c then 1 else 0) + occurrences c r)%nat
  end.

(** The line feed. *)
Definition LF : ascii := ascii_of_nat 10.

(** ** Rooms *)

(** Whether the socket is subscribed to the session after the messages:
    its last message about the session, or its disconnection, decides. *)
Fixpoint subscribed (socket sessionId : string)
    (msgs : list (string * Rooms.ClientMessage)) (before : bool) : bool :=
  match msgs with
  | [] => before
  | (s, msg) :: rest =>
      subscribed socket sessionId rest
        (if String.eqb s socket then
           match msg with
           | Rooms.JoinAttendance x => if String.eqb x sessionId then true else before
           | Rooms.LeaveAttendance x => if String.eqb x sessionId then false else before
           | Rooms.Disconnected => false
           end
         else before)
  end.

(** ** The client of the channel *)

(** No ['connect'] event in the history. *)
Definition never_connects (events : list SocketService.Event) : Prop :=
  ~ In SocketService.SocketConnect events.

(** Sum of the delays. *)
Definition total_delay (delays : list Z) : Z := fold_right Z.add 0 delays.

(** ** Numbers in text *)

(** The value of a run of decimal digits read after [acc]. *)
Fixpoint uint_value (d : Decimal.uint) (acc : Z) : Z :=
  match d with
  | Decimal.Nil => acc
  | Decimal.D0 l => uint_value l (10 * acc + 0)
  | Decimal.D1 l => uint_value l (10 * acc + 1)
  | Decimal.D2 l => uint_value l (10 * acc + 2)
  | Decimal.D3 l => uint_value l (10 * acc + 3)
  | Decimal.D4 l => uint_value l (10 * acc + 4)
  | Decimal.D5 l => uint_value l (10 * acc + 5)
  | Decimal.D6 l => uint_value l (10 * acc + 6)
  | Decimal.D7 l => uint_value l (10 * acc + 7)
  | Decimal.D8 l => uint_value l (10 * acc + 8)
  | Decimal.D9 l => uint_value l (10 * acc + 9)
  end.

(** The text cannot continue a number: it is empty, or starts with a
    character that is neither a decimal digit nor the [x] of a
    hexadecimal prefix. *)
Definition ends_number (rest : string) : bool :=
  match rest with
  | EmptyString => true
  | String c _ =>
      let n := nat_of_ascii c in
      negb ((48 <=? n)%nat && (n <=? 57)%nat)
      && negb (Nat.eqb n 120) && negb (Nat.eqb n 88)
  end.

(** * Properties *)

(** ** The late / present resolver *)

Section Resolver.

Variable env : Env.

Lemma diffMinutes_gt (now sessionStart T : Z) :
  negb (Qle_bool ((now - sessionStart) # 60000) (inject_Z T)) = true
  <-> T * 60000 < now - sessionStart.
Proof.
  rewrite negb_true_iff, <- not_true_iff_false, Qle_bool_iff.
  unfold Qle, inject_Z; simpl. lia.
Qed.

Lemma isStudentLate_iff (now sessionStart T : Z) :
  lateThresholdMinutes env = Some T ->
  Presence.isStudentLate env now sessionStart = true
  <-> T * 60000 < now - sessionStart.
Proof.
  intros HT. unfold Presence.isStudentLate. rewrite HT.
  apply diffMinutes_gt.
Qed.

Lemma isStudentLate_NaN (now sessionStart : Z) :
  lateThresholdMinutes env = None ->
  Presence.isStudentLate env now sessionStart = false.
Proof.
  intros HT. unfold Presence.isStudentLate. now rewrite HT.
Qed.

Lemma isStudentLate_copies (now sessionStart : Z) :
  Attendance.isStudentLate env now sessionStart
  = Presence.isStudentLate env now sessionStart.
Proof. reflexivity. Qed.

End Resolver.

Lemma lateThresholdMinutes_default (e : option string) :
  lateThresholdMinutes (mkEnv None e) = Some 30.
Proof. reflexivity. Qed.

(** C8. The resolver depends only on the clock reading of the event, the
    session start and the configured threshold: with a threshold of [T]
    minutes it answers late exactly when the elapsed time, in minutes,
    is strictly greater than [T], and present otherwise, in both copies
    of the helper.  With a start at 09:00 and a threshold of 30 minutes
    an entry at 09:10 is present and an entry at 09:45 is late. *)
Theorem resolver_late_iff_threshold_exceeded :
  forall (env : Env) (now sessionStart T : Z),
    lateThresholdMinutes env = Some T ->
    (Presence.isStudentLate env now sessionStart = true
       <-> (inject_Z T < (now - sessionStart) # 60000)%Q)
    /\ (status_of (Presence.isStudentLate env now sessionStart) = late
          <-> T * 60000 < now - sessionStart)
    /\ (status_of (Presence.isStudentLate env now sessionStart) = present
          <-> now - sessionStart <= T * 60000)
    /\ Attendance.isStudentLate env now sessionStart
       = Presence.isStudentLate env now sessionStart
    /\ status_of (Presence.isStudentLate (mkEnv (Some "30") None) t_09_10 t_09_00) = present
    /\ status_of (Presence.isStudentLate (mkEnv (Some "30") None) t_09_45 t_09_00) = late.
Proof.
  intros env now sessionStart T HT.
  pose proof (isStudentLate_iff env now sessionStart T HT) as Hiff.
  assert (HQ : (inject_Z T < (now - sessionStart) # 60000)%Q
               <-> T * 60000 < now - sessionStart)
    by (unfold Qlt, inject_Z; simpl; lia).
  split; [rewrite HQ; exact Hiff|].
  split; [|split; [|split; [reflexivity | split; reflexivity]]].
  - destruct (Presence.isStudentLate env now sessionStart); simpl.
    + split; [intros _; now apply Hiff | reflexivity].
    + split; [discriminate | intros H; apply Hiff in H; discriminate].
  - destruct (Presence.isStudentLate env now sessionStart); simpl.
    + split; [discriminate|].
      intros H. assert (T * 60000 < now - sessionStart) by now apply Hiff. lia.
    + split; [|reflexivity]. intros _.
      destruct (Z_lt_le_dec (T * 60000) (now - sessionStart)) as [Hlt|Hle]; [|exact Hle].
      apply Hiff in Hlt. discriminate.
Qed.

Lemma resolver_late_iff_threshold_exceeded_witness :
  lateThresholdMinutes (mkEnv (Some " 45 minutes") None) = Some 45
  /\ status_of (Presence.isStudentLate (mkEnv (Some " 45 minutes") None) 2700001 0) = late.
Proof.
  split; [reflexivity|].
  destruct (resolver_late_iff_threshold_exceeded
              (mkEnv (Some " 45 minutes") None) 2700001 0 45 eq_refl)
    as (_ & Hlate & _).
  apply Hlate. lia.
Defined.

(** ** What each handler leaves alone *)

Lemma record_same_sessions env now body w :
  same_sessions w (fst (Presence.record env now body w)).
Proof.
  unfold Presence.record. handler_cases; split; reflexivity.
Qed.

Lemma checkin_same_sessions env now user body put ml w :
  same_sessions w (fst (Attendance.checkin env now user body put ml w)).
Proof.
  unfold Attendance.checkin. handler_cases; split; reflexivity.
Qed.

Lemma forceAbsent_same_sessions now user sessionId w :
  same_sessions w (fst (Classes.forceAbsent now user sessionId w)).
Proof.
  unfold Classes.forceAbsent. handler_cases; split; reflexivity.
Qed.

Lemma start_same_attendance now user classId w :
  same_attendance w (fst (Classes.start now user classId w)).
Proof.
  unfold Classes.start. handler_cases; split; reflexivity.
Qed.

Lemma stop_same_attendance now classId w :
  same_attendance w (fst (Classes.stop now classId w)).
Proof.
  unfold Classes.stop. handler_cases; split; reflexivity.
Qed.

(** ** Session lifecycle: one open session per class *)

Lemma first_None_filter {A : Type} (p : A -> bool) (t : list A) :
  Db.first p t = None -> filter p t = [].
Proof.
  unfold Db.first. induction t as [|r t IH]; simpl; [reflexivity|].
  destruct (p r); [discriminate | exact IH].
Qed.

Lemma first_Some {A : Type} (p : A -> bool) (t : list A) (r : A) :
  Db.first p t = Some r -> In r t /\ p r = true.
Proof. apply find_some. Qed.

Lemma first_of_member {A : Type} (p : A -> bool) (t : list A) (r : A) :
  In r t -> p r = true -> Db.first p t <> None.
Proof.
  intros Hin Hp Hnone. unfold Db.first in Hnone.
  now rewrite (find_none p t Hnone r Hin) in Hp.
Qed.

Lemma filter_update_le {A : Type} (p q : A -> bool) (g : A -> A) (t : list A) :
  (forall r, p (g r) = true -> p r = true) ->
  (List.length (filter p (Db.update q g t)) <= List.length (filter p t))%nat.
Proof.
  intros Hg. unfold Db.update.
  induction t as [|r t IH]; simpl; [lia|].
  destruct (q r).
  - destruct (p (g r)) eqn:E.
    + rewrite (Hg r E). simpl. lia.
    + destruct (p r); simpl; lia.
  - destruct (p r); simpl; lia.
Qed.

Lemma open_for_class_close c now s :
  open_for_class c (Classes.close now s) = false.
Proof. unfold open_for_class. simpl. apply andb_false_r. Qed.

Lemma map_id_update now q t :
  map s_session_id (Db.update q (Classes.close now) t) = map s_session_id t.
Proof.
  unfold Db.update. rewrite map_map. apply map_ext.
  intros r. now destruct (q r).
Qed.

(** The one session of a class that is open is the one [.first()] finds. *)
Lemma open_session_is_first c t s a :
  (open_count c t <= 1)%nat ->
  In s t -> open_for_class c s = true ->
  Db.first (open_for_class c) t = Some a -> a = s.
Proof.
  unfold open_count, Db.first.
  induction t as [|r t IH]; simpl; intros Hc Hin Hs Ha; [contradiction|].
  destruct (open_for_class c r) eqn:E.
  - injection Ha as <-. destruct Hin as [->|Hin]; [reflexivity|].
    simpl in Hc.
    assert (In s (filter (open_for_class c) t)) as Hf by (apply filter_In; auto).
    destruct (filter (open_for_class c) t); [contradiction | simpl in Hc; lia].
  - destruct Hin as [->|Hin]; [congruence|]. now apply IH.
Qed.

(** Updating by a key that identifies one row changes that row only. *)
Lemma update_by_id_other now a t s :
  In s t -> s_session_id s <> s_session_id a ->
  In s (Db.update (fun r => s_session_id r =? s_session_id a) (Classes.close now) t).
Proof.
  intros Hin Hne. unfold Db.update. apply in_map_iff. exists s. split; [|exact Hin].
  destruct (Z.eqb_spec (s_session_id s) (s_session_id a)); [contradiction|reflexivity].
Qed.

Lemma update_by_id_self now a t :
  In a t ->
  In (Classes.close now a)
     (Db.update (fun r => s_session_id r =? s_session_id a) (Classes.close now) t).
Proof.
  intros Hin. unfold Db.update. apply in_map_iff. exists a. split; [|exact Hin].
  now rewrite Z.eqb_refl.
Qed.

Lemma NoDup_ids_inj t s a :
  NoDup (map s_session_id t) -> In s t -> In a t ->
  s_session_id s = s_session_id a -> s = a.
Proof.
  induction t as [|r t IH]; simpl; intros Hnd Hs Ha Heq; [contradiction|].
  inversion Hnd as [|? ? Hnotin Hnd']; subst.
  destruct Hs as [->|Hs], Ha as [->|Ha]; auto.
  - exfalso. apply Hnotin. rewrite Heq. now apply in_map.
  - exfalso. apply Hnotin. rewrite <- Heq. now apply in_map.
Qed.

Lemma start_wf now user classId w :
  sessions_wf w -> sessions_wf (fst (Classes.start now user classId w)).
Proof.
  intros [Hone Hfresh Huniq]. unfold Classes.start.
  destruct (Db.first (Classes.owned_class classId user) (classes w)); [|now split].
  destruct (Db.first (open_for_class classId) (sessions w)) eqn:Hopen; [now split|].
  simpl. split; simpl.
  - intros k. unfold open_count. simpl. rewrite filter_app, length_app. simpl.
    unfold open_for_class at 2. simpl. rewrite andb_true_r.
    destruct (Z.eqb_spec classId k) as [->|Hne]; simpl.
    + rewrite (first_None_filter _ _ Hopen). simpl. lia.
    + specialize (Hone k). unfold open_count in Hone. lia.
  - apply Forall_app. split.
    + eapply Forall_impl; [|exact Hfresh]. simpl. intros; lia.
    + constructor; [simpl; lia | constructor].
  - rewrite map_app. simpl.
    apply NoDup_app; [exact Huniq | repeat constructor; intros [] |].
    intros x Hx [<-|[]]. apply in_map_iff in Hx as (s & Hs & Hin).
    rewrite Forall_forall in Hfresh. specialize (Hfresh s Hin). simpl in Hfresh. lia.
Qed.

Lemma stop_wf now classId w :
  sessions_wf w -> sessions_wf (fst (Classes.stop now classId w)).
Proof.
  intros [Hone Hfresh Huniq]. unfold Classes.stop.
  destruct (Db.first (open_for_class classId) (sessions w)) as [a|]; [|now split].
  simpl. split; simpl.
  - intros k. specialize (Hone k). unfold open_count in *. simpl.
    etransitivity; [|exact Hone].
    apply filter_update_le. intros r. now rewrite open_for_class_close.
  - unfold Db.update. apply Forall_map.
    eapply Forall_impl; [|exact Hfresh]. simpl.
    intros r Hr. now destruct (s_session_id r =? s_session_id a).
  - now rewrite map_id_update.
Qed.

Lemma sessions_wf_same w w' :
  same_sessions w w' -> sessions_wf w -> sessions_wf w'.
Proof.
  intros [_ _ Hs Hn] [Hone Hfresh Huniq].
  split; unfold one_open_per_class; rewrite ?Hs, ?Hn; assumption.
Qed.

Lemma handle_wf env now r w :
  sessions_wf w -> sessions_wf (fst (handle env now r w)).
Proof.
  destruct r; simpl.
  - apply start_wf.
  - apply stop_wf.
  - apply sessions_wf_same, forceAbsent_same_sessions.
  - apply sessions_wf_same, record_same_sessions.
  - apply sessions_wf_same, checkin_same_sessions.
Qed.

Lemma run_wf env reqs : forall w,
  sessions_wf w -> sessions_wf (fst (run env reqs w)).
Proof.
  induction reqs as [|[now r] rest IH]; intros w Hw; simpl; [exact Hw|].
  pose proof (handle_wf env now r w Hw) as H1.
  destruct (handle env now r w) as [w1 o]. simpl in H1.
  specialize (IH w1 H1). destruct (run env rest w1) as [w2 os]. exact IH.
Qed.

Lemma empty_sessions_wf w : sessions w = [] -> sessions_wf w.
Proof.
  intros H. split; unfold one_open_per_class; rewrite H; simpl; auto using NoDup_nil.
Qed.

(** A start on a class that has an open session creates nothing: the
    professor of the class is told that a session is already active,
    anybody else that the class is not found. *)
Lemma start_conflict now user classId w :
  (exists s, In s (sessions w) /\ s_class_id s = classId /\ s_status s = open) ->
  Classes.start now user classId w
  = (w, if existsb (Classes.owned_class classId user) (classes w)
        then Responded 400 (JsonError "Session already active for this class")
        else Responded 404 (JsonError "Class not found")).
Proof.
  intros (s & Hin & Hc & Hs). unfold Classes.start.
  destruct (Db.first (Classes.owned_class classId user) (classes w)) as [c|] eqn:Hown.
  - apply first_Some in Hown as [Hcin Hc'].
    assert (existsb (Classes.owned_class classId user) (classes w) = true) as ->
        by (apply existsb_exists; eauto).
    destruct (Db.first (open_for_class classId) (sessions w)) eqn:Hopen; [reflexivity|].
    exfalso. apply (first_of_member (open_for_class classId) (sessions w) s Hin); auto.
    unfold open_for_class. rewrite Hc, Hs, Z.eqb_refl. reflexivity.
  - assert (existsb (Classes.owned_class classId user) (classes w) = false) as ->; auto.
    apply not_true_is_false. intros Hex. apply existsb_exists in Hex as (c & Hcin & Hc').
    unfold Db.first in Hown. now rewrite (find_none _ _ Hown c Hcin) in Hc'.
Qed.

(** An open session stays as it is through every request except a stop
    of its own class, which closes it. *)
Lemma open_until_stopped env now r w s :
  sessions_wf w -> In s (sessions w) -> s_status s = open ->
  In s (sessions (fst (handle env now r w)))
  \/ (r = ReqStop (s_class_id s)
      /\ In (Classes.close now s) (sessions (fst (handle env now r w)))
      /\ snd (handle env now r w)
         = Responded 200 (JsonMessage "Session stopped successfully")).
Proof.
  intros [Hone Hfresh Huniq] Hin Hs.
  destruct r as [user classId|classId|user sessionId|body|user body put ml]; simpl.
  - left. unfold Classes.start. handler_cases; simpl; auto.
    apply in_or_app. now left.
  - unfold Classes.stop.
    destruct (Db.first (open_for_class classId) (sessions w)) as [a|] eqn:Hopen;
      simpl; [|now left].
    destruct (Z.eq_dec (s_session_id s) (s_session_id a)) as [Heq|Hne].
    + right. apply first_Some in Hopen as [Hain Ha].
      assert (s = a) as -> by (eapply NoDup_ids_inj; eauto).
      unfold open_for_class in Ha. apply andb_true_iff in Ha as [Hc _].
      apply Z.eqb_eq in Hc. rewrite Hc.
      repeat split. now apply update_by_id_self.
    + left. now apply update_by_id_other.
  - left. now rewrite (same_session_rows _ _ (forceAbsent_same_sessions now user sessionId w)).
  - left. now rewrite (same_session_rows _ _ (record_same_sessions env now body w)).
  - left. now rewrite (same_session_rows _ _ (checkin_same_sessions env now user body put ml w)).
Qed.

(** C3. In every state reached from a database without sessions by any
    sequence of requests (starts, stops and the other handlers), no class
    has two open sessions; a start on a class that has an open session is
    refused (with the "already active" answer for the professor of the
    class) and creates nothing; and an open session stays open through
    every request except a stop of its class. *)
Theorem at_most_one_open_session_per_class :
  forall (env : Env) (w0 : World) (reqs : list (Z * Request)),
    sessions w0 = [] ->
    let w := fst (run env reqs w0) in
    one_open_per_class w
    /\ (forall now user classId,
          (exists s, In s (sessions w) /\ s_class_id s = classId /\ s_status s = open) ->
          Classes.start now user classId w
          = (w, if existsb (Classes.owned_class classId user) (classes w)
                then Responded 400 (JsonError "Session already active for this class")
                else Responded 404 (JsonError "Class not found")))
    /\ (forall now r s,
          In s (sessions w) -> s_status s = open ->
          In s (sessions (fst (handle env now r w)))
          \/ (r = ReqStop (s_class_id s)
              /\ In (Classes.close now s) (sessions (fst (handle env now r w)))
              /\ snd (handle env now r w)
                 = Responded 200 (JsonMessage "Session stopped successfully"))).
Proof.
  intros env w0 reqs H0 w.
  assert (Hwf : sessions_wf w) by (apply run_wf, empty_sessions_wf, H0).
  split; [apply Hwf|]. split.
  - intros now user classId. apply start_conflict.
  - intros now r s. now apply open_until_stopped.
Qed.

Lemma at_most_one_open_session_per_class_witness :
  let w0 := fresh [mkClass 1 "P1"] [] in
  sessions w0 = []
  /\ one_open_per_class
       (fst (run (mkEnv None None)
               [(0, ReqStart "P1" 1); (5, ReqStart "P1" 1); (9, ReqStop 1);
                (12, ReqStart "P1" 1)] w0)).
Proof.
  split; [reflexivity|].
  apply (at_most_one_open_session_per_class (mkEnv None None)
           (fresh [mkClass 1 "P1"] [])
           [(0, ReqStart "P1" 1); (5, ReqStart "P1" 1); (9, ReqStop 1);
            (12, ReqStart "P1" 1)] eq_refl).
Defined.

(** ** Stopping a session *)

(** C5, as stated, fails: the stop at 10:00 succeeds and closes session 1,
    yet nothing runs the absence computation: the attendance table is
    still empty, the enrolled student has no row, and the only message
    emitted by the stop is the status change.  The absence computation
    run by hand afterwards does add the row. *)
Lemma stop_does_not_reconcile :
  let w' := fst (Classes.stop 36000000 1 one_student_session) in
  snd (Classes.stop 36000000 1 one_student_session)
  = Responded 200 (JsonMessage "Session stopped successfully")
  /\ sessions w' = [mkSession 1 1 0 t_09_00 (Some 36000000) closed]
  /\ attendance w' = []
  /\ ~ reconciled 1 1 w'
  /\ emitted w' = (emitted one_student_session
                   ++ [EmitSessionStatus "attendance:1" "1" "stopped"])%list
  /\ attendance (fst (Classes.forceAbsent 36000001 "P1" 1 w'))
     = [mkAttendance 1 "S1" absent (Some 36000001) None None None].
Proof.
  vm_compute. repeat split; try reflexivity.
  intros H. destruct (H "S1" (or_introl eq_refl)) as (r & [] & _).
Qed.

(** C5, amended.  When the class has an open session, the stop answers
    200, sets [end_ts] to the clock reading and [status] to closed on the
    session it found (and on no row with another id), emits the
    ['stopped'] status on the room of the session, and leaves the
    attendance table and the event log as they are: the absence
    computation is a separate request. *)
Theorem stop_closes_and_broadcasts :
  forall (now classId : Z) (w : World) (activeSession : SessionRow),
    Db.first (open_for_class classId) (sessions w) = Some activeSession ->
    let w' := fst (Classes.stop now classId w) in
    snd (Classes.stop now classId w)
    = Responded 200 (JsonMessage "Session stopped successfully")
    /\ In (mkSession (s_session_id activeSession) classId
             (s_session_date activeSession) (s_start_ts activeSession)
             (Some now) closed) (sessions w')
    /\ (forall s, In s (sessions w') ->
                  s_session_id s = s_session_id activeSession ->
                  s_end_ts s = Some now /\ s_status s = closed)
    /\ (forall s, In s (sessions w) ->
                  s_session_id s <> s_session_id activeSession ->
                  In s (sessions w'))
    /\ emitted w'
       = (emitted w ++ [EmitSessionStatus
                          ("attendance:" ++ JS.toString (s_session_id activeSession))
                          (JS.toString (s_session_id activeSession)) "stopped"])%list
    /\ attendance w' = attendance w
    /\ presence_events w' = presence_events w.
Proof.
  intros now classId w a Hopen w'. subst w'. unfold Classes.stop. rewrite Hopen.
  apply first_Some in Hopen as [Hin Ha].
  unfold open_for_class in Ha. apply andb_true_iff in Ha as [Hc _].
  apply Z.eqb_eq in Hc. simpl.
  split; [reflexivity|]. split; [|split; [|split; [|repeat split]]].
  - rewrite <- Hc. now apply (update_by_id_self now a).
  - intros s Hs Hid. unfold Db.update in Hs.
    apply in_map_iff in Hs as (r & Hr & _).
    destruct (s_session_id r =? s_session_id a) eqn:E.
    + subst s. simpl. auto.
    + subst s. apply Z.eqb_neq in E. contradiction.
  - intros s Hs Hne. now apply update_by_id_other.
Qed.

Lemma stop_closes_and_broadcasts_witness :
  Db.first (open_for_class 1) (sessions one_student_session)
  = Some (mkSession 1 1 0 t_09_00 None open)
  /\ attendance (fst (Classes.stop 36000000 1 one_student_session))
     = attendance one_student_session.
Proof.
  split; [reflexivity|].
  apply (stop_closes_and_broadcasts 36000000 1 one_student_session
           (mkSession 1 1 0 t_09_00 None open) eq_refl).
Defined.

(** ** The absence computation *)

Lemma insert_all_app rows : forall t t',
  Db.insert_all rows t = inr t' -> t' = (t ++ rows)%list.
Proof.
  induction rows as [|r rows IH]; simpl; intros t t' H.
  - injection H as <-. now rewrite app_nil_r.
  - destruct (Db.has_key r t); [discriminate|].
    apply IH in H. now rewrite <- app_assoc in H.
Qed.

Lemma absent_records_shape now sessionId ids :
  Forall (absent_row now sessionId) (map (Classes.absent_record now sessionId) ids).
Proof.
  apply Forall_map, Forall_forall. intros id _. now repeat split.
Qed.

Lemma absentStudents_spec sessionId session w id :
  In id (Classes.absentStudents sessionId session w)
  <-> In id (Classes.enrolledStudents (s_class_id session) w)
      /\ ~ In id (Classes.presentStudentIds sessionId w).
Proof.
  unfold Classes.absentStudents, Classes.includes. rewrite filter_In.
  rewrite negb_true_iff, <- not_true_iff_false, existsb_exists.
  split; intros [He Hn]; split; auto.
  - intros Hp. apply Hn. exists id. split; [exact Hp | apply String.eqb_refl].
  - intros (x & Hx & Heq). apply String.eqb_eq in Heq. subst x. contradiction.
Qed.

(** C7, as stated, fails: the row created for the student who never
    entered is absent but carries the time of the computation as its
    entry timestamp. *)
Lemma absent_row_has_checkin_ts :
  attendance after_first_absence_run
  = [mkAttendance 1 "S1" absent (Some 36000000) None None None]
  /\ ~ Forall (fun r => a_status r = absent
                        /\ a_checkin_ts r = None /\ a_checkout_ts r = None)
         (attendance after_first_absence_run).
Proof.
  split; [reflexivity|].
  intros H. inversion H as [|r l (_ & Hts & _) _]. discriminate Hts.
Qed.

(** C7, amended.  The rows the absence computation adds are appended to
    the table; each is for the session, has status absent, the clock
    reading of the computation as entry timestamp, and no exit
    timestamp, duration or evidence; the students are those enrolled in
    the class of the session who have no present or late row. *)
Theorem forceAbsent_rows_absent_stamped_now :
  forall (now : Z) (user : string) (sessionId : Z) (w : World),
    exists created,
      attendance (fst (Classes.forceAbsent now user sessionId w))
      = (attendance w ++ created)%list
      /\ Forall (absent_row now sessionId) created
      /\ (forall r, In r created ->
            exists session,
              Classes.session_of_professor sessionId user w = Some session
              /\ In (a_student_id r) (Classes.enrolledStudents (s_class_id session) w)
              /\ ~ In (a_student_id r) (Classes.presentStudentIds sessionId w)).
Proof.
  intros now user sessionId w. unfold Classes.forceAbsent.
  destruct (Classes.session_of_professor sessionId user w) as [session|] eqn:Hs.
  2:{ exists []. simpl. rewrite app_nil_r. repeat split; auto. intros r []. }
  destruct (0 <? Z.of_nat (List.length (Classes.absentStudents sessionId session w))).
  2:{ exists []. simpl. rewrite app_nil_r. repeat split; auto. intros r []. }
  destruct (Db.insert_all _ (attendance w)) as [e|t] eqn:Hins.
  { exists []. simpl. rewrite app_nil_r. repeat split; auto. intros r []. }
  apply insert_all_app in Hins. subst t.
  exists (map (Classes.absent_record now sessionId)
            (Classes.absentStudents sessionId session w)).
  simpl. split; [reflexivity|]. split; [apply absent_records_shape|].
  intros r Hr. apply in_map_iff in Hr as (id & <- & Hid).
  exists session. split; [reflexivity|]. simpl.
  now apply absentStudents_spec.
Qed.

(** A second absence computation on the same session: the rows of the
    first are absent rows, so their students are selected again, and the
    plain insert hits the unique key. *)
Lemma presentStudentIds_app sessionId w rows :
  Forall (fun r => a_status r = absent) rows ->
  Classes.presentStudentIds sessionId (with_attendance w (attendance w ++ rows))
  = Classes.presentStudentIds sessionId w.
Proof.
  intros Habs. unfold Classes.presentStudentIds. simpl.
  rewrite filter_app, map_app.
  assert (filter (fun a => (a_session_id a =? sessionId) && is_checked_in (a_status a)) rows
          = []) as ->; [|now rewrite app_nil_r].
  induction Habs as [|r rows Hr _ IH]; simpl; [reflexivity|].
  rewrite Hr. simpl. rewrite andb_false_r. exact IH.
Qed.

Lemma forceAbsent_again now now' user sessionId w message n :
  snd (Classes.forceAbsent now user sessionId w)
  = Responded 200 (JsonAbsentDone message n) ->
  0 < n ->
  let w1 := fst (Classes.forceAbsent now user sessionId w) in
  Classes.forceAbsent now' user sessionId w1
  = (w1, Next (DatabaseError ER_DUP_ENTRY)).
Proof.
  unfold Classes.forceAbsent.
  destruct (Classes.session_of_professor sessionId user w) as [session|] eqn:Hs;
    [|discriminate].
  destruct (0 <? Z.of_nat (List.length (Classes.absentStudents sessionId session w)))
    eqn:Hpos.
  2:{ simpl. intros H Hn. injection H as _ <-. apply Z.ltb_ge in Hpos. lia. }
  destruct (Db.insert_all _ (attendance w)) as [e|t] eqn:Hins; [discriminate|].
  intros _ _. simpl. apply insert_all_app in Hins. subst t.
  unfold Classes.session_of_professor in *. simpl. rewrite Hs.
  assert (Classes.absentStudents sessionId session
            (with_attendance w
               (attendance w ++ map (Classes.absent_record now sessionId)
                                  (Classes.absentStudents sessionId session w)))
          = Classes.absentStudents sessionId session w) as Hsame.
  { unfold Classes.absentStudents at 1 3.
    rewrite presentStudentIds_app; [reflexivity|].
    apply Forall_map, Forall_forall. intros id _. reflexivity. }
  rewrite Hsame, Hpos.
  destruct (Classes.absentStudents sessionId session w) as [|id ids] eqn:Hab;
    [discriminate|].
  simpl.
  assert (Db.has_key (Classes.absent_record now' sessionId id)
            (attendance w ++ Classes.absent_record now sessionId id
               :: map (Classes.absent_record now sessionId) ids) = true) as ->;
    [|reflexivity].
  unfold Db.has_key. apply existsb_exists.
  exists (Classes.absent_record now sessionId id). split.
  - apply in_or_app. right. now left.
  - unfold Db.same_key. simpl. now rewrite Z.eqb_refl, String.eqb_refl.
Qed.

(** C2 on the code.  With one enrolled student and no attendance row, the
    first absence computation answers 200 and inserts one row; the second
    selects the same student again, the insert fails on the unique key
    and the request ends in the error handler.  The table is the one the
    first run left. *)
Theorem forceAbsent_second_run_raises :
  snd (run (mkEnv None None)
         [(36000000, ReqForceAbsent "P1" 1); (36000001, ReqForceAbsent "P1" 1)]
         one_student_session)
  = [Responded 200 (JsonAbsentDone "Absent computation completed" 1);
     Next (DatabaseError ER_DUP_ENTRY)]
  /\ attendance
       (fst (run (mkEnv None None)
               [(36000000, ReqForceAbsent "P1" 1); (36000001, ReqForceAbsent "P1" 1)]
               one_student_session))
     = attendance after_first_absence_run.
Proof. split; reflexivity. Qed.

(** ** The attendance table: one row per (session, student) *)

Lemma same_key_iff sid pid r :
  Db.same_key sid pid r = true <-> key r = (sid, pid).
Proof.
  unfold Db.same_key, key. rewrite andb_true_iff, Z.eqb_eq, String.eqb_eq.
  split; [intros [-> ->]; reflexivity | intros H; now injection H].
Qed.

Lemma has_key_iff r t :
  Db.has_key r t = true <-> In (key r) (map key t).
Proof.
  unfold Db.has_key. rewrite existsb_exists, in_map_iff.
  split; intros (x & H1 & H2).
  - exists x. split; [now apply same_key_iff | exact H1].
  - exists x. split; [exact H2 | now apply same_key_iff].
Qed.

Lemma NoDup_keys_filter sid pid t :
  NoDup (map key t) -> (List.length (filter (Db.same_key sid pid) t) <= 1)%nat.
Proof.
  induction t as [|r t IH]; simpl; intros Hnd; [lia|].
  inversion Hnd as [|? ? Hnotin Hnd']; subst.
  destruct (Db.same_key sid pid r) eqn:E; [|now apply IH].
  simpl. destruct (filter (Db.same_key sid pid) t) as [|x l] eqn:F; [simpl; lia|].
  exfalso. apply Hnotin.
  assert (In x (filter (Db.same_key sid pid) t)) as Hx by (rewrite F; now left).
  apply filter_In in Hx as [Hin Hk].
  apply same_key_iff in E. apply same_key_iff in Hk.
  rewrite E, <- Hk. now apply in_map.
Qed.

Lemma update_keys p f t :
  (forall r, p r = true -> key (f r) = key r) ->
  map key (Db.update p f t) = map key t.
Proof.
  intros Hf. unfold Db.update. rewrite map_map. apply map_ext_in.
  intros r _. destruct (p r) eqn:E; [now apply Hf | reflexivity].
Qed.

Lemma update_none {A : Type} (p : A -> bool) (f : A -> A) (t : list A) :
  filter p t = [] -> Db.update p f t = t.
Proof.
  unfold Db.update. induction t as [|r t IH]; simpl; [reflexivity|].
  destruct (p r); [discriminate|]. intros H. now rewrite IH.
Qed.

Lemma merge_key row old :
  Db.same_key (a_session_id row) (a_student_id row) old = true ->
  key (Db.merge row old) = key old.
Proof. intros H. apply same_key_iff in H. now rewrite H. Qed.

(** The upsert keeps the keys of the table, or adds the one new key. *)
Lemma upsert_keys row t :
  map key (Db.insert_onConflict_merge row t)
  = if Db.has_key row t then map key t else (map key t ++ [key row])%list.
Proof.
  unfold Db.insert_onConflict_merge. destruct (Db.has_key row t).
  - apply update_keys. intros r. apply merge_key.
  - now rewrite map_app.
Qed.

Lemma upsert_unique row t :
  NoDup (map key t) -> NoDup (map key (Db.insert_onConflict_merge row t)).
Proof.
  intros Hnd. rewrite upsert_keys. destruct (Db.has_key row t) eqn:E; [exact Hnd|].
  apply NoDup_app; [exact Hnd | repeat constructor; intros [] |].
  intros k Hk [<-|[]].
  apply has_key_iff in Hk. congruence.
Qed.

Lemma insert_all_unique rows : forall t t',
  Db.insert_all rows t = inr t' -> NoDup (map key t) -> NoDup (map key t').
Proof.
  induction rows as [|r rows IH]; simpl; intros t t' H Hnd.
  - now injection H as <-.
  - destruct (Db.has_key r t) eqn:E; [discriminate|].
    apply (IH _ _ H). rewrite map_app. simpl.
    apply NoDup_app; [exact Hnd | repeat constructor; intros [] |].
    intros k Hk [<-|[]]. apply has_key_iff in Hk. congruence.
Qed.

Lemma filter_key_update sid pid p f t :
  (forall r, p r = true -> key (f r) = key r) ->
  List.length (filter (Db.same_key sid pid) (Db.update p f t))
  = List.length (filter (Db.same_key sid pid) t).
Proof.
  intros Hf. unfold Db.update. induction t as [|r t IH]; simpl; [reflexivity|].
  assert (Db.same_key sid pid (if p r then f r else r) = Db.same_key sid pid r) as ->.
  { destruct (p r) eqn:E; [|reflexivity].
    apply eq_true_iff_eq. now rewrite !same_key_iff, (Hf r E). }
  destruct (Db.same_key sid pid r); simpl; now rewrite IH.
Qed.

Lemma grows_app sid pid t rows : grows sid pid t (t ++ rows).
Proof. unfold grows. rewrite filter_app, length_app. lia. Qed.

Lemma upsert_grows sid pid row t :
  grows sid pid t (Db.insert_onConflict_merge row t).
Proof.
  unfold Db.insert_onConflict_merge. destruct (Db.has_key row t).
  - unfold grows. rewrite filter_key_update; [lia|]. intros r. apply merge_key.
  - apply grows_app.
Qed.

(** After the upsert the pair of the inserted row has a row. *)
Lemma upsert_has_row row t :
  (1 <= List.length (filter (Db.same_key (a_session_id row) (a_student_id row))
                      (Db.insert_onConflict_merge row t)))%nat.
Proof.
  unfold Db.insert_onConflict_merge. destruct (Db.has_key row t) eqn:E.
  - rewrite filter_key_update by (intros r; apply merge_key).
    unfold Db.has_key in E. apply existsb_exists in E as (x & Hin & Hk).
    assert (In x (filter (Db.same_key (a_session_id row) (a_student_id row)) t)) as Hx
        by (apply filter_In; auto).
    destruct (filter _ t); [contradiction | simpl; lia].
  - rewrite filter_app, length_app. simpl.
    unfold Db.same_key at 2. rewrite Z.eqb_refl, String.eqb_refl. simpl. lia.
Qed.

Lemma upsert_count_other sid pid row t :
  key row <> (sid, pid) ->
  List.length (filter (Db.same_key sid pid) (Db.insert_onConflict_merge row t))
  = List.length (filter (Db.same_key sid pid) t).
Proof.
  intros Hne. unfold Db.insert_onConflict_merge. destruct (Db.has_key row t).
  - apply filter_key_update. intros r. apply merge_key.
  - rewrite filter_app, length_app. simpl.
    destruct (Db.same_key sid pid row) eqn:E; [|simpl; lia].
    apply same_key_iff in E. contradiction.
Qed.

Lemma record_unique env now body w :
  attendance_unique w -> attendance_unique (fst (Presence.record env now body w)).
Proof.
  unfold attendance_unique, Presence.record. intros Hnd.
  handler_cases; simpl; try assumption.
  - now apply upsert_unique.
  - rewrite update_keys; [assumption | reflexivity].
Qed.

Lemma checkin_unique env now user body put ml w :
  attendance_unique w ->
  attendance_unique (fst (Attendance.checkin env now user body put ml w)).
Proof.
  unfold attendance_unique, Attendance.checkin. intros Hnd.
  handler_cases; simpl; try assumption; now apply upsert_unique.
Qed.

Lemma forceAbsent_unique now user sessionId w :
  attendance_unique w ->
  attendance_unique (fst (Classes.forceAbsent now user sessionId w)).
Proof.
  unfold attendance_unique, Classes.forceAbsent. intros Hnd.
  destruct (Classes.session_of_professor sessionId user w); [|assumption].
  destruct (0 <? _); [|assumption].
  destruct (Db.insert_all _ _) eqn:E; [assumption|].
  simpl. eapply insert_all_unique; eauto.
Qed.

Lemma handle_unique env now r w :
  attendance_unique w -> attendance_unique (fst (handle env now r w)).
Proof.
  unfold attendance_unique. destruct r; simpl.
  - now rewrite (same_attendance_rows _ _ (start_same_attendance now user classId w)).
  - now rewrite (same_attendance_rows _ _ (stop_same_attendance now classId w)).
  - apply forceAbsent_unique.
  - apply record_unique.
  - apply checkin_unique.
Qed.

Lemma run_unique env reqs : forall w,
  attendance_unique w -> attendance_unique (fst (run env reqs w)).
Proof.
  induction reqs as [|[now r] rest IH]; intros w Hw; simpl; [exact Hw|].
  pose proof (handle_unique env now r w Hw) as H1.
  destruct (handle env now r w) as [w1 o]. simpl in H1.
  specialize (IH w1 H1). destruct (run env rest w1) as [w2 os]. exact IH.
Qed.

Lemma at_most_one_record sid pid w :
  attendance_unique w -> (List.length (records_of sid pid w) <= 1)%nat.
Proof. apply NoDup_keys_filter. Qed.

(** *** Sequences of presence events *)

Lemma record_responds env now body w :
  exists code json, snd (Presence.record env now body w) = Responded code json.
Proof.
  unfold Presence.record. handler_cases; simpl; eauto.
Qed.

Lemma record_enter_has_row env now body w sid pid :
  is_enter sid pid body && accepted (snd (Presence.record env now body w)) = true ->
  (1 <= List.length (records_of sid pid (fst (Presence.record env now body w))))%nat.
Proof.
  unfold is_enter, records_of, Presence.record.
  destruct (Presence.b_session_id body) as [s|]; [|discriminate].
  destruct (Presence.b_student_id body) as [p|]; [|discriminate].
  destruct (Presence.b_event_type body) as [e|]; [|discriminate].
  destruct (negb (JS.truthyZ (Some s)) || _ || _);
    [simpl; rewrite andb_false_r; discriminate|].
  destruct (Db.first (open_session s) (sessions w));
    [|simpl; rewrite andb_false_r; discriminate].
  intros H. apply andb_true_iff in H as [H _].
  apply andb_true_iff in H as [H He]. apply andb_true_iff in H as [Hs Hp].
  apply Z.eqb_eq in Hs. apply String.eqb_eq in Hp. subst s p.
  rewrite He. simpl.
  exact (upsert_has_row (mkAttendance sid pid _ _ _ _ _) _).
Qed.

Lemma record_count_other env now body w sid pid :
  is_enter sid pid body && accepted (snd (Presence.record env now body w)) = false ->
  List.length (records_of sid pid (fst (Presence.record env now body w)))
  = List.length (records_of sid pid w).
Proof.
  unfold is_enter, records_of, Presence.record.
  destruct (Presence.b_session_id body) as [s|]; [|reflexivity].
  destruct (Presence.b_student_id body) as [p|]; [|reflexivity].
  destruct (Presence.b_event_type body) as [e|]; [|reflexivity].
  destruct (negb (JS.truthyZ (Some s)) || _ || _); [reflexivity|].
  destruct (Db.first (open_session s) (sessions w)); [|reflexivity].
  simpl. rewrite andb_true_r. intros H.
  destruct (String.eqb e "in") eqn:He; simpl.
  - apply upsert_count_other. unfold key. simpl. intros Hk. injection Hk as -> ->.
    now rewrite Z.eqb_refl, String.eqb_refl in H.
  - destruct (String.eqb e "out"); simpl; [|reflexivity].
    now apply filter_key_update.
Qed.

Lemma record_grows env now body w sid pid :
  grows sid pid (attendance w) (attendance (fst (Presence.record env now body w))).
Proof.
  unfold grows.
  destruct (is_enter sid pid body && accepted (snd (Presence.record env now body w)))
    eqn:E.
  - pose proof (record_enter_has_row env now body w sid pid E) as H1.
    unfold records_of in H1.
    pose proof (NoDup_keys_filter sid pid (attendance w)) as _.
    unfold Presence.record in *. revert H1. handler_cases; simpl; try lia.
    + intros _. apply upsert_grows.
    + rewrite filter_key_update; [lia | reflexivity].
  - pose proof (record_count_other env now body w sid pid E) as H.
    unfold records_of in H. lia.
Qed.

Lemma run_events_cons env now body rest w :
  run env (as_requests ((now, body) :: rest)) w
  = (fst (run env (as_requests rest) (fst (Presence.record env now body w))),
     snd (Presence.record env now body w)
     :: snd (run env (as_requests rest) (fst (Presence.record env now body w)))).
Proof.
  simpl. destruct (Presence.record env now body w) as [w1 o]. simpl.
  now destruct (run env (as_requests rest) w1).
Qed.

Lemma run_events_spec env events : forall w,
  let res := run env (as_requests events) w in
  Forall responded (snd res)
  /\ (forall sid pid, grows sid pid (attendance w) (attendance (fst res)))
  /\ (forall sid pid,
        enter_accepted sid pid events (snd res) ->
        (1 <= List.length (records_of sid pid (fst res)))%nat)
  /\ (forall sid pid,
        ~ enter_accepted sid pid events (snd res) ->
        List.length (records_of sid pid (fst res))
        = List.length (records_of sid pid w)).
Proof.
  induction events as [|[now body] rest IH]; intros w.
  - simpl. repeat split; auto.
    + unfold grows. lia.
    + intros sid pid H. inversion H.
  - cbv zeta. rewrite run_events_cons. cbn [fst snd].
    set (w1 := fst (Presence.record env now body w)).
    destruct (IH w1) as (Hresp & Hgrow & Hone & Hnone).
    split; [|split; [|split]].
    + constructor; [apply record_responds | exact Hresp].
    + intros sid pid. unfold grows in *.
      etransitivity; [apply (record_grows env now body w sid pid) | apply Hgrow].
    + intros sid pid H. unfold enter_accepted in H. simpl in H.
      apply Exists_cons in H as [H|H].
      * simpl in H. apply record_enter_has_row in H.
        specialize (Hgrow sid pid). unfold grows, records_of in *. fold w1 in H. lia.
      * now apply Hone.
    + intros sid pid H. unfold enter_accepted in H. simpl in H.
      rewrite Exists_cons in H. simpl in H.
      rewrite Hnone by tauto.
      apply record_count_other.
      destruct (is_enter sid pid body && accepted (snd (Presence.record env now body w)));
        [exfalso; apply H; now left | reflexivity].
Qed.

(** C4, as stated, fails: after the sequence made of one EXIT, accepted
    with 201, the pair has no attendance row at all. *)
Lemma exit_only_sequence_has_no_record :
  let res := run (mkEnv None None) (as_requests [(t_09_45, exit_S1)]) one_student_session in
  snd res = [Responded 201 (JsonEventRecorded 1 "Presence event recorded")]
  /\ List.length (records_of 1 "S1" (fst res)) = 0%nat
  /\ List.length (records_of 1 "S1" (fst res)) <> 1%nat.
Proof. vm_compute. repeat split; discriminate. Qed.

(** C4, amended.  From a table that respects the unique key, after any
    sequence of presence events (ENTER, EXIT or other, for any pairs,
    duplicates included) the key is still respected: a pair has at most
    one row.  It has exactly one as soon as one ENTER of the pair was
    accepted, and as many as before the sequence (none, if it had none)
    when no ENTER of the pair was accepted.  Every request is answered:
    none ends in the error handler. *)
Theorem at_most_one_record_per_pair :
  forall (env : Env) (events : list (Z * Presence.Body)) (w : World),
    attendance_unique w ->
    let res := run env (as_requests events) w in
    attendance_unique (fst res)
    /\ (forall sid pid, (List.length (records_of sid pid (fst res)) <= 1)%nat)
    /\ (forall sid pid,
          enter_accepted sid pid events (snd res) ->
          List.length (records_of sid pid (fst res)) = 1%nat)
    /\ (forall sid pid,
          ~ enter_accepted sid pid events (snd res) ->
          List.length (records_of sid pid (fst res))
          = List.length (records_of sid pid w))
    /\ Forall (fun o => exists code json, o = Responded code json) (snd res).
Proof.
  intros env events w Hu res.
  assert (Hu' : attendance_unique (fst res)) by now apply run_unique.
  destruct (run_events_spec env events w) as (Hresp & _ & Hone & Hnone).
  fold res in Hresp, Hone, Hnone.
  split; [exact Hu'|]. split; [|split; [|split]].
  - intros sid pid. now apply at_most_one_record.
  - intros sid pid H. specialize (Hone sid pid H).
    pose proof (at_most_one_record sid pid (fst res) Hu'). lia.
  - exact Hnone.
  - exact Hresp.
Qed.

Lemma at_most_one_record_per_pair_witness :
  attendance_unique one_student_session
  /\ List.length
       (records_of 1 "S1"
          (fst (run (mkEnv None None)
                  (as_requests [(t_09_10, enter_S1 None None);
                                (t_09_45, enter_S1 None None);
                                (t_09_45, exit_S1)])
                  one_student_session))) = 1%nat.
Proof.
  assert (Hu : attendance_unique one_student_session) by constructor.
  split; [exact Hu|].
  apply (at_most_one_record_per_pair (mkEnv None None)
           [(t_09_10, enter_S1 None None); (t_09_45, enter_S1 None None);
            (t_09_45, exit_S1)] one_student_session Hu).
  left. reflexivity.
Defined.

(** ** One presence event on an open session *)

Lemma attendance_broadcast s e w :
  attendance (SocketIO.broadcastPresenceEvent s e w) = attendance w.
Proof. reflexivity. Qed.

Lemma attendance_with_attendance w t : attendance (with_attendance w t) = t.
Proof. reflexivity. Qed.

Lemma attendance_with_presence_events w t n :
  attendance (with_presence_events w t n) = attendance w.
Proof. reflexivity. Qed.

Lemma truthy_fields sid pid et :
  sid <> 0 -> pid <> "" -> et <> "" ->
  negb (JS.truthyZ (Some sid)) || negb (JS.truthyS (Some pid))
  || negb (JS.truthyS (Some et)) = false.
Proof.
  intros Hs Hp He. simpl.
  apply Z.eqb_neq in Hs. apply String.eqb_neq in Hp. apply String.eqb_neq in He.
  now rewrite Hs, Hp, He.
Qed.

(** An EXIT accepted on an open session: the event is logged and every
    row of the pair gets the clock reading as exit timestamp. *)
Lemma record_exit env now sid pid source details w session :
  sid <> 0 -> pid <> "" ->
  Db.first (open_session sid) (sessions w) = Some session ->
  Presence.record env now
    (Presence.mkBody (Some sid) (Some pid) (Some "out") source details) w
  = (SocketIO.broadcastPresenceEvent (JS.toString sid)
       (mkPayload (Some (next_event_id w)) pid "out" now (JS.or_default source "cctv")
          None None details)
       (with_attendance
          (with_presence_events w
             (presence_events w ++ [logged now sid pid "out" source details w])
             (next_event_id w + 1))
          (Db.update (Db.same_key sid pid) (checked_out now) (attendance w))),
     Responded 201 (JsonEventRecorded (next_event_id w) "Presence event recorded")).
Proof.
  intros Hs Hp Hopen. unfold Presence.record. cbn [Presence.b_session_id
    Presence.b_student_id Presence.b_event_type Presence.b_source Presence.b_details].
  rewrite truthy_fields by (auto; discriminate). rewrite Hopen. reflexivity.
Qed.

Lemma record_enter env now sid pid source details w session :
  sid <> 0 -> pid <> "" ->
  Db.first (open_session sid) (sessions w) = Some session ->
  Presence.record env now
    (Presence.mkBody (Some sid) (Some pid) (Some "in") source details) w
  = (SocketIO.broadcastPresenceEvent (JS.toString sid)
       (mkPayload (Some (next_event_id w)) pid "in" now (JS.or_default source "cctv")
          None None details)
       (with_attendance
          (with_presence_events w
             (presence_events w ++ [logged now sid pid "in" source details w])
             (next_event_id w + 1))
          (Db.insert_onConflict_merge
             (entered env now sid pid session (Presence.image_url_of details))
             (attendance w))),
     Responded 201 (JsonEventRecorded (next_event_id w) "Presence event recorded")).
Proof.
  intros Hs Hp Hopen. unfold Presence.record. cbn [Presence.b_session_id
    Presence.b_student_id Presence.b_event_type Presence.b_source Presence.b_details].
  rewrite truthy_fields by (auto; discriminate). rewrite Hopen. reflexivity.
Qed.

(** An EXIT that is accepted (the session is open) is answered 201 and
    appended to the event log.  It creates no attendance row: the keys
    of the table are the same, and the rows of the other pairs are
    untouched.  For a pair that has no attendance row the table is
    exactly what it was, so the pair still has no row. *)
Lemma exit_creates_no_record :
  forall (env : Env) (now sid : Z) (pid : string) (source : option string)
         (details : option Details) (w : World) (session : SessionRow),
    sid <> 0 -> pid <> "" ->
    Db.first (open_session sid) (sessions w) = Some session ->
    let res := Presence.record env now
                 (Presence.mkBody (Some sid) (Some pid) (Some "out") source details) w in
    snd res = Responded 201 (JsonEventRecorded (next_event_id w) "Presence event recorded")
    /\ presence_events (fst res)
       = (presence_events w
          ++ [mkEvent (next_event_id w) sid pid "out" now (JS.or_default source "cctv")
                details])%list
    /\ map key (attendance (fst res)) = map key (attendance w)
    /\ (forall x, In x (attendance w) -> key x <> (sid, pid) ->
                  In x (attendance (fst res)))
    /\ (records_of sid pid w = [] ->
        attendance (fst res) = attendance w /\ records_of sid pid (fst res) = []).
Proof.
  intros env now sid pid source details w session Hs Hp Hopen res.
  subst res. rewrite (record_exit env now sid pid source details w session Hs Hp Hopen).
  cbn [fst snd]. unfold records_of.
  rewrite ?attendance_broadcast, ?attendance_with_attendance.
  split; [reflexivity|]. split; [reflexivity|]. split; [|split].
  - apply update_keys. reflexivity.
  - intros x Hx Hk. unfold Db.update. apply in_map_iff. exists x. split; [|exact Hx].
    destruct (Db.same_key sid pid x) eqn:E; [|reflexivity].
    apply same_key_iff in E. contradiction.
  - intros Hnone. rewrite (update_none _ _ _ Hnone). auto.
Qed.

(** C6, as stated, fails: the row of S1 has an entry at 09:10 and, after
    the EXIT of 09:45, an exit at 09:45, but no duration: the 35 minutes
    are not computed. *)
Lemma exit_leaves_duration_null :
  attendance S1_present
  = [mkAttendance 1 "S1" present (Some t_09_10) None None None]
  /\ attendance (fst (Presence.record (mkEnv None None) t_09_45 exit_S1 S1_present))
     = [mkAttendance 1 "S1" present (Some t_09_10) (Some t_09_45) None None]
  /\ ~ Forall (fun r => a_presence_minutes r = Some ((t_09_45 - t_09_10) / 60000))
         (attendance (fst (Presence.record (mkEnv None None) t_09_45 exit_S1
                             S1_present))).
Proof.
  split; [reflexivity|]. split; [reflexivity|].
  intros H. inversion H as [|r l Hr _]. discriminate Hr.
Qed.

(** C6, amended.  An EXIT accepted for a pair that has an attendance row
    sets the exit timestamp of the row to the clock reading of the
    request, whatever the stored one, and changes nothing else: the
    duration, the entry timestamp, the status and the evidence of the
    row stay, as do the rows of the other pairs.  The event is appended
    to the log. *)
Theorem exit_sets_checkout_only :
  forall (env : Env) (now sid : Z) (pid : string) (source : option string)
         (details : option Details) (w : World) (session : SessionRow)
         (r : AttendanceRow),
    sid <> 0 -> pid <> "" ->
    Db.first (open_session sid) (sessions w) = Some session ->
    In r (attendance w) -> a_session_id r = sid -> a_student_id r = pid ->
    let res := Presence.record env now
                 (Presence.mkBody (Some sid) (Some pid) (Some "out") source details) w in
    attendance (fst res)
    = map (fun x => if Db.same_key sid pid x
                    then mkAttendance (a_session_id x) (a_student_id x) (a_status x)
                           (a_checkin_ts x) (Some now) (a_presence_minutes x)
                           (a_selfie_url x)
                    else x) (attendance w)
    /\ In (mkAttendance sid pid (a_status r) (a_checkin_ts r) (Some now)
             (a_presence_minutes r) (a_selfie_url r)) (attendance (fst res))
    /\ (forall x, In x (attendance w) -> key x <> (sid, pid) ->
                  In x (attendance (fst res)))
    /\ presence_events (fst res)
       = (presence_events w
          ++ [mkEvent (next_event_id w) sid pid "out" now (JS.or_default source "cctv")
                details])%list.
Proof.
  intros env now sid pid source details w session r Hs Hp Hopen Hin Hrs Hrp res.
  subst res. rewrite (record_exit env now sid pid source details w session Hs Hp Hopen).
  cbn [fst snd]. simpl. unfold Db.update.
  split; [reflexivity|]. split; [|split; [|reflexivity]].
  - apply in_map_iff. exists r. split; [|exact Hin].
    assert (Db.same_key sid pid r = true) as -> by (apply same_key_iff; unfold key; congruence).
    unfold checked_out. now rewrite Hrs, Hrp.
  - intros x Hx Hk. apply in_map_iff. exists x. split; [|exact Hx].
    destruct (Db.same_key sid pid x) eqn:E; [|reflexivity].
    apply same_key_iff in E. contradiction.
Qed.

Lemma exit_sets_checkout_only_witness :
  Db.first (open_session 1) (sessions S1_present)
  = Some (mkSession 1 1 0 t_09_00 None open)
  /\ In (mkAttendance 1 "S1" present (Some t_09_10) None None None)
        (attendance S1_present)
  /\ In (mkAttendance 1 "S1" present (Some t_09_10) (Some t_09_45) None None)
        (attendance (fst (Presence.record (mkEnv None None) t_09_45 exit_S1
                            S1_present))).
Proof.
  split; [reflexivity|]. split; [left; reflexivity|].
  assert (H1 : 1 <> 0) by discriminate.
  assert (H2 : "S1" <> "") by discriminate.
  destruct (exit_sets_checkout_only (mkEnv None None) t_09_45 1 "S1" None None
              S1_present (mkSession 1 1 0 t_09_00 None open)
              (mkAttendance 1 "S1" present (Some t_09_10) None None None)
              H1 H2 eq_refl (or_introl eq_refl) eq_refl eq_refl) as (_ & Hin & _).
  exact Hin.
Defined.

(** ** ENTER on a pair that has a row *)

(** C1, as stated, fails: a second ENTER at 09:45, on image b.jpg with
    score 0.2, replaces the entry timestamp 09:10 by 09:45, the status
    present by late, and the image of score 0.9 by the one of score
    0.2. *)
Lemma second_enter_overwrites :
  attendance S1_seen
  = [mkAttendance 1 "S1" present (Some t_09_10) None None (Some "a.jpg")]
  /\ attendance (fst (Presence.record (mkEnv None None) t_09_45
                        (enter_S1 (Some "b.jpg") (Some (2 # 10))) S1_seen))
     = [mkAttendance 1 "S1" late (Some t_09_45) None None (Some "b.jpg")]
  /\ Some t_09_45 <> Some (Z.min t_09_10 t_09_45)
  /\ (2 # 10 < 9 # 10)%Q.
Proof.
  split; [reflexivity|]. split; [reflexivity|]. split; [discriminate | reflexivity].
Qed.

Lemma unique_records sid pid t r :
  NoDup (map key t) -> In r t -> key r = (sid, pid) ->
  filter (Db.same_key sid pid) t = [r].
Proof.
  intros Hnd Hin Hk.
  assert (Hr : In r (filter (Db.same_key sid pid) t))
    by (apply filter_In; split; [exact Hin | now apply same_key_iff]).
  pose proof (NoDup_keys_filter sid pid t Hnd) as Hle.
  destruct (filter (Db.same_key sid pid) t) as [|x [|y l]]; simpl in *;
    [contradiction | | lia].
  destruct Hr as [->|[]]. reflexivity.
Qed.

Lemma filter_update_self {A : Type} (p : A -> bool) (f : A -> A) (t : list A) :
  (forall x, p x = true -> p (f x) = true) ->
  filter p (Db.update p f t) = map f (filter p t).
Proof.
  intros Hf. unfold Db.update. induction t as [|x t IH]; simpl; [reflexivity|].
  destruct (p x) eqn:E.
  - rewrite (Hf x E). simpl. now rewrite IH.
  - rewrite E. exact IH.
Qed.

Lemma member_has_key row t r :
  In r t -> key r = key row -> Db.has_key row t = true.
Proof.
  intros Hin Hk. apply has_key_iff. rewrite <- Hk. now apply in_map.
Qed.

(** The upsert on a table that has the key: the rows of the key take the
    inserted status, entry timestamp and evidence. *)
Lemma upsert_existing row t r :
  In r t -> key r = key row ->
  Db.insert_onConflict_merge row t
  = map (fun x => if Db.same_key (a_session_id row) (a_student_id row) x
                  then mkAttendance (a_session_id row) (a_student_id row)
                         (a_status row) (a_checkin_ts row) (a_checkout_ts x)
                         (a_presence_minutes x) (a_selfie_url row)
                  else x) t.
Proof.
  intros Hin Hk. unfold Db.insert_onConflict_merge.
  now rewrite (member_has_key row t r Hin Hk).
Qed.

Lemma upsert_existing_shape sid pid st now evidence t r :
  NoDup (map key t) -> In r t -> key r = (sid, pid) ->
  let overwrite x :=
    if Db.same_key sid pid x
    then mkAttendance sid pid st (Some now) (a_checkout_ts x) (a_presence_minutes x)
           evidence
    else x in
  Db.insert_onConflict_merge (mkAttendance sid pid st (Some now) None None evidence) t
  = map overwrite t
  /\ filter (Db.same_key sid pid) (map overwrite t)
     = [mkAttendance sid pid st (Some now) (a_checkout_ts r) (a_presence_minutes r)
          evidence]
  /\ (forall x, In x t -> key x <> (sid, pid) -> In x (map overwrite t)).
Proof.
  intros Hu Hin Hk overwrite. split; [|split].
  - apply (upsert_existing (mkAttendance sid pid st (Some now) None None evidence)
             t r Hin Hk).
  - change (map overwrite t)
      with (Db.update (Db.same_key sid pid)
              (fun x => mkAttendance sid pid st (Some now) (a_checkout_ts x)
                          (a_presence_minutes x) evidence) t).
    rewrite filter_update_self.
    + now rewrite (unique_records sid pid t r Hu Hin Hk).
    + intros x _. unfold Db.same_key. simpl.
      now rewrite Z.eqb_refl, String.eqb_refl.
  - intros x Hx Hne. apply in_map_iff. exists x. split; [|exact Hx].
    unfold overwrite. destruct (Db.same_key sid pid x) eqn:E; [|reflexivity].
    apply same_key_iff in E. contradiction.
Qed.

(** A check-in confirmed by the ML service on an open session. *)
Lemma checkin_confirmed env now user body data w session :
  Db.first (open_session (Attendance.b_session_id body)) (sessions w) = Some session ->
  Attendance.confirmed data user = true ->
  let sid := Attendance.b_session_id body in
  let isLate := Attendance.isStudentLate env now (s_start_ts session) in
  let url := imageUrl env now sid user in
  Attendance.checkin env now user body Attendance.PutOk (Attendance.MatchReply data) w
  = (SocketIO.broadcastPresenceEvent (JS.toString sid)
       (mkPayload None user "in" now "face" (Attendance.m_score data) (Some url) None)
       (with_presence_events
          (with_attendance w
             (Db.insert_onConflict_merge
                (mkAttendance sid user (status_of isLate) (Some now) None None (Some url))
                (attendance w)))
          (presence_events w
           ++ [mkEvent (next_event_id w) sid user "in" now "face"
                 (Some (mkDetails (Some url) (Attendance.m_score data)
                          (Attendance.m_confidence data) None))])
          (next_event_id w + 1)),
     Responded 200
       (JsonCheckedIn (status_of isLate)
          (if isLate then "Checked in late" else "Checked in successfully"))).
Proof.
  intros Hopen Hc. unfold Attendance.checkin. rewrite Hopen, Hc. reflexivity.
Qed.

(** C1, amended.  An ENTER accepted for a pair that has an attendance
    row keeps the pair on one row and overwrites three columns of it with
    the values of the new event: the status is the one resolved for the
    new event, the entry timestamp is the clock reading of the new
    event, the evidence is the image of the new event (none, if it has
    none).  Exit timestamp and duration of the row stay, and so do the
    rows of the other pairs.  The same holds for a confirmed check-in,
    whose evidence is the uploaded selfie. *)
Theorem enter_on_existing_record_overwrites :
  forall (env : Env) (now sid : Z) (pid : string) (source : option string)
         (details : option Details) (w : World) (session : SessionRow)
         (r : AttendanceRow),
    sid <> 0 -> pid <> "" ->
    Db.first (open_session sid) (sessions w) = Some session ->
    attendance_unique w ->
    In r (attendance w) -> a_session_id r = sid -> a_student_id r = pid ->
    let status := status_of (Presence.isStudentLate env now (s_start_ts session)) in
    let overwrite evidence x :=
      if Db.same_key sid pid x
      then mkAttendance sid pid status (Some now) (a_checkout_ts x)
             (a_presence_minutes x) evidence
      else x in
    (let res := Presence.record env now
                  (Presence.mkBody (Some sid) (Some pid) (Some "in") source details) w in
     attendance (fst res)
     = map (overwrite (Presence.image_url_of details)) (attendance w)
     /\ records_of sid pid (fst res)
        = [mkAttendance sid pid status (Some now) (a_checkout_ts r)
             (a_presence_minutes r) (Presence.image_url_of details)]
     /\ (forall x, In x (attendance w) -> key x <> (sid, pid) ->
                   In x (attendance (fst res))))
    /\ (forall (image_data : string) (data : Attendance.MatchData),
          Attendance.confirmed data pid = true ->
          let res := Attendance.checkin env now pid (Attendance.mkBody sid image_data)
                       Attendance.PutOk (Attendance.MatchReply data) w in
          attendance (fst res)
          = map (overwrite (Some (imageUrl env now sid pid))) (attendance w)
          /\ records_of sid pid (fst res)
             = [mkAttendance sid pid status (Some now) (a_checkout_ts r)
                  (a_presence_minutes r) (Some (imageUrl env now sid pid))]
          /\ (forall x, In x (attendance w) -> key x <> (sid, pid) ->
                        In x (attendance (fst res)))).
Proof.
  intros env now sid pid source details w session r Hs Hp Hopen Hu Hin Hrs Hrp.
  cbv zeta.
  assert (Hk : key r = (sid, pid)) by (unfold key; congruence).
  split.
  - rewrite (record_enter env now sid pid source details w session Hs Hp Hopen).
    cbn [fst snd]. unfold records_of, entered.
    rewrite ?attendance_broadcast, ?attendance_with_attendance,
      ?attendance_with_presence_events.
    destruct (upsert_existing_shape sid pid
                (status_of (Presence.isStudentLate env now (s_start_ts session)))
                now (Presence.image_url_of details) (attendance w) r Hu Hin Hk)
      as (-> & H2 & H3).
    auto.
  - intros image_data data Hc.
    rewrite (checkin_confirmed env now pid (Attendance.mkBody sid image_data) data w
               session Hopen Hc).
    cbn [fst snd]. unfold records_of. cbn [Attendance.b_session_id].
    rewrite ?attendance_broadcast, ?attendance_with_presence_events,
      ?attendance_with_attendance.
    destruct (upsert_existing_shape sid pid
                (status_of (Presence.isStudentLate env now (s_start_ts session)))
                now (Some (imageUrl env now sid pid)) (attendance w) r Hu Hin Hk)
      as (H1 & H2 & H3).
    rewrite isStudentLate_copies, H1. auto.
Qed.

Lemma enter_on_existing_record_overwrites_witness :
  Db.first (open_session 1) (sessions S1_seen)
  = Some (mkSession 1 1 0 t_09_00 None open)
  /\ attendance_unique S1_seen
  /\ In (mkAttendance 1 "S1" present (Some t_09_10) None None (Some "a.jpg"))
        (attendance S1_seen)
  /\ records_of 1 "S1"
       (fst (Presence.record (mkEnv None None) t_09_45
               (enter_S1 (Some "b.jpg") (Some (2 # 10))) S1_seen))
     = [mkAttendance 1 "S1" late (Some t_09_45) None None (Some "b.jpg")].
Proof.
  assert (H1 : 1 <> 0) by discriminate.
  assert (H2 : "S1" <> "") by discriminate.
  assert (Hu : attendance_unique S1_seen)
    by (apply record_unique; constructor).
  split; [reflexivity|]. split; [exact Hu|]. split; [left; reflexivity|].
  destruct (enter_on_existing_record_overwrites (mkEnv None None) t_09_45 1 "S1" None
              (Some (mkDetails (Some "b.jpg") (Some (2 # 10)) None None))
              S1_seen (mkSession 1 1 0 t_09_00 None open)
              (mkAttendance 1 "S1" present (Some t_09_10) None None (Some "a.jpg"))
              H1 H2 eq_refl Hu (or_introl eq_refl) eq_refl eq_refl)
    as ((_ & Hrec & _) & _).
  exact Hrec.
Defined.

(** ** The face check-in *)

Lemma confirmed_iff data user :
  Attendance.confirmed data user = true
  <-> Attendance.m_matched data = true /\ Attendance.m_student_id data = Some user.
Proof.
  unfold Attendance.confirmed. rewrite andb_true_iff.
  destruct (Attendance.m_student_id data) as [s|].
  - rewrite String.eqb_eq. split; intros [H1 H2]; split; congruence.
  - split; intros [H1 H2]; discriminate.
Qed.

Lemma checkin_unconfirmed env now user body put ml w :
  ml_confirms ml user = false ->
  Attendance.checkin env now user body put ml w
  = (w, match Db.first (open_session (Attendance.b_session_id body)) (sessions w) with
        | None => Responded 400 (JsonError "Session not found or not active")
        | Some _ =>
            match put, ml with
            | Attendance.PutThrows, _ => Next StorageError
            | Attendance.PutOk, Attendance.MatchThrows =>
                Responded 500 (JsonFailure "Face recognition service unavailable")
            | Attendance.PutOk, Attendance.MatchReply _ =>
                Responded 400
                  (JsonFailure
                     "Face recognition failed. Please try again or contact support.")
            end
        end).
Proof.
  intros Hc. unfold Attendance.checkin.
  destruct (Db.first _ (sessions w)); [|reflexivity].
  destruct put; [|reflexivity].
  destruct ml as [data|]; [|reflexivity].
  simpl in Hc. now rewrite Hc.
Qed.

(** What the handler writes, it writes for a confirmed match. *)
Lemma checkin_writes_imply_confirmed env now user body put ml w :
  let res := Attendance.checkin env now user body put ml w in
  attendance (fst res) <> attendance w
  \/ presence_events (fst res) <> presence_events w ->
  exists data, ml = Attendance.MatchReply data
               /\ Attendance.m_matched data = true
               /\ Attendance.m_student_id data = Some user.
Proof.
  intros res H. destruct (ml_confirms ml user) eqn:Hc.
  - destruct ml as [data|]; [|discriminate].
    exists data. split; [reflexivity|]. now apply confirmed_iff.
  - exfalso. subst res.
    rewrite (checkin_unconfirmed env now user body put ml w Hc) in H.
    simpl in H. destruct H as [H|H]; now apply H.
Qed.

(** C10. When the ML service answers no match, answers a match for another
    student, or fails, the check-in is a failure (400 or 500; the error
    handler if the upload itself failed) and the whole state is left as
    it was: no attendance row, no presence event, no broadcast. *)
Theorem checkin_without_confirmed_match_writes_nothing :
  forall (env : Env) (now : Z) (user : string) (body : Attendance.Body)
         (put : Attendance.PutResult) (ml : Attendance.MatchResult) (w : World),
    ml_confirms ml user = false ->
    let res := Attendance.checkin env now user body put ml w in
    attendance (fst res) = attendance w
    /\ presence_events (fst res) = presence_events w
    /\ fst res = w
    /\ failure (snd res)
    /\ (forall session,
          Db.first (open_session (Attendance.b_session_id body)) (sessions w)
          = Some session ->
          put = Attendance.PutOk ->
          snd res
          = match ml with
            | Attendance.MatchThrows =>
                Responded 500 (JsonFailure "Face recognition service unavailable")
            | Attendance.MatchReply _ =>
                Responded 400
                  (JsonFailure
                     "Face recognition failed. Please try again or contact support.")
            end).
Proof.
  intros env now user body put ml w Hc res. subst res.
  rewrite (checkin_unconfirmed env now user body put ml w Hc). cbn [fst snd].
  repeat split.
  - destruct (Db.first _ (sessions w)); simpl; [|lia].
    destruct put, ml; simpl; auto; lia.
  - intros session -> ->. now destruct ml.
Qed.

Lemma checkin_without_confirmed_match_writes_nothing_witness :
  ml_confirms match_for_S2 "S1" = false
  /\ fst (Attendance.checkin (mkEnv None None) t_09_10 "S1" (Attendance.mkBody 1 "/9j/4A==")
            Attendance.PutOk match_for_S2 one_student_session)
     = one_student_session.
Proof.
  split; [reflexivity|].
  destruct (checkin_without_confirmed_match_writes_nothing (mkEnv None None) t_09_10
              "S1" (Attendance.mkBody 1 "/9j/4A==") Attendance.PutOk match_for_S2
              one_student_session eq_refl) as (_ & _ & H & _).
  exact H.
Defined.

(** A confirmed check-in on session 1 writes the row and the event. *)
Example checkin_confirmed_writes :
  let res := Attendance.checkin (mkEnv None (Some "minio:9000")) t_09_10 "S1"
               (Attendance.mkBody 1 "/9j/4A==") Attendance.PutOk
               (Attendance.MatchReply
                  (Attendance.mkMatchData true (Some "S1") (Some (9 # 10)) None))
               one_student_session in
  attendance (fst res)
  = [mkAttendance 1 "S1" present (Some t_09_10) None None
       (Some "minio:9000/labface/checkins/1/S1_33000000.jpg")]
  /\ map ev_event_type (presence_events (fst res)) = ["in"]
  /\ snd res = Responded 200 (JsonCheckedIn present "Checked in successfully").
Proof. vm_compute. repeat split. Qed.

(** * Further properties of the handlers *)

(** ** Closed sessions *)

Lemma closed_row_kept env now r w s :
  sessions_wf w -> In s (sessions w) -> s_status s = closed ->
  In s (sessions (fst (handle env now r w))).
Proof.
  intros [Hone Hfresh Huniq] Hin Hs.
  destruct r as [user classId|classId|user sessionId|body|user body put ml]; simpl.
  - unfold Classes.start. handler_cases; simpl; auto.
    apply in_or_app. now left.
  - unfold Classes.stop.
    destruct (Db.first (open_for_class classId) (sessions w)) as [a|] eqn:Hopen;
      simpl; [|exact Hin].
    apply update_by_id_other; [exact Hin|].
    intros Heq. apply first_Some in Hopen as [Hain Ha].
    assert (s = a) as -> by (eapply NoDup_ids_inj; eauto).
    unfold open_for_class in Ha. rewrite Hs in Ha. simpl in Ha.
    now rewrite andb_false_r in Ha.
  - now rewrite (same_session_rows _ _ (forceAbsent_same_sessions now user sessionId w)).
  - now rewrite (same_session_rows _ _ (record_same_sessions env now body w)).
  - now rewrite (same_session_rows _ _ (checkin_same_sessions env now user body put ml w)).
Qed.

Lemma run_keeps_closed env reqs : forall w s,
  sessions_wf w -> In s (sessions w) -> s_status s = closed ->
  In s (sessions (fst (run env reqs w))).
Proof.
  induction reqs as [|[now r] rest IH]; intros w s Hw Hin Hs; simpl; [exact Hin|].
  pose proof (handle_wf env now r w Hw) as H1.
  pose proof (closed_row_kept env now r w s Hw Hin Hs) as H2.
  destruct (handle env now r w) as [w1 o]. simpl in H1, H2.
  specialize (IH w1 s H1 H2 Hs). destruct (run env rest w1) as [w2 os]. exact IH.
Qed.

Lemma closed_not_open w s :
  sessions_wf w -> In s (sessions w) -> s_status s = closed ->
  Db.first (open_session (s_session_id s)) (sessions w) = None.
Proof.
  intros [Hone Hfresh Huniq] Hin Hs.
  destruct (Db.first (open_session (s_session_id s)) (sessions w)) as [a|] eqn:E;
    [|reflexivity].
  apply first_Some in E as [Hain Ha]. unfold open_session in Ha.
  apply andb_true_iff in Ha as [Hid Hopen]. apply Z.eqb_eq in Hid.
  assert (a = s) as -> by (eapply NoDup_ids_inj; eauto).
  rewrite Hs in Hopen. discriminate.
Qed.

(** X1. A closed session is final: in a state reached from a database
    without sessions, the row of a closed session (its end timestamp
    included) is still in the table, unchanged, after any further
    requests; no handler reopens it or rewrites it. *)
Theorem closed_session_is_final :
  forall (env : Env) (w0 : World) (pre post : list (Z * Request)) (s : SessionRow),
    sessions w0 = [] ->
    In s (sessions (fst (run env pre w0))) ->
    s_status s = closed ->
    In s (sessions (fst (run env post (fst (run env pre w0))))).
Proof.
  intros env w0 pre post s H0 Hin Hs.
  apply run_keeps_closed; auto. apply run_wf, empty_sessions_wf, H0.
Qed.

Lemma closed_session_is_final_witness :
  let w0 := fresh [mkClass 1 "P1"] [] in
  sessions w0 = []
  /\ In (mkSession 1 1 0 0 (Some 9) closed)
        (sessions (fst (run (mkEnv None None)
                          [(12, ReqStart "P1" 1); (20, ReqStop 1); (30, ReqStop 1)]
                          (fst (run (mkEnv None None)
                                  [(0, ReqStart "P1" 1); (9, ReqStop 1)] w0))))).
Proof.
  split; [reflexivity|].
  apply (closed_session_is_final (mkEnv None None) (fresh [mkClass 1 "P1"] [])
           [(0, ReqStart "P1" 1); (9, ReqStop 1)]
           [(12, ReqStart "P1" 1); (20, ReqStop 1); (30, ReqStop 1)]
           (mkSession 1 1 0 0 (Some 9) closed) eq_refl);
    [left; reflexivity | reflexivity].
Defined.

(** X2. Once a session is closed, presence events and check-ins for it
    are refused for good: whatever requests are served in between, a
    presence event naming the session is answered 400 and a check-in is
    answered 400 "Session not found or not active", and neither changes
    the state. *)
Theorem closed_session_rejects_events :
  forall (env : Env) (w0 : World) (pre post : list (Z * Request)) (s : SessionRow),
    sessions w0 = [] ->
    In s (sessions (fst (run env pre w0))) ->
    s_status s = closed ->
    let w := fst (run env post (fst (run env pre w0))) in
    (forall now body,
        Presence.b_session_id body = Some (s_session_id s) ->
        fst (Presence.record env now body w) = w
        /\ exists message,
             snd (Presence.record env now body w) = Responded 400 (JsonError message))
    /\ (forall now user image_data put ml,
          Attendance.checkin env now user (Attendance.mkBody (s_session_id s) image_data)
            put ml w
          = (w, Responded 400 (JsonError "Session not found or not active"))).
Proof.
  intros env w0 pre post s H0 Hin Hs w.
  assert (Hwf0 : sessions_wf (fst (run env pre w0)))
    by (apply run_wf, empty_sessions_wf, H0).
  assert (Hwf : sessions_wf w) by (apply run_wf, Hwf0).
  assert (Hin' : In s (sessions w)) by (apply run_keeps_closed; auto).
  pose proof (closed_not_open w s Hwf Hin' Hs) as Hnone.
  split.
  - intros now body Hb. unfold Presence.record. rewrite Hb.
    destruct (Presence.b_student_id body); [|simpl; eauto].
    destruct (Presence.b_event_type body); [|simpl; eauto].
    destruct (negb (JS.truthyZ (Some (s_session_id s))) || _ || _); [simpl; eauto|].
    rewrite Hnone. simpl. eauto.
  - intros now user image_data put ml. unfold Attendance.checkin.
    cbn [Attendance.b_session_id]. now rewrite Hnone.
Qed.

Lemma closed_session_rejects_events_witness :
  let w0 := fresh [mkClass 1 "P1"] [] in
  let w := fst (run (mkEnv None None) [(12, ReqStart "P1" 1)]
                  (fst (run (mkEnv None None)
                          [(0, ReqStart "P1" 1); (9, ReqStop 1)] w0))) in
  sessions w0 = []
  /\ Attendance.checkin (mkEnv None None) 15 "S1" (Attendance.mkBody 1 "/9j/4A==")
       Attendance.PutOk Attendance.MatchThrows w
     = (w, Responded 400 (JsonError "Session not found or not active")).
Proof.
  split; [reflexivity|].
  assert (Hin : In (mkSession 1 1 0 0 (Some 9) closed)
                   (sessions (fst (run (mkEnv None None)
                                     [(0, ReqStart "P1" 1); (9, ReqStop 1)]
                                     (fresh [mkClass 1 "P1"] [])))))
    by (left; reflexivity).
  destruct (closed_session_rejects_events (mkEnv None None) (fresh [mkClass 1 "P1"] [])
              [(0, ReqStart "P1" 1); (9, ReqStop 1)] [(12, ReqStart "P1" 1)]
              (mkSession 1 1 0 0 (Some 9) closed) eq_refl Hin eq_refl) as [_ H].
  apply (H 15 "S1" "/9j/4A==" Attendance.PutOk Attendance.MatchThrows).
Defined.

(** ** Start and stop, one after the other *)

Lemma first_None_intro {A : Type} (p : A -> bool) (t : list A) :
  (forall r, In r t -> p r = false) -> Db.first p t = None.
Proof.
  unfold Db.first. induction t as [|r t IH]; simpl; intros H; [reflexivity|].
  rewrite (H r (or_introl eq_refl)). apply IH. intros x Hx. apply H. now right.
Qed.

Lemma first_app_new {A : Type} (p : A -> bool) (t : list A) (r : A) :
  Db.first p t = None -> p r = true -> Db.first p (t ++ [r]) = Some r.
Proof.
  unfold Db.first. induction t as [|x t IH]; simpl; intros Hn Hr.
  - now rewrite Hr.
  - destruct (p x); [discriminate|]. now apply IH.
Qed.

(** After a stop the class has no open session. *)
Lemma stop_leaves_none_open now c w a :
  sessions_wf w ->
  Db.first (open_for_class c) (sessions w) = Some a ->
  Db.first (open_for_class c) (sessions (fst (Classes.stop now c w))) = None.
Proof.
  intros [Hone Hfresh Huniq] Hopen. unfold Classes.stop. rewrite Hopen. simpl.
  apply first_None_intro. intros r Hr. unfold Db.update in Hr.
  apply in_map_iff in Hr as (x & Hx & Hin).
  destruct (s_session_id x =? s_session_id a) eqn:E.
  - subst r. apply open_for_class_close.
  - subst r. destruct (open_for_class c x) eqn:Ex; [|reflexivity].
    assert (a = x) by (eapply open_session_is_first; eauto).
    subst x. now rewrite Z.eqb_refl in E.
Qed.

Lemma stop_ok_inv now c w code json :
  snd (Classes.stop now c w) = Responded code json -> code = 200 ->
  exists a, Db.first (open_for_class c) (sessions w) = Some a.
Proof.
  unfold Classes.stop. destruct (Db.first (open_for_class c) (sessions w)) as [a|].
  - eauto.
  - simpl. intros H ->. discriminate.
Qed.

(** X3. In a state reached from a database without sessions, a stop that
    succeeded leaves the class without any open session: a second stop
    is answered 400 "No active session found" and changes nothing, and
    the professor of the class can start a new session, which gets the
    next session id. *)
Theorem stop_then_stop_or_restart :
  forall (env : Env) (w0 : World) (reqs : list (Z * Request)) (now now' c : Z),
    sessions w0 = [] ->
    let w := fst (run env reqs w0) in
    snd (Classes.stop now c w)
    = Responded 200 (JsonMessage "Session stopped successfully") ->
    let w1 := fst (Classes.stop now c w) in
    Classes.stop now' c w1 = (w1, Responded 400 (JsonError "No active session found"))
    /\ (forall user,
          existsb (Classes.owned_class c user) (classes w1) = true ->
          snd (Classes.start now' user c w1)
          = Responded 201
              (JsonSessionStarted "Session started successfully" (next_session_id w))).
Proof.
  intros env w0 reqs now now' c H0 w Hok w1.
  assert (Hwf : sessions_wf w) by (apply run_wf, empty_sessions_wf, H0).
  destruct (stop_ok_inv now c w _ _ Hok eq_refl) as [a Ha].
  pose proof (stop_leaves_none_open now c w a Hwf Ha) as Hnone. fold w1 in Hnone.
  split.
  - unfold Classes.stop at 1. now rewrite Hnone.
  - intros user Hown. unfold Classes.start. rewrite Hnone.
    destruct (Db.first (Classes.owned_class c user) (classes w1)) eqn:E.
    + subst w1. unfold Classes.stop. rewrite Ha. reflexivity.
    + exfalso. apply existsb_exists in Hown as (x & Hx & Hp).
      unfold Db.first in E. now rewrite (find_none _ _ E x Hx) in Hp.
Qed.

Lemma stop_then_stop_or_restart_witness :
  let w0 := fresh [mkClass 1 "P1"] [] in
  let w := fst (run (mkEnv None None) [(0, ReqStart "P1" 1)] w0) in
  sessions w0 = []
  /\ Classes.stop 20 1 (fst (Classes.stop 9 1 w))
     = (fst (Classes.stop 9 1 w), Responded 400 (JsonError "No active session found")).
Proof.
  split; [reflexivity|].
  apply (stop_then_stop_or_restart (mkEnv None None) (fresh [mkClass 1 "P1"] [])
           [(0, ReqStart "P1" 1)] 9 20 1 eq_refl eq_refl).
Defined.

Lemma start_ok_inv now user c w message id :
  snd (Classes.start now user c w) = Responded 201 (JsonSessionStarted message id) ->
  Db.first (open_for_class c) (sessions w) = None
  /\ id = next_session_id w
  /\ fst (Classes.start now user c w)
     = SocketIO.broadcastSessionStatus (JS.toString (next_session_id w)) "started"
         (with_sessions w
            (sessions w ++ [mkSession (next_session_id w) c (now / 86400000) now None open])
            (next_session_id w + 1)).
Proof.
  unfold Classes.start.
  destruct (Db.first (Classes.owned_class c user) (classes w)); [|discriminate].
  destruct (Db.first (open_for_class c) (sessions w)); [discriminate|].
  simpl. intros H. injection H as _ <-. auto.
Qed.

(** X4. Start then stop.  In a state reached from a database without
    sessions, a start that succeeded appended one open session, with the
    next session id, the clock reading as start timestamp and its UTC
    day as date; a stop of the class right after closes exactly that
    session, with the clock reading of the stop as end timestamp, and
    leaves the older sessions as they were. *)
Theorem start_then_stop :
  forall (env : Env) (w0 : World) (reqs : list (Z * Request)) (now now' : Z)
         (user : string) (c : Z) (message : string) (id : Z),
    sessions w0 = [] ->
    let w := fst (run env reqs w0) in
    snd (Classes.start now user c w) = Responded 201 (JsonSessionStarted message id) ->
    let w1 := fst (Classes.start now user c w) in
    id = next_session_id w
    /\ sessions w1
       = (sessions w ++ [mkSession id c (now / 86400000) now None open])%list
    /\ (forall s, In s (sessions w) -> s_session_id s <> id)
    /\ snd (Classes.stop now' c w1)
       = Responded 200 (JsonMessage "Session stopped successfully")
    /\ sessions (fst (Classes.stop now' c w1))
       = (sessions w ++ [mkSession id c (now / 86400000) now (Some now') closed])%list.
Proof.
  intros env w0 reqs now now' user c message id H0 w Hok w1.
  assert (Hwf : sessions_wf w) by (apply run_wf, empty_sessions_wf, H0).
  destruct (start_ok_inv now user c w message id Hok) as (Hnone & -> & Hw1).
  assert (Hfresh : forall s, In s (sessions w) -> s_session_id s <> next_session_id w).
  { intros s Hs. pose proof (wf_ids_fresh w Hwf) as Hf.
    rewrite Forall_forall in Hf. specialize (Hf s Hs). lia. }
  subst w1. rewrite Hw1. cbn [sessions SocketIO.broadcastSessionStatus with_emitted
    with_sessions].
  split; [reflexivity|]. split; [reflexivity|]. split; [exact Hfresh|].
  unfold Classes.stop. cbn [sessions SocketIO.broadcastSessionStatus with_emitted
    with_sessions].
  rewrite (first_app_new _ _ (mkSession (next_session_id w) c (now / 86400000) now None open)
             Hnone)
    by (unfold open_for_class; simpl; now rewrite Z.eqb_refl).
  cbn [fst snd sessions SocketIO.broadcastSessionStatus with_emitted with_sessions
       s_session_id].
  split; [reflexivity|].
  unfold Db.update. rewrite map_app. simpl. rewrite Z.eqb_refl. f_equal.
  rewrite <- (map_id (sessions w)) at 2. apply map_ext_in. intros s Hs.
  destruct (Z.eqb_spec (s_session_id s) (next_session_id w)) as [E|_]; [|reflexivity].
  now apply Hfresh in E.
Qed.

Lemma start_then_stop_witness :
  let w0 := fresh [mkClass 1 "P1"] [] in
  let w := fst (run (mkEnv None None) [(0, ReqStart "P1" 1); (9, ReqStop 1)] w0) in
  sessions w0 = []
  /\ sessions (fst (Classes.stop 86400020 1 (fst (Classes.start 86400012 "P1" 1 w))))
     = [mkSession 1 1 0 0 (Some 9) closed;
        mkSession 2 1 1 86400012 (Some 86400020) closed].
Proof.
  split; [reflexivity|].
  destruct (start_then_stop (mkEnv None None) (fresh [mkClass 1 "P1"] [])
              [(0, ReqStart "P1" 1); (9, ReqStop 1)] 86400012 86400020 "P1" 1
              "Session started successfully" 2 eq_refl eq_refl) as (_ & _ & _ & _ & H).
  exact H.
Defined.

(** ** Requests that are refused *)

(** X5. A request that is answered with an error status (400, 404, 500)
    or that ends in the error handler leaves the whole state as it was:
    tables, counters and channel.  This holds for the five handlers; a
    refused request writes nothing and broadcasts nothing. *)
Theorem refused_request_changes_nothing :
  forall (env : Env) (now : Z) (r : Request) (w : World),
    failure (snd (handle env now r w)) ->
    fst (handle env now r w) = w.
Proof.
  intros env now r w.
  destruct r as [user classId|classId|user sessionId|body|user body put ml]; simpl.
  - unfold Classes.start. handler_cases; simpl; auto; lia.
  - unfold Classes.stop. handler_cases; simpl; auto; lia.
  - unfold Classes.forceAbsent. handler_cases; simpl; auto; lia.
  - unfold Presence.record. handler_cases; simpl; auto; lia.
  - unfold Attendance.checkin. handler_cases; simpl; auto; lia.
Qed.

Lemma refused_request_changes_nothing_witness :
  failure (snd (handle (mkEnv None None) 36000001 (ReqForceAbsent "P1" 1)
                  after_first_absence_run))
  /\ fst (handle (mkEnv None None) 36000001 (ReqForceAbsent "P1" 1)
            after_first_absence_run)
     = after_first_absence_run.
Proof.
  assert (H : failure (snd (handle (mkEnv None None) 36000001 (ReqForceAbsent "P1" 1)
                              after_first_absence_run))) by exact I.
  split; [exact H|].
  apply (refused_request_changes_nothing (mkEnv None None) 36000001
           (ReqForceAbsent "P1" 1) after_first_absence_run H).
Defined.

(** X6. A presence event is accepted (answered 201) exactly when its
    session id, student id and event type are all present and truthy
    (a session id 0 and empty strings count as missing) and the session
    named is open; the event id in the answer is then the next id of the
    event log. *)
Theorem presence_event_accepted_iff :
  forall (env : Env) (now : Z) (body : Presence.Body) (w : World),
    (accepted (snd (Presence.record env now body w)) = true
     <-> exists sid pid et,
          Presence.b_session_id body = Some sid
          /\ Presence.b_student_id body = Some pid
          /\ Presence.b_event_type body = Some et
          /\ sid <> 0 /\ pid <> "" /\ et <> ""
          /\ exists session,
               In session (sessions w)
               /\ s_session_id session = sid /\ s_status session = open)
    /\ (accepted (snd (Presence.record env now body w)) = true ->
        snd (Presence.record env now body w)
        = Responded 201 (JsonEventRecorded (next_event_id w) "Presence event recorded")).
Proof.
  intros env now body w. unfold Presence.record.
  destruct (Presence.b_session_id body) as [sid|];
    [|split; [split; [discriminate | intros (?&?&?&H&_); discriminate] | discriminate]].
  destruct (Presence.b_student_id body) as [pid|];
    [|split; [split; [discriminate | intros (?&?&?&_&H&_); discriminate] | discriminate]].
  destruct (Presence.b_event_type body) as [et|];
    [|split; [split; [discriminate | intros (?&?&?&_&_&H&_); discriminate] | discriminate]].
  destruct (negb (JS.truthyZ (Some sid)) || negb (JS.truthyS (Some pid))
            || negb (JS.truthyS (Some et))) eqn:Ht.
  { split; [split; [discriminate|] | discriminate].
    intros (s & p & e & Hs & Hp & He & Hs0 & Hp0 & He0 & _).
    injection Hs as <-. injection Hp as <-. injection He as <-.
    rewrite (truthy_fields sid pid et Hs0 Hp0 He0) in Ht. discriminate. }
  simpl in Ht. apply orb_false_iff in Ht as [Ht He]. apply orb_false_iff in Ht as [Hs Hp].
  rewrite negb_false_iff, negb_true_iff in Hs, Hp, He.
  apply Z.eqb_neq in Hs. apply String.eqb_neq in Hp. apply String.eqb_neq in He.
  destruct (Db.first (open_session sid) (sessions w)) as [session|] eqn:Hopen.
  - split; [split; [intros _ | reflexivity] | reflexivity].
    exists sid, pid, et. repeat split; auto.
    apply first_Some in Hopen as [Hin Ho]. unfold open_session in Ho.
    apply andb_true_iff in Ho as [Hid Hst]. apply Z.eqb_eq in Hid.
    exists session. repeat split; auto.
    destruct (s_status session); [reflexivity | discriminate].
  - split; [split; [discriminate|] | discriminate].
    intros (s & p & e & Hs' & _ & _ & _ & _ & _ & session & Hin & Hid & Hst).
    injection Hs' as <-. exfalso.
    apply (first_of_member (open_session sid) (sessions w) session Hin); auto.
    unfold open_session. now rewrite Hid, Hst, Z.eqb_refl.
Qed.

(** ** Accepted presence events *)

(** X7. An accepted presence event whose type is neither "in" nor "out"
    (say "seen") is logged with its type and source and broadcast like
    any other, and leaves the attendance table untouched. *)
Theorem other_event_types_only_logged :
  forall (env : Env) (now sid : Z) (pid et : string) (source : option string)
         (details : option Details) (w : World) (session : SessionRow),
    sid <> 0 -> pid <> "" -> et <> "" -> et <> "in" -> et <> "out" ->
    Db.first (open_session sid) (sessions w) = Some session ->
    let res := Presence.record env now
                 (Presence.mkBody (Some sid) (Some pid) (Some et) source details) w in
    snd res = Responded 201 (JsonEventRecorded (next_event_id w) "Presence event recorded")
    /\ attendance (fst res) = attendance w
    /\ presence_events (fst res)
       = (presence_events w
          ++ [mkEvent (next_event_id w) sid pid et now (JS.or_default source "cctv")
                details])%list
    /\ emitted (fst res)
       = (emitted w
          ++ [EmitPresenceEvent ("attendance:" ++ JS.toString sid)
                (mkPayload (Some (next_event_id w)) pid et now
                   (JS.or_default source "cctv") None None details)])%list.
Proof.
  intros env now sid pid et source details w session Hs Hp He Hin Hout Hopen res.
  subst res. unfold Presence.record. cbn [Presence.b_session_id
    Presence.b_student_id Presence.b_event_type Presence.b_source Presence.b_details].
  rewrite (truthy_fields sid pid et Hs Hp He), Hopen.
  apply String.eqb_neq in Hin, Hout. rewrite Hin, Hout. repeat split.
Qed.

Lemma other_event_types_only_logged_witness :
  Db.first (open_session 1) (sessions S1_present)
  = Some (mkSession 1 1 0 t_09_00 None open)
  /\ attendance (fst (Presence.record (mkEnv None None) t_09_45
                        (Presence.mkBody (Some 1) (Some "S1") (Some "seen") None None)
                        S1_present))
     = attendance S1_present.
Proof.
  assert (H1 : 1 <> 0) by discriminate.
  assert (H2 : "S1" <> "") by discriminate.
  assert (H3 : "seen" <> "") by discriminate.
  assert (H4 : "seen" <> "in") by discriminate.
  assert (H5 : "seen" <> "out") by discriminate.
  split; [reflexivity|].
  destruct (other_event_types_only_logged (mkEnv None None) t_09_45 1 "S1" "seen" None
              None S1_present (mkSession 1 1 0 t_09_00 None open)
              H1 H2 H3 H4 H5 eq_refl) as (_ & H & _).
  exact H.
Defined.

Lemma upsert_fresh row t :
  filter (Db.same_key (a_session_id row) (a_student_id row)) t = [] ->
  Db.insert_onConflict_merge row t = (t ++ [row])%list.
Proof.
  intros Hnone. unfold Db.insert_onConflict_merge.
  destruct (Db.has_key row t) eqn:E; [|reflexivity].
  unfold Db.has_key in E. apply existsb_exists in E as (x & Hx & Hk).
  assert (In x (filter (Db.same_key (a_session_id row) (a_student_id row)) t))
    by (apply filter_In; auto).
  rewrite Hnone in H. contradiction.
Qed.

(** X8. The first ENTER of a pair.  An ENTER accepted for a pair that has
    no attendance row appends one row to the table: the status resolved
    for the event, the clock reading as entry timestamp, no exit
    timestamp and no duration, and the image of the event as evidence
    (none if the event has none).  A confirmed check-in does the same
    with the uploaded selfie as evidence.  The existing rows keep their
    place and content. *)
Theorem first_enter_creates_record :
  forall (env : Env) (now sid : Z) (pid : string) (source : option string)
         (details : option Details) (w : World) (session : SessionRow),
    sid <> 0 -> pid <> "" ->
    Db.first (open_session sid) (sessions w) = Some session ->
    records_of sid pid w = [] ->
    let status := status_of (Presence.isStudentLate env now (s_start_ts session)) in
    attendance
      (fst (Presence.record env now
              (Presence.mkBody (Some sid) (Some pid) (Some "in") source details) w))
    = (attendance w
       ++ [mkAttendance sid pid status (Some now) None None
             (Presence.image_url_of details)])%list
    /\ (forall (image_data : string) (data : Attendance.MatchData),
          Attendance.confirmed data pid = true ->
          attendance
            (fst (Attendance.checkin env now pid (Attendance.mkBody sid image_data)
                    Attendance.PutOk (Attendance.MatchReply data) w))
          = (attendance w
             ++ [mkAttendance sid pid status (Some now) None None
                   (Some (imageUrl env now sid pid))])%list).
Proof.
  intros env now sid pid source details w session Hs Hp Hopen Hnone. cbv zeta.
  unfold records_of in Hnone. split.
  - rewrite (record_enter env now sid pid source details w session Hs Hp Hopen).
    cbn [fst]. rewrite attendance_broadcast, attendance_with_attendance.
    unfold entered. now apply upsert_fresh.
  - intros image_data data Hc.
    rewrite (checkin_confirmed env now pid (Attendance.mkBody sid image_data) data w
               session Hopen Hc).
    cbn [fst Attendance.b_session_id].
    rewrite attendance_broadcast, attendance_with_presence_events,
      attendance_with_attendance.
    rewrite isStudentLate_copies. now apply upsert_fresh.
Qed.

Lemma first_enter_creates_record_witness :
  Db.first (open_session 1) (sessions one_student_session)
  = Some (mkSession 1 1 0 t_09_00 None open)
  /\ records_of 1 "S1" one_student_session = []
  /\ attendance (fst (Presence.record (mkEnv None None) t_09_45
                        (enter_S1 (Some "b.jpg") None) one_student_session))
     = [mkAttendance 1 "S1" late (Some t_09_45) None None (Some "b.jpg")].
Proof.
  assert (H1 : 1 <> 0) by discriminate.
  assert (H2 : "S1" <> "") by discriminate.
  split; [reflexivity|]. split; [reflexivity|].
  destruct (first_enter_creates_record (mkEnv None None) t_09_45 1 "S1" None
              (Some (mkDetails (Some "b.jpg") None None None)) one_student_session
              (mkSession 1 1 0 t_09_00 None open) H1 H2 eq_refl eq_refl) as [H _].
  exact H.
Defined.

(** ** The event log over a run *)

Lemma handle_log_step env now r w :
  let res := handle env now r w in
  exists suffix,
    presence_events (fst res) = (presence_events w ++ suffix)%list
    /\ List.length suffix = (if logs_event r (snd res) then 1 else 0)%nat
    /\ map ev_event_id suffix = consecutive (next_event_id w) (List.length suffix)
    /\ next_event_id (fst res) = next_event_id w + Z.of_nat (List.length suffix).
Proof.
  assert (Hnil : forall w' : World,
             presence_events w' = presence_events w ->
             next_event_id w' = next_event_id w ->
             exists suffix,
               presence_events w' = (presence_events w ++ suffix)%list
               /\ List.length suffix = 0%nat
               /\ map ev_event_id suffix
                  = consecutive (next_event_id w) (List.length suffix)
               /\ next_event_id w' = next_event_id w + Z.of_nat (List.length suffix)).
  { intros w' H1 H2. exists []. rewrite app_nil_r. simpl. repeat split; auto. lia. }
  assert (Hone : forall e : EventRow,
             ev_event_id e = next_event_id w ->
             exists suffix,
               (presence_events w ++ [e])%list = (presence_events w ++ suffix)%list
               /\ List.length suffix = 1%nat
               /\ map ev_event_id suffix
                  = consecutive (next_event_id w) (List.length suffix)
               /\ next_event_id w + 1 = next_event_id w + Z.of_nat (List.length suffix)).
  { intros e He. exists [e]. simpl. unfold consecutive. simpl.
    rewrite He, Z.add_0_r. repeat split. }
  intros res. subst res.
  destruct r as [user classId|classId|user sessionId|body|user body put ml];
    cbn [handle];
    match goal with
    | |- context [logs_event ?r] =>
        set (P := fun res : World * Outcome =>
                    exists suffix,
                      presence_events (fst res) = (presence_events w ++ suffix)%list
                      /\ List.length suffix
                         = (if logs_event r (snd res) then 1 else 0)%nat
                      /\ map ev_event_id suffix
                         = consecutive (next_event_id w) (List.length suffix)
                      /\ next_event_id (fst res)
                         = next_event_id w + Z.of_nat (List.length suffix));
        match goal with |- ?G => change G with (P ltac:(
          match G with context [fst ?x] => exact x end)) end
    end.
  - unfold Classes.start. handler_cases; subst P; cbn; auto.
  - unfold Classes.stop. handler_cases; subst P; cbn; auto.
  - unfold Classes.forceAbsent. handler_cases; subst P; cbn; auto.
  - unfold Presence.record. handler_cases; subst P; cbn; auto.
  - unfold Attendance.checkin. handler_cases; subst P; cbn; auto.
Qed.

Lemma consecutive_S first n :
  consecutive first (S n) = first :: consecutive (first + 1) n.
Proof.
  unfold consecutive. change (seq 0 (S n)) with (0%nat :: seq 1 n). cbn [map].
  change (Z.of_nat 0) with 0. rewrite Z.add_0_r. f_equal.
  rewrite <- seq_shift, map_map. apply map_ext. intros k.
  rewrite Nat2Z.inj_succ. unfold Z.succ. now rewrite <- Z.add_assoc, (Z.add_comm 1).
Qed.

Lemma consecutive_app n : forall first m,
  consecutive first (n + m)
  = (consecutive first n ++ consecutive (first + Z.of_nat n) m)%list.
Proof.
  induction n as [|n IH]; intros first m.
  - simpl. now rewrite Z.add_0_r.
  - change (S n + m)%nat with (S (n + m)). rewrite !consecutive_S, IH. cbn [app].
    do 3 f_equal. lia.
Qed.

Lemma run_cons env now r rest w :
  run env ((now, r) :: rest) w
  = (fst (run env rest (fst (handle env now r w))),
     snd (handle env now r w) :: snd (run env rest (fst (handle env now r w)))).
Proof.
  simpl. destruct (handle env now r w) as [w1 o]. simpl.
  now destruct (run env rest w1).
Qed.

(** X9. The event log is append-only and counts the accepted events.
    Over any sequence of requests the log after the run is the log
    before it followed by one event per presence event answered 201 and
    per check-in answered 200, and by nothing else; no handler removes or
    rewrites an event.  The new events carry consecutive ids, starting at
    the next id of the log. *)
Theorem event_log_is_append_only :
  forall (env : Env) (reqs : list (Z * Request)) (w : World),
    let res := run env reqs w in
    exists suffix,
      presence_events (fst res) = (presence_events w ++ suffix)%list
      /\ List.length suffix = logged_count reqs (snd res)
      /\ map ev_event_id suffix = consecutive (next_event_id w) (List.length suffix)
      /\ next_event_id (fst res) = next_event_id w + Z.of_nat (List.length suffix).
Proof.
  intros env reqs. induction reqs as [|[now r] rest IH]; intros w.
  - exists []. simpl. rewrite app_nil_r. repeat split. lia.
  - cbv zeta. rewrite run_cons. cbn [fst snd logged_count].
    destruct (handle_log_step env now r w) as (s1 & E1 & L1 & I1 & N1).
    destruct (IH (fst (handle env now r w))) as (s2 & E2 & L2 & I2 & N2).
    exists (s1 ++ s2)%list. rewrite length_app, map_app. split; [|split; [|split]].
    + now rewrite E2, E1, app_assoc.
    + now rewrite L1, L2.
    + rewrite consecutive_app, I1, I2, N1. reflexivity.
    + rewrite N2, N1. lia.
Qed.

(** ** The channel and the log *)

Lemma handle_mirrors env now r w :
  channel_mirrors_log w -> channel_mirrors_log (fst (handle env now r w)).
Proof.
  unfold channel_mirrors_log. intros H.
  set (P := fun res : World * Outcome =>
              flat_map published (emitted (fst res))
              = map announcement (presence_events (fst res))).
  change (P (handle env now r w)).
  destruct r as [user classId|classId|user sessionId|body|user body put ml];
    cbn [handle].
  - unfold Classes.start. handler_cases; subst P; cbn [fst]; auto.
    simpl. now rewrite flat_map_app, H, app_nil_r.
  - unfold Classes.stop. handler_cases; subst P; cbn [fst]; auto.
    simpl. now rewrite flat_map_app, H, app_nil_r.
  - unfold Classes.forceAbsent. handler_cases; subst P; cbn [fst]; auto.
  - unfold Presence.record. handler_cases; subst P; cbn [fst]; auto;
      simpl; now rewrite flat_map_app, map_app, H.
  - unfold Attendance.checkin. handler_cases; subst P; cbn [fst]; auto;
      simpl; now rewrite flat_map_app, map_app, H.
Qed.

(** X10. The channel carries what the log holds.  From a state where the
    presence messages broadcast so far are the events of the log, in
    order (an empty log and a silent channel, for instance), any
    sequence of requests keeps it so: each logged event was broadcast
    once, to the room of its session, with its student, type and source,
    in the order of the log, and no presence message was broadcast for
    anything else. *)
Theorem channel_carries_the_log :
  forall (env : Env) (reqs : list (Z * Request)) (w : World),
    channel_mirrors_log w ->
    channel_mirrors_log (fst (run env reqs w)).
Proof.
  intros env reqs. induction reqs as [|[now r] rest IH]; intros w H; [exact H|].
  rewrite run_cons. cbn [fst]. apply IH. now apply handle_mirrors.
Qed.

Lemma channel_carries_the_log_witness :
  channel_mirrors_log (fresh [mkClass 1 "P1"] [])
  /\ channel_mirrors_log
       (fst (run (mkEnv None None)
               [(t_09_00, ReqStart "P1" 1);
                (t_09_10, ReqPresence (enter_S1 None None));
                (t_09_45, ReqPresence exit_S1); (36000000, ReqStop 1)]
               (fresh [mkClass 1 "P1"] []))).
Proof.
  assert (H : channel_mirrors_log (fresh [mkClass 1 "P1"] [])) by reflexivity.
  split; [exact H|].
  apply (channel_carries_the_log (mkEnv None None)
           [(t_09_00, ReqStart "P1" 1); (t_09_10, ReqPresence (enter_S1 None None));
            (t_09_45, ReqPresence exit_S1); (36000000, ReqStop 1)]
           (fresh [mkClass 1 "P1"] []) H).
Defined.

(** ** The log and the attendance table *)

Lemma upsert_In_inv row t r :
  In r (Db.insert_onConflict_merge row t) ->
  In r t \/ (key r = key row /\ a_status r = a_status row).
Proof.
  unfold Db.insert_onConflict_merge. destruct (Db.has_key row t).
  - unfold Db.update. intros H. apply in_map_iff in H as (x & Hx & Hin).
    destruct (Db.same_key (a_session_id row) (a_student_id row) x); subst r; auto.
  - intros H. apply in_app_or in H as [H|[<-|[]]]; auto.
Qed.

Lemma upsert_In_old row t r :
  In r t ->
  exists r', In r' (Db.insert_onConflict_merge row t)
             /\ key r' = key r
             /\ (a_status r' = a_status r \/ a_status r' = a_status row).
Proof.
  intros Hin. unfold Db.insert_onConflict_merge. destruct (Db.has_key row t).
  - destruct (Db.same_key (a_session_id row) (a_student_id row) r) eqn:E.
    + exists (Db.merge row r). split; [|split; [now apply merge_key | now right]].
      unfold Db.update. apply in_map_iff. exists r. now rewrite E.
    + exists r. split; [|split; [reflexivity | now left]].
      unfold Db.update. apply in_map_iff. exists r. now rewrite E.
  - exists r. split; [apply in_or_app; now left | split; [reflexivity | now left]].
Qed.

Lemma upsert_In_new row t :
  exists r', In r' (Db.insert_onConflict_merge row t)
             /\ key r' = key row /\ a_status r' = a_status row.
Proof.
  unfold Db.insert_onConflict_merge. destruct (Db.has_key row t) eqn:E.
  - unfold Db.has_key in E. apply existsb_exists in E as (x & Hx & Hk).
    exists (Db.merge row x). split; [|split; [|reflexivity]].
    + unfold Db.update. apply in_map_iff. exists x. now rewrite Hk.
    + rewrite (merge_key row x Hk). now apply same_key_iff.
  - exists row. split; [apply in_or_app; right; now left | auto].
Qed.

Lemma entered_in_log_grows sid pid w w' suffix :
  presence_events w' = (presence_events w ++ suffix)%list ->
  entered_in_log sid pid w -> entered_in_log sid pid w'.
Proof.
  intros E (e & Hin & H). exists e. split; [|exact H].
  rewrite E. apply in_or_app. now left.
Qed.

(** An ENTER is logged and its row upserted. *)
Lemma backs_enter w w' row e :
  log_backs_attendance w ->
  attendance w' = Db.insert_onConflict_merge row (attendance w) ->
  presence_events w' = (presence_events w ++ [e])%list ->
  ev_event_type e = "in" ->
  ev_session_id e = a_session_id row -> ev_student_id e = a_student_id row ->
  is_checked_in (a_status row) = true ->
  log_backs_attendance w'.
Proof.
  intros [H1 H2] Ha He Ht Hs Hp Hc. split.
  - intros r Hr Hrc. rewrite Ha in Hr. apply upsert_In_inv in Hr as [Hr|[Hk _]].
    + eapply entered_in_log_grows; eauto.
    + unfold key in Hk. injection Hk as -> ->.
      exists e. split; [rewrite He; apply in_or_app; right; now left | auto].
  - intros x Hx Hxt. rewrite He in Hx. apply in_app_or in Hx as [Hx|[<-|[]]].
    + destruct (H2 x Hx Hxt) as (r & Hr & Hrs & Hrp & Hrc).
      destruct (upsert_In_old row (attendance w) r Hr) as (r' & Hr' & Hk & Hst).
      exists r'. rewrite Ha. unfold key in Hk. injection Hk as Hk1 Hk2.
      repeat split; try congruence.
      destruct Hst as [-> | ->]; assumption.
    + destruct (upsert_In_new row (attendance w)) as (r' & Hr' & Hk & Hst).
      exists r'. rewrite Ha. unfold key in Hk. injection Hk as Hk1 Hk2.
      repeat split; congruence.
Qed.

(** Rows are rewritten without touching key or status, and an event that
    is not an ENTER may be logged. *)
Lemma backs_update w w' p f suffix :
  log_backs_attendance w ->
  (forall r, key (f r) = key r /\ a_status (f r) = a_status r) ->
  attendance w' = Db.update p f (attendance w) ->
  presence_events w' = (presence_events w ++ suffix)%list ->
  Forall (fun e => ev_event_type e <> "in") suffix ->
  log_backs_attendance w'.
Proof.
  intros [H1 H2] Hf Ha He Hs.
  assert (Hg : forall r, key (if p r then f r else r) = key r
                         /\ a_status (if p r then f r else r) = a_status r)
    by (intros r; destruct (p r); auto).
  split.
  - intros r Hr Hrc. rewrite Ha in Hr. unfold Db.update in Hr.
    apply in_map_iff in Hr as (x & <- & Hx).
    destruct (Hg x) as [Hk Hst]. unfold key in Hk. injection Hk as -> ->.
    rewrite Hst in Hrc. eapply entered_in_log_grows; eauto.
  - intros e Hin Ht. rewrite He in Hin. apply in_app_or in Hin as [Hin|Hin].
    + destruct (H2 e Hin Ht) as (r & Hr & Hrs & Hrp & Hrc).
      exists (if p r then f r else r). rewrite Ha.
      destruct (Hg r) as [Hk Hst]. unfold key in Hk. injection Hk as Hk1 Hk2.
      repeat split; try congruence.
      unfold Db.update. apply in_map_iff. now exists r.
    + rewrite Forall_forall in Hs. now apply Hs in Hin.
Qed.

(** Absent rows are appended. *)
Lemma backs_absent w w' rows :
  log_backs_attendance w ->
  attendance w' = (attendance w ++ rows)%list ->
  presence_events w' = presence_events w ->
  Forall (fun r => a_status r = absent) rows ->
  log_backs_attendance w'.
Proof.
  intros [H1 H2] Ha He Hs. split.
  - intros r Hr Hrc. rewrite Ha in Hr. apply in_app_or in Hr as [Hr|Hr].
    + destruct (H1 r Hr Hrc) as (e & Hin & H). exists e. now rewrite He.
    + rewrite Forall_forall in Hs. rewrite (Hs r Hr) in Hrc. discriminate.
  - intros e Hin Ht. rewrite He in Hin.
    destruct (H2 e Hin Ht) as (r & Hr & H). exists r. split; [|exact H].
    rewrite Ha. apply in_or_app. now left.
Qed.

Lemma update_id {A : Type} (t : list A) : Db.update (fun _ => false) (fun r => r) t = t.
Proof. unfold Db.update. apply map_id. Qed.

Lemma status_of_checked_in b : is_checked_in (status_of b) = true.
Proof. now destruct b. Qed.

Lemma handle_backs env now r w :
  log_backs_attendance w -> log_backs_attendance (fst (handle env now r w)).
Proof.
  intros H.
  assert (Hsame : forall w' : World,
             attendance w' = attendance w ->
             presence_events w' = presence_events w -> log_backs_attendance w').
  { intros w' Ha He. apply (backs_absent w w' [] H); auto.
    now rewrite app_nil_r. }
  destruct r as [user classId|classId|user sessionId|body|user body put ml];
    cbn [handle].
  - destruct (start_same_attendance now user classId w) as [Ha He _]. auto.
  - destruct (stop_same_attendance now classId w) as [Ha He _]. auto.
  - unfold Classes.forceAbsent.
    destruct (Classes.session_of_professor sessionId user w); [|now apply Hsame].
    destruct (0 <? _); [|now apply Hsame].
    destruct (Db.insert_all _ (attendance w)) as [e|t] eqn:Hins; [now apply Hsame|].
    apply insert_all_app in Hins. subst t.
    eapply (backs_absent w _ _ H); [reflexivity | reflexivity|].
    apply Forall_map, Forall_forall. intros id _. reflexivity.
  - unfold Presence.record.
    destruct (Presence.b_session_id body) as [sid|]; [|now apply Hsame].
    destruct (Presence.b_student_id body) as [pid|]; [|now apply Hsame].
    destruct (Presence.b_event_type body) as [et|]; [|now apply Hsame].
    destruct (negb (JS.truthyZ (Some sid)) || _ || _); [now apply Hsame|].
    destruct (Db.first (open_session sid) (sessions w)) as [session|];
      [|now apply Hsame].
    cbn [fst]. destruct (String.eqb et "in") eqn:Ein.
    + apply String.eqb_eq in Ein. subst et.
      eapply (backs_enter w _ _ _ H); try reflexivity. apply status_of_checked_in.
    + apply String.eqb_neq in Ein. destruct (String.eqb et "out").
      * eapply (backs_update w _ _ _ [_] H); [|reflexivity|reflexivity|].
        -- intros r. split; reflexivity.
        -- constructor; [exact Ein | constructor].
      * eapply (backs_update w _ (fun _ => false) (fun r => r) [_] H);
          [intros r; split; reflexivity | | reflexivity |].
        -- rewrite update_id. reflexivity.
        -- constructor; [exact Ein | constructor].
  - unfold Attendance.checkin.
    destruct (Db.first _ (sessions w)) as [session|]; [|now apply Hsame].
    destruct put; [|now apply Hsame].
    destruct ml as [data|]; [|now apply Hsame].
    destruct (Attendance.confirmed data user); [|now apply Hsame].
    cbn [fst].
    eapply (backs_enter w _ _ _ H); try reflexivity. apply status_of_checked_in.
Qed.

Lemma run_backs env reqs : forall w,
  log_backs_attendance w -> log_backs_attendance (fst (run env reqs w)).
Proof.
  induction reqs as [|[now r] rest IH]; intros w H; [exact H|].
  rewrite run_cons. cbn [fst]. apply IH. now apply handle_backs.
Qed.

Lemma unique_row_of_key t r r' :
  NoDup (map key t) -> In r t -> In r' t -> key r = key r' -> r = r'.
Proof.
  induction t as [|x t IH]; simpl; intros Hnd Hr Hr' Hk; [contradiction|].
  inversion Hnd as [|? ? Hnotin Hnd']; subst.
  destruct Hr as [->|Hr], Hr' as [->|Hr']; auto.
  - exfalso. apply Hnotin. rewrite Hk. now apply in_map.
  - exfalso. apply Hnotin. rewrite <- Hk. now apply in_map.
Qed.

(** ** An EXIT without a prior ENTER *)

(** C9, as stated, fails.  The absence computation does not look at the
    status of the session: run at 10:00 on the open session 1 it gives
    S1, who never entered, an absent row.  The EXIT of S1 at 10:05 is
    accepted, no ENTER of S1 is in the log, and the attendance table is
    not what it was: the absent row now has an exit timestamp. *)
Lemma exit_after_absence_run_sets_checkout :
  let w := after_first_absence_run in
  let res := Presence.record (mkEnv None None) 36300000 exit_S1 w in
  Db.first (open_session 1) (sessions w) = Some (mkSession 1 1 0 t_09_00 None open)
  /\ presence_events w = []
  /\ attendance w = [mkAttendance 1 "S1" absent (Some 36000000) None None None]
  /\ snd res = Responded 201 (JsonEventRecorded 1 "Presence event recorded")
  /\ attendance (fst res)
     = [mkAttendance 1 "S1" absent (Some 36000000) (Some 36300000) None None]
  /\ attendance (fst res) <> attendance w.
Proof.
  repeat split; try reflexivity. intros H. discriminate H.
Qed.

(** C9, amended.  In a state reached from a database with no attendance
    row and no event, an EXIT that is accepted for a pair with no ENTER
    in the log is appended to the log and creates no attendance row: the
    keys of the table are the same and the rows of the other pairs are
    untouched.  When the pair has no row, the table is exactly what it
    was.  When it has one, there is only one and it is an absent row, as
    the absence computation leaves on a session that is still open: the
    EXIT sets its exit timestamp to the clock reading of the request and
    changes nothing else. *)
Theorem exit_without_prior_enter :
  forall (env : Env) (reqs : list (Z * Request)) (w0 : World) (now sid : Z)
         (pid : string) (source : option string) (details : option Details)
         (session : SessionRow),
    attendance w0 = [] -> presence_events w0 = [] ->
    let w := fst (run env reqs w0) in
    sid <> 0 -> pid <> "" ->
    Db.first (open_session sid) (sessions w) = Some session ->
    ~ entered_in_log sid pid w ->
    let res := Presence.record env now
                 (Presence.mkBody (Some sid) (Some pid) (Some "out") source details) w in
    snd res = Responded 201 (JsonEventRecorded (next_event_id w) "Presence event recorded")
    /\ presence_events (fst res)
       = (presence_events w
          ++ [mkEvent (next_event_id w) sid pid "out" now (JS.or_default source "cctv")
                details])%list
    /\ map key (attendance (fst res)) = map key (attendance w)
    /\ (forall x, In x (attendance w) -> key x <> (sid, pid) ->
                  In x (attendance (fst res)))
    /\ (records_of sid pid w = [] ->
        attendance (fst res) = attendance w /\ records_of sid pid (fst res) = [])
    /\ (forall r, In r (attendance w) -> key r = (sid, pid) ->
          a_status r = absent
          /\ records_of sid pid w = [r]
          /\ attendance (fst res)
             = map (fun x => if Db.same_key sid pid x
                             then mkAttendance (a_session_id x) (a_student_id x)
                                    (a_status x) (a_checkin_ts x) (Some now)
                                    (a_presence_minutes x) (a_selfie_url x)
                             else x) (attendance w)
          /\ records_of sid pid (fst res)
             = [mkAttendance sid pid absent (a_checkin_ts r) (Some now)
                  (a_presence_minutes r) (a_selfie_url r)]).
Proof.
  intros env reqs w0 now sid pid source details session Ha He w Hs Hp Hopen Hno res.
  assert (Hb : log_backs_attendance w).
  { apply run_backs. split; [rewrite Ha | rewrite He]; intros x []. }
  assert (Hu : attendance_unique w).
  { apply run_unique. unfold attendance_unique. rewrite Ha. constructor. }
  destruct (exit_creates_no_record env now sid pid source details w session Hs Hp Hopen)
    as (H1 & H2 & H3 & H4 & H5).
  fold res in H1, H2, H3, H4, H5.
  split; [exact H1|]. split; [exact H2|]. split; [exact H3|]. split; [exact H4|].
  split; [exact H5|].
  intros r Hr Hk.
  assert (Habs : a_status r = absent).
  { destruct (a_status r) eqn:E; [| |reflexivity]; exfalso; apply Hno;
      injection Hk as <- <-; apply (proj1 Hb r Hr); now rewrite E. }
  assert (Hone : records_of sid pid w = [r]) by (now apply unique_records).
  assert (Hatt : attendance (fst res)
                 = Db.update (Db.same_key sid pid) (checked_out now) (attendance w)).
  { subst res.
    now rewrite (record_exit env now sid pid source details w session Hs Hp Hopen). }
  split; [exact Habs|]. split; [exact Hone|]. split; [exact Hatt|].
  unfold records_of in *. rewrite Hatt, filter_update_self.
  - rewrite Hone. cbn [map]. unfold checked_out. rewrite Habs.
    injection Hk as -> ->. reflexivity.
  - intros x Hx. apply same_key_iff. apply same_key_iff in Hx. exact Hx.
Qed.

Lemma exit_without_prior_enter_witness :
  let w0 := fresh [mkClass 1 "P1"] [mkEnrollment 1 "S1"] in
  let w := fst (run (mkEnv None None)
                  [(t_09_00, ReqStart "P1" 1); (36000000, ReqForceAbsent "P1" 1)] w0) in
  attendance w0 = [] /\ presence_events w0 = []
  /\ Db.first (open_session 1) (sessions w) = Some (mkSession 1 1 0 t_09_00 None open)
  /\ ~ entered_in_log 1 "S1" w
  /\ In (mkAttendance 1 "S1" absent (Some 36000000) None None None) (attendance w)
  /\ records_of 1 "S1" (fst (Presence.record (mkEnv None None) 36300000 exit_S1 w))
     = [mkAttendance 1 "S1" absent (Some 36000000) (Some 36300000) None None].
Proof.
  assert (H1 : 1 <> 0) by discriminate.
  assert (H2 : "S1" <> "") by discriminate.
  assert (Hno : ~ entered_in_log 1 "S1"
                  (fst (run (mkEnv None None)
                          [(t_09_00, ReqStart "P1" 1); (36000000, ReqForceAbsent "P1" 1)]
                          (fresh [mkClass 1 "P1"] [mkEnrollment 1 "S1"]))))
    by (intros (e & Hin & _); exact Hin).
  split; [reflexivity|]. split; [reflexivity|]. split; [reflexivity|].
  split; [exact Hno|]. split; [left; reflexivity|].
  destruct (exit_without_prior_enter (mkEnv None None)
              [(t_09_00, ReqStart "P1" 1); (36000000, ReqForceAbsent "P1" 1)]
              (fresh [mkClass 1 "P1"] [mkEnrollment 1 "S1"]) 36300000 1 "S1" None None
              (mkSession 1 1 0 t_09_00 None open)
              eq_refl eq_refl H1 H2 eq_refl Hno) as (_ & _ & _ & _ & _ & Hrow).
  exact (proj2 (proj2 (proj2
           (Hrow (mkAttendance 1 "S1" absent (Some 36000000) None None None)
              (or_introl eq_refl) eq_refl)))).
Defined.

(** X11. The attendance table agrees with the event log.  In every state
    reached from a database with no attendance row and no event, a row is
    present or late exactly when the log holds an ENTER of its pair (so a
    row is absent exactly when its pair never entered), and every ENTER
    of the log has an attendance row. *)
Theorem attendance_agrees_with_log :
  forall (env : Env) (reqs : list (Z * Request)) (w0 : World),
    attendance w0 = [] -> presence_events w0 = [] ->
    let w := fst (run env reqs w0) in
    (forall r, In r (attendance w) ->
               (is_checked_in (a_status r) = true
                <-> entered_in_log (a_session_id r) (a_student_id r) w))
    /\ (forall e, In e (presence_events w) -> ev_event_type e = "in" ->
                  exists r, In r (attendance w)
                            /\ a_session_id r = ev_session_id e
                            /\ a_student_id r = ev_student_id e).
Proof.
  intros env reqs w0 Ha He w.
  assert (Hb : log_backs_attendance w).
  { apply run_backs. split; [rewrite Ha | rewrite He]; intros x []. }
  assert (Hu : attendance_unique w).
  { apply run_unique. unfold attendance_unique. rewrite Ha. constructor. }
  destruct Hb as [H1 H2]. split.
  - intros r Hr. split; [now apply H1|].
    intros (e & Hin & Hs & Hp & Ht).
    destruct (H2 e Hin Ht) as (r' & Hr' & Hs' & Hp' & Hc).
    assert (r' = r) as <-; [|exact Hc].
    apply (unique_row_of_key (attendance w)); auto. unfold key. congruence.
  - intros e Hin Ht. destruct (H2 e Hin Ht) as (r & Hr & Hs & Hp & _). eauto.
Qed.

Lemma attendance_agrees_with_log_witness :
  let w0 := fresh [mkClass 1 "P1"] [mkEnrollment 1 "S1"; mkEnrollment 1 "S2"] in
  let w := fst (run (mkEnv None None)
                  [(t_09_00, ReqStart "P1" 1);
                   (t_09_10, ReqForceAbsent "P1" 1);
                   (t_09_45, ReqPresence (enter_S1 None None))] w0) in
  attendance w0 = [] /\ presence_events w0 = []
  /\ In (mkAttendance 1 "S1" late (Some t_09_45) None None None) (attendance w)
  /\ entered_in_log 1 "S1" w.
Proof.
  split; [reflexivity|]. split; [reflexivity|]. split; [left; reflexivity|].
  destruct (attendance_agrees_with_log (mkEnv None None)
              [(t_09_00, ReqStart "P1" 1); (t_09_10, ReqForceAbsent "P1" 1);
               (t_09_45, ReqPresence (enter_S1 None None))]
              (fresh [mkClass 1 "P1"] [mkEnrollment 1 "S1"; mkEnrollment 1 "S2"])
              eq_refl eq_refl) as [H _].
  apply (H (mkAttendance 1 "S1" late (Some t_09_45) None None None)
           (or_introl eq_refl)).
  reflexivity.
Defined.

(** ** The absence computation, further *)

Lemma includes_iff ids id : Classes.includes ids id = true <-> In id ids.
Proof.
  unfold Classes.includes. rewrite existsb_exists. split.
  - intros (x & Hx & E). apply String.eqb_eq in E. now subst.
  - intros H. exists id. split; [exact H | apply String.eqb_refl].
Qed.

Lemma presentStudentIds_iff sid w id :
  In id (Classes.presentStudentIds sid w)
  <-> exists r, In r (attendance w)
                /\ a_session_id r = sid /\ a_student_id r = id
                /\ is_checked_in (a_status r) = true.
Proof.
  unfold Classes.presentStudentIds. rewrite in_map_iff. split.
  - intros (r & <- & Hr). apply filter_In in Hr as [Hin Hc].
    apply andb_true_iff in Hc as [Hs Hc]. apply Z.eqb_eq in Hs. eauto.
  - intros (r & Hin & Hs & Hp & Hc). exists r. split; [exact Hp|].
    apply filter_In. split; [exact Hin|]. now rewrite Hs, Z.eqb_refl, Hc.
Qed.

Lemma forceAbsent_ok_inv now user sid w session message n :
  Classes.session_of_professor sid user w = Some session ->
  snd (Classes.forceAbsent now user sid w) = Responded 200 (JsonAbsentDone message n) ->
  n = Z.of_nat (List.length (Classes.absentStudents sid session w))
  /\ attendance (fst (Classes.forceAbsent now user sid w))
     = (attendance w
        ++ map (Classes.absent_record now sid) (Classes.absentStudents sid session w))%list.
Proof.
  intros Hs. unfold Classes.forceAbsent. rewrite Hs.
  destruct (0 <? Z.of_nat (List.length (Classes.absentStudents sid session w))) eqn:Hpos.
  - destruct (Db.insert_all _ (attendance w)) as [e|t] eqn:Hins; [discriminate|].
    simpl. intros H. injection H as _ <-. split; [reflexivity|].
    now apply insert_all_app in Hins.
  - simpl. intros H. injection H as _ <-. split; [reflexivity|].
    apply Z.ltb_ge in Hpos.
    destruct (Classes.absentStudents sid session w); [|simpl in Hpos; lia].
    simpl. now rewrite app_nil_r.
Qed.

(** X12. When the absence computation answers 200, every student
    enrolled in the class of the session has an attendance row for the
    session afterwards: the one the student had as present or late, or a
    new absent one.  The count in the answer is the number of rows
    added, and the rows that existed are kept as they were, in place. *)
Theorem forceAbsent_completes_attendance :
  forall (now : Z) (user : string) (sid : Z) (w : World) (session : SessionRow)
         (message : string) (n : Z),
    Classes.session_of_professor sid user w = Some session ->
    snd (Classes.forceAbsent now user sid w) = Responded 200 (JsonAbsentDone message n) ->
    let w' := fst (Classes.forceAbsent now user sid w) in
    reconciled sid (s_class_id session) w'
    /\ (exists created,
          attendance w' = (attendance w ++ created)%list
          /\ Z.of_nat (List.length created) = n)
    /\ class_students w' = class_students w.
Proof.
  intros now user sid w session message n Hs Hok w'.
  destruct (forceAbsent_ok_inv now user sid w session message n Hs Hok) as [Hn Ha].
  assert (Hcs : class_students w' = class_students w)
    by apply (same_class_students _ _ (forceAbsent_same_sessions now user sid w)).
  fold w' in Ha. split; [|split; [|exact Hcs]].
  - intros student Hen. unfold Classes.enrolledStudents in Hen. rewrite Hcs in Hen.
    fold (Classes.enrolledStudents (s_class_id session) w) in Hen.
    destruct (Classes.includes (Classes.presentStudentIds sid w) student) eqn:E.
    + apply includes_iff, presentStudentIds_iff in E as (r & Hin & Hrs & Hrp & _).
      exists r. rewrite Ha. split; [apply in_or_app; now left | auto].
    + exists (Classes.absent_record now sid student). rewrite Ha.
      split; [|split; reflexivity].
      apply in_or_app. right. apply in_map. unfold Classes.absentStudents.
      apply filter_In. split; [exact Hen | now rewrite E].
  - eexists. split; [exact Ha|]. now rewrite length_map.
Qed.

Lemma forceAbsent_completes_attendance_witness :
  Classes.session_of_professor 1 "P1" S1_present
  = Some (mkSession 1 1 0 t_09_00 None open)
  /\ snd (Classes.forceAbsent 36000000 "P1" 1 S1_present)
     = Responded 200 (JsonAbsentDone "Absent computation completed" 0)
  /\ reconciled 1 1 (fst (Classes.forceAbsent 36000000 "P1" 1 S1_present)).
Proof.
  split; [reflexivity|]. split; [reflexivity|].
  apply (forceAbsent_completes_attendance 36000000 "P1" 1 S1_present
           (mkSession 1 1 0 t_09_00 None open) "Absent computation completed" 0
           eq_refl eq_refl).
Defined.

Lemma has_key_app r t x :
  Db.has_key r (t ++ [x])
  = Db.has_key r t || Db.same_key (a_session_id r) (a_student_id r) x.
Proof.
  unfold Db.has_key. rewrite existsb_app. simpl. now rewrite orb_false_r.
Qed.

Lemma insert_all_conflict rows : forall t r,
  In r rows -> Db.has_key r t = true -> Db.insert_all rows t = inl ER_DUP_ENTRY.
Proof.
  induction rows as [|x rows IH]; simpl; intros t r Hin Hk; [contradiction|].
  destruct (Db.has_key x t) eqn:E; [reflexivity|].
  destruct Hin as [->|Hin]; [congruence|].
  apply (IH _ r Hin). rewrite has_key_app, Hk. reflexivity.
Qed.

Lemma insert_all_no_conflict rows : forall t,
  NoDup (map key rows) ->
  (forall r, In r rows -> Db.has_key r t = false) ->
  exists t', Db.insert_all rows t = inr t'.
Proof.
  induction rows as [|x rows IH]; simpl; intros t Hnd Hfree; [eauto|].
  inversion Hnd as [|? ? Hnotin Hnd']; subst.
  rewrite (Hfree x (or_introl eq_refl)).
  apply IH; [exact Hnd'|]. intros r Hr.
  rewrite has_key_app, (Hfree r (or_intror Hr)). simpl.
  apply not_true_is_false. intros Hk. apply same_key_iff in Hk.
  apply Hnotin. change (a_session_id r, a_student_id r) with (key r) in Hk.
  rewrite Hk. now apply in_map.
Qed.

Lemma absent_records_keys now sid ids :
  NoDup ids -> NoDup (map key (map (Classes.absent_record now sid) ids)).
Proof.
  intros Hnd. rewrite map_map. unfold key. simpl.
  induction Hnd as [|id ids Hnotin _ IH]; simpl; constructor; [|exact IH].
  intros H. apply in_map_iff in H as (x & Hx & Hin). injection Hx as ->. contradiction.
Qed.

(** X13. When the absence computation is refused by the database.  For a
    session of the caller, on a table that respects the unique key and
    an enrolment without duplicates, the request ends in the duplicate
    entry error exactly when some student enrolled in the class already
    has a row for the session that is neither present nor late (an
    absent row of an earlier run).  Nothing is written then. *)
Theorem forceAbsent_fails_iff :
  forall (now : Z) (user : string) (sid : Z) (w : World) (session : SessionRow),
    Classes.session_of_professor sid user w = Some session ->
    attendance_unique w ->
    NoDup (Classes.enrolledStudents (s_class_id session) w) ->
    (snd (Classes.forceAbsent now user sid w) = Next (DatabaseError ER_DUP_ENTRY)
     <-> exists r, In r (attendance w)
                   /\ a_session_id r = sid
                   /\ In (a_student_id r) (Classes.enrolledStudents (s_class_id session) w)
                   /\ is_checked_in (a_status r) = false)
    /\ (snd (Classes.forceAbsent now user sid w) = Next (DatabaseError ER_DUP_ENTRY) ->
        fst (Classes.forceAbsent now user sid w) = w).
Proof.
  intros now user sid w session Hs Hu Hen.
  assert (Hnd : NoDup (Classes.absentStudents sid session w))
    by (unfold Classes.absentStudents; now apply NoDup_filter).
  split.
  2:{ unfold Classes.forceAbsent. rewrite Hs. handler_cases; simpl; auto; discriminate. }
  unfold Classes.forceAbsent. rewrite Hs. split.
  - destruct (0 <? _); [|discriminate].
    destruct (Db.insert_all _ (attendance w)) as [e|t] eqn:Hins; [|discriminate].
    intros _.
    destruct (existsb (fun r => Db.has_key r (attendance w))
                (map (Classes.absent_record now sid)
                   (Classes.absentStudents sid session w))) eqn:Ex.
    + apply existsb_exists in Ex as (x & Hx & Hk).
      apply in_map_iff in Hx as (id & <- & Hid).
      unfold Db.has_key in Hk. apply existsb_exists in Hk as (r & Hr & Hrk).
      apply same_key_iff in Hrk. unfold key in Hrk. simpl in Hrk.
      injection Hrk as Hrs Hrp.
      apply absentStudents_spec in Hid as [Hid Hnp].
      exists r. repeat split; auto; [now rewrite Hrp|].
      apply not_true_is_false. intros Hc. apply Hnp.
      apply presentStudentIds_iff. eauto.
    + exfalso.
      destruct (insert_all_no_conflict
                  (map (Classes.absent_record now sid)
                     (Classes.absentStudents sid session w)) (attendance w)) as [t' Ht'].
      * now apply absent_records_keys.
      * intros r Hr. apply not_true_is_false. intros Hk.
        assert (existsb (fun r => Db.has_key r (attendance w))
                  (map (Classes.absent_record now sid)
                     (Classes.absentStudents sid session w)) = true)
          by (apply existsb_exists; eauto).
        congruence.
      * congruence.
  - intros (r & Hr & Hrs & Hrp & Hc).
    assert (Hab : In (a_student_id r) (Classes.absentStudents sid session w)).
    { apply absentStudents_spec. split; [exact Hrp|].
      intros Hp. apply presentStudentIds_iff in Hp as (r' & Hr' & Hs' & Hp' & Hc').
      assert (r' = r) as -> by
          (apply (unique_row_of_key (attendance w)); auto; unfold key; congruence).
      congruence. }
    assert (Hpos : (0 <? Z.of_nat (List.length (Classes.absentStudents sid session w)))
                   = true).
    { apply Z.ltb_lt. destruct (Classes.absentStudents sid session w);
        [contradiction | simpl; lia]. }
    rewrite Hpos.
    rewrite (insert_all_conflict _ (attendance w)
               (Classes.absent_record now sid (a_student_id r))).
    + reflexivity.
    + now apply in_map.
    + unfold Db.has_key. apply existsb_exists. exists r. split; [exact Hr|].
      apply same_key_iff. unfold key. simpl. now rewrite Hrs.
Qed.

Lemma forceAbsent_fails_iff_witness :
  Classes.session_of_professor 1 "P1" after_first_absence_run
  = Some (mkSession 1 1 0 t_09_00 None open)
  /\ attendance_unique after_first_absence_run
  /\ NoDup (Classes.enrolledStudents 1 after_first_absence_run)
  /\ snd (Classes.forceAbsent 36000001 "P1" 1 after_first_absence_run)
     = Next (DatabaseError ER_DUP_ENTRY).
Proof.
  assert (Hu : attendance_unique after_first_absence_run)
    by (apply forceAbsent_unique; constructor).
  assert (Hen : NoDup (Classes.enrolledStudents 1 after_first_absence_run))
    by (repeat constructor; intros []).
  split; [reflexivity|]. split; [exact Hu|]. split; [exact Hen|].
  destruct (forceAbsent_fails_iff 36000001 "P1" 1 after_first_absence_run
              (mkSession 1 1 0 t_09_00 None open) eq_refl Hu Hen) as [[_ H] _].
  apply H. exists (mkAttendance 1 "S1" absent (Some 36000000) None None None).
  split; [left; reflexivity|]. split; [reflexivity|].
  split; [left; reflexivity | reflexivity].
Defined.

(** ** The authorization header and the guarded routes *)

Lemma split_no_space s : no_space s = true -> Auth.split " " s = [s].
Proof.
  induction s as [|c r IH]; simpl; [reflexivity|].
  intros H. apply andb_true_iff in H as [Hc Hr].
  apply negb_true_iff in Hc. rewrite Hc, (IH Hr). reflexivity.
Qed.

Lemma split_first_word a b :
  no_space a = true -> Auth.split " " (a ++ String " " b) = a :: Auth.split " " b.
Proof.
  induction a as [|c r IH]; simpl; intros H; [reflexivity|].
  apply andb_true_iff in H as [Hc Hr]. apply negb_true_iff in Hc.
  rewrite Hc, (IH Hr). reflexivity.
Qed.

Lemma truthy_append_space a b : JS.truthyS (Some (a ++ String " " b)) = true.
Proof. destruct a; reflexivity. Qed.

Lemma token_of_second_word scheme token :
  no_space scheme = true -> no_space token = true ->
  Auth.token_of (Some (scheme ++ String " " token)) = Some token.
Proof.
  intros Hs Ht. unfold Auth.token_of.
  rewrite truthy_append_space, split_first_word, split_no_space by assumption.
  reflexivity.
Qed.

Lemma token_of_second_word_more scheme token rest :
  no_space scheme = true -> no_space token = true ->
  Auth.token_of (Some (scheme ++ String " " (token ++ String " " rest))) = Some token.
Proof.
  intros Hs Ht. unfold Auth.token_of.
  rewrite truthy_append_space, !split_first_word by assumption. reflexivity.
Qed.

(** X14. Which part of the [Authorization] header counts.  The token is
    the second word of the header, split on single spaces: the scheme
    word in front is not checked (it need not be "Bearer") and whatever
    follows a second space is ignored.  A header with a non-empty second
    word is answered by the verification of that word alone: the user of
    the payload, or 403 "Invalid or expired token".  A missing header or
    a header without a space is answered 401. *)
Theorem authorization_header_second_word :
  forall (verify : string -> option Auth.User) (scheme token rest : string),
    no_space scheme = true -> no_space token = true -> token <> "" ->
    let answer :=
      match verify token with
      | Some decoded =>
          inr (Auth.mkUser (Auth.u_id decoded) (Auth.u_type decoded)
                 (Auth.u_email decoded))
      | None => inl (Responded 403 (JsonError "Invalid or expired token"))
      end in
    Auth.authenticateToken verify (Some (scheme ++ " " ++ token)) = answer
    /\ Auth.authenticateToken verify (Some (scheme ++ " " ++ token ++ " " ++ rest))
       = answer
    /\ Auth.authenticateToken verify (Some scheme)
       = inl (Responded 401 (JsonError "Access token required"))
    /\ Auth.authenticateToken verify None
       = inl (Responded 401 (JsonError "Access token required")).
Proof.
  intros verify scheme token rest Hs Ht Hne answer.
  assert (Htruthy : negb (JS.truthyS (Some token)) = false).
  { simpl. apply String.eqb_neq in Hne. now rewrite Hne. }
  unfold Auth.authenticateToken. repeat split.
  - change (scheme ++ " " ++ token) with (scheme ++ String " " token).
    now rewrite token_of_second_word, Htruthy.
  - change (scheme ++ " " ++ token ++ " " ++ rest)
      with (scheme ++ String " " (token ++ String " " rest)).
    now rewrite token_of_second_word_more, Htruthy.
  - unfold Auth.token_of. destruct (JS.truthyS (Some scheme)) eqn:E.
    + now rewrite split_no_space.
    + now rewrite E.
Qed.

Lemma authorization_header_second_word_witness :
  no_space "Basic" = true /\ no_space "abc.def.ghi" = true
  /\ Auth.authenticateToken
       (fun t => if String.eqb t "abc.def.ghi"
                 then Some (Auth.mkUser "P1" "professor" "p1@pup.edu") else None)
       (Some "Basic abc.def.ghi trailing words")
     = inr (Auth.mkUser "P1" "professor" "p1@pup.edu").
Proof.
  assert (Hne : "abc.def.ghi" <> "") by discriminate.
  split; [reflexivity|]. split; [reflexivity|].
  destruct (authorization_header_second_word
              (fun t => if String.eqb t "abc.def.ghi"
                        then Some (Auth.mkUser "P1" "professor" "p1@pup.edu") else None)
              "Basic" "abc.def.ghi" "trailing words" eq_refl eq_refl Hne)
    as (_ & H & _).
  exact H.
Defined.

Lemma professor_route_refused verify authorization handler w :
  (forall user, Auth.authenticateToken verify authorization = inr user ->
                Auth.u_type user <> "professor") ->
  fst (Auth.professor_route verify authorization handler w) = w
  /\ unauthorized (snd (Auth.professor_route verify authorization handler w)).
Proof.
  intros Hno. unfold Auth.professor_route, unauthorized.
  destruct (Auth.authenticateToken verify authorization) as [o|user] eqn:E.
  - split; [reflexivity|]. simpl. unfold Auth.authenticateToken in E.
    destruct (Auth.token_of authorization) as [token|].
    + destruct (negb (JS.truthyS (Some token))).
      * injection E as <-. auto.
      * destruct (verify token); [discriminate|]. injection E as <-. auto.
    + injection E as <-. auto.
  - specialize (Hno user eq_refl). simpl.
    apply String.eqb_neq in Hno. rewrite Hno. simpl. auto.
Qed.

(** X15. Start, stop and the absence computation are for professors.
    When the header carries no token that verifies with the type
    "professor" (no token, an invalid or expired one, or the token of a
    student), each of the three routes answers 401 or 403 and leaves the
    state as it was. *)
Theorem professor_routes_refuse_others :
  forall (verify : string -> option Auth.User) (authorization : option string)
         (now id : Z) (w : World),
    (forall user, Auth.authenticateToken verify authorization = inr user ->
                  Auth.u_type user <> "professor") ->
    (fst (Routes.start verify authorization now id w) = w
     /\ unauthorized (snd (Routes.start verify authorization now id w)))
    /\ (fst (Routes.stop verify authorization now id w) = w
        /\ unauthorized (snd (Routes.stop verify authorization now id w)))
    /\ (fst (Routes.forceAbsent verify authorization now id w) = w
        /\ unauthorized (snd (Routes.forceAbsent verify authorization now id w))).
Proof.
  intros verify authorization now id w Hno.
  repeat split; now apply professor_route_refused.
Qed.

Lemma professor_routes_refuse_others_witness :
  let verify := fun t => if String.eqb t "student-token"
                         then Some (Auth.mkUser "S1" "student" "s1@pup.edu") else None in
  Auth.authenticateToken verify (Some "Bearer student-token")
  = inr (Auth.mkUser "S1" "student" "s1@pup.edu")
  /\ fst (Routes.stop verify (Some "Bearer student-token") 36000000 1
            one_student_session)
     = one_student_session.
Proof.
  split; [reflexivity|].
  assert (Hno : forall user,
             Auth.authenticateToken
               (fun t => if String.eqb t "student-token"
                         then Some (Auth.mkUser "S1" "student" "s1@pup.edu") else None)
               (Some "Bearer student-token") = inr user ->
             Auth.u_type user <> "professor").
  { intros user H. injection H as <-. discriminate. }
  destruct (professor_routes_refuse_others
              (fun t => if String.eqb t "student-token"
                        then Some (Auth.mkUser "S1" "student" "s1@pup.edu") else None)
              (Some "Bearer student-token") 36000000 1 one_student_session Hno)
    as (_ & [H1 H2] & _).
  exact H1.
Defined.

(** X16. The stop is not tied to the professor of the class.  A
    professor who does not own the class is refused the start (404
    "Class not found"), but the stop of the same caller closes the open
    session of the class: the stop route runs the stop handler whoever
    the professor is. *)
Theorem stop_route_ignores_ownership :
  forall (verify : string -> option Auth.User) (authorization : option string)
         (user : Auth.User) (now c : Z) (w : World) (activeSession : SessionRow),
    Auth.authenticateToken verify authorization = inr user ->
    Auth.u_type user = "professor" ->
    existsb (Classes.owned_class c (Auth.u_id user)) (classes w) = false ->
    Db.first (open_for_class c) (sessions w) = Some activeSession ->
    Routes.start verify authorization now c w
    = (w, Responded 404 (JsonError "Class not found"))
    /\ Routes.stop verify authorization now c w = Classes.stop now c w
    /\ snd (Routes.stop verify authorization now c w)
       = Responded 200 (JsonMessage "Session stopped successfully")
    /\ In (Classes.close now activeSession)
          (sessions (fst (Routes.stop verify authorization now c w))).
Proof.
  intros verify authorization user now c w a Hauth Htype Hown Hopen.
  unfold Routes.start, Routes.stop, Auth.professor_route. rewrite Hauth.
  simpl. rewrite Htype. simpl.
  assert (Hnone : Db.first (Classes.owned_class c (Auth.u_id user)) (classes w) = None).
  { apply first_None_intro. intros r Hr. apply not_true_is_false. intros Hp.
    assert (existsb (Classes.owned_class c (Auth.u_id user)) (classes w) = true)
      by (apply existsb_exists; eauto).
    congruence. }
  split; [unfold Classes.start; now rewrite Hnone|]. split; [reflexivity|].
  unfold Classes.stop. rewrite Hopen. simpl. split; [reflexivity|].
  apply first_Some in Hopen as [Hin _]. now apply update_by_id_self.
Qed.

Lemma stop_route_ignores_ownership_witness :
  let verify := fun t => if String.eqb t "token-of-P2"
                         then Some (Auth.mkUser "P2" "professor" "p2@pup.edu") else None in
  Auth.authenticateToken verify (Some "Bearer token-of-P2")
  = inr (Auth.mkUser "P2" "professor" "p2@pup.edu")
  /\ existsb (Classes.owned_class 1 "P2") (classes one_student_session) = false
  /\ sessions (fst (Routes.stop verify (Some "Bearer token-of-P2") 36000000 1
                      one_student_session))
     = [mkSession 1 1 0 t_09_00 (Some 36000000) closed].
Proof.
  split; [reflexivity|]. split; [reflexivity|].
  destruct (stop_route_ignores_ownership
              (fun t => if String.eqb t "token-of-P2"
                        then Some (Auth.mkUser "P2" "professor" "p2@pup.edu") else None)
              (Some "Bearer token-of-P2") (Auth.mkUser "P2" "professor" "p2@pup.edu")
              36000000 1 one_student_session (mkSession 1 1 0 t_09_00 None open)
              eq_refl eq_refl eq_refl eq_refl) as (_ & H & _).
  rewrite H. reflexivity.
Defined.

(** ** Columns that are never written *)

Lemma upsert_Forall (P : AttendanceRow -> Prop) row t :
  P row -> (forall old, P old -> P (Db.merge row old)) ->
  Forall P t -> Forall P (Db.insert_onConflict_merge row t).
Proof.
  intros Hrow Hmerge Ht. unfold Db.insert_onConflict_merge.
  destruct (Db.has_key row t).
  - unfold Db.update. apply Forall_map. eapply Forall_impl; [|exact Ht].
    intros r Hr. destruct (Db.same_key _ _ r); auto.
  - apply Forall_app. split; [exact Ht | now constructor].
Qed.

Lemma update_Forall {A : Type} (P : A -> Prop) p f (t : list A) :
  (forall r, P r -> P (f r)) -> Forall P t -> Forall P (Db.update p f t).
Proof.
  intros Hf Ht. unfold Db.update. apply Forall_map. eapply Forall_impl; [|exact Ht].
  intros r Hr. destruct (p r); auto.
Qed.

Lemma entered_row_shape sid pid b now evidence :
  row_shape (mkAttendance sid pid (status_of b) (Some now) None None evidence)
  /\ forall old, row_shape old ->
                 row_shape (Db.merge (mkAttendance sid pid (status_of b) (Some now)
                                        None None evidence) old).
Proof.
  split.
  - repeat split; simpl; [discriminate | destruct b; discriminate].
  - intros old (Hm & _ & _). repeat split; simpl;
      [exact Hm | discriminate | destruct b; discriminate].
Qed.

Lemma handle_row_shape env now r w :
  Forall row_shape (attendance w) ->
  Forall row_shape (attendance (fst (handle env now r w))).
Proof.
  intros H.
  destruct r as [user classId|classId|user sessionId|body|user body put ml];
    cbn [handle].
  - now rewrite (same_attendance_rows _ _ (start_same_attendance now user classId w)).
  - now rewrite (same_attendance_rows _ _ (stop_same_attendance now classId w)).
  - unfold Classes.forceAbsent.
    destruct (Classes.session_of_professor sessionId user w); [|exact H].
    destruct (0 <? _); [|exact H].
    destruct (Db.insert_all _ (attendance w)) as [e|t] eqn:Hins; [exact H|].
    apply insert_all_app in Hins. subst t. simpl.
    apply Forall_app. split; [exact H|].
    apply Forall_map, Forall_forall. intros id _.
    repeat split; simpl; discriminate.
  - unfold Presence.record.
    destruct (Presence.b_session_id body) as [sid|]; [|exact H].
    destruct (Presence.b_student_id body) as [pid|]; [|exact H].
    destruct (Presence.b_event_type body) as [et|]; [|exact H].
    destruct (negb (JS.truthyZ (Some sid)) || _ || _); [exact H|].
    destruct (Db.first (open_session sid) (sessions w)) as [session|]; [|exact H].
    cbn [fst]. destruct (String.eqb et "in"); [|destruct (String.eqb et "out")]; simpl.
    + apply upsert_Forall; auto; apply entered_row_shape.
    + apply update_Forall; [|exact H]. intros x Hx. exact Hx.
    + exact H.
  - unfold Attendance.checkin.
    destruct (Db.first _ (sessions w)) as [session|]; [|exact H].
    destruct put; [|exact H].
    destruct ml as [data|]; [|exact H].
    destruct (Attendance.confirmed data user); [|exact H].
    simpl. apply upsert_Forall; auto; apply entered_row_shape.
Qed.

(** X17. Columns the handlers never fill.  In every state reached from
    an empty attendance table by any sequence of requests, every row has
    a null duration (no handler writes [presence_minutes]), every row
    has an entry timestamp (the absent ones too), and an absent row has
    no evidence. *)
Theorem duration_is_never_written :
  forall (env : Env) (reqs : list (Z * Request)) (w0 : World),
    attendance w0 = [] ->
    forall r, In r (attendance (fst (run env reqs w0))) ->
              a_presence_minutes r = None
              /\ a_checkin_ts r <> None
              /\ (a_status r = absent -> a_selfie_url r = None).
Proof.
  intros env reqs w0 H0.
  assert (H : Forall row_shape (attendance (fst (run env reqs w0)))).
  { assert (Hinit : Forall row_shape (attendance w0)) by (rewrite H0; constructor).
    clear H0. revert w0 Hinit.
    induction reqs as [|[now r] rest IH]; intros w0 Hinit; [exact Hinit|].
    rewrite run_cons. cbn [fst]. apply IH. now apply handle_row_shape. }
  intros r Hr. rewrite Forall_forall in H. exact (H r Hr).
Qed.

Lemma duration_is_never_written_witness :
  attendance one_student_session = []
  /\ a_presence_minutes (mkAttendance 1 "S1" present (Some t_09_10) (Some t_09_45)
                           None None) = None.
Proof.
  split; [reflexivity|].
  apply (duration_is_never_written (mkEnv None None)
           [(t_09_10, ReqPresence (enter_S1 None None)); (t_09_45, ReqPresence exit_S1)]
           one_student_session eq_refl
           (mkAttendance 1 "S1" present (Some t_09_10) (Some t_09_45) None None)
           (or_introl eq_refl)).
Defined.

(** ** The listings of presence events *)

Lemma insert_desc_In v l x :
  In x (PresenceQueries.insert_desc v l) <-> x = v \/ In x l.
Proof.
  induction l as [|y r IH]; simpl.
  - split; [intros [<-|[]]; auto | intros [->|[]]; auto].
  - destruct (ev_event_ts (PresenceQueries.v_event y)
              <=? ev_event_ts (PresenceQueries.v_event v)); simpl.
    + split; [intros [<-|H]; auto | intros [->|H]; auto].
    + rewrite IH. tauto.
Qed.

Lemma insert_desc_length v l :
  List.length (PresenceQueries.insert_desc v l) = S (List.length l).
Proof.
  induction l as [|y r IH]; simpl; [reflexivity|].
  destruct (_ <=? _); simpl; [reflexivity | now rewrite IH].
Qed.

Lemma insert_desc_sorted v l :
  newest_first l -> newest_first (PresenceQueries.insert_desc v l).
Proof.
  induction l as [|y r IH]; simpl; intros H.
  - split; [intros x [] | exact I].
  - destruct H as [Hy Hr].
    destruct (Z.leb_spec (ev_event_ts (PresenceQueries.v_event y))
                (ev_event_ts (PresenceQueries.v_event v))) as [Hle|Hlt]; simpl.
    + split; [|split; assumption].
      intros x [<-|Hx]; [exact Hle|]. specialize (Hy x Hx). lia.
    + split; [|now apply IH].
      intros x Hx. apply insert_desc_In in Hx as [->|Hx]; [lia | now apply Hy].
Qed.

Lemma orderBy_In l x : In x (PresenceQueries.orderBy_event_ts_desc l) <-> In x l.
Proof.
  unfold PresenceQueries.orderBy_event_ts_desc.
  induction l as [|y r IH]; simpl; [tauto|].
  rewrite insert_desc_In, IH. split; intros [H|H]; auto.
Qed.

Lemma orderBy_length l :
  List.length (PresenceQueries.orderBy_event_ts_desc l) = List.length l.
Proof.
  unfold PresenceQueries.orderBy_event_ts_desc.
  induction l as [|y r IH]; simpl; [reflexivity|].
  now rewrite insert_desc_length, IH.
Qed.

Lemma orderBy_sorted l : newest_first (PresenceQueries.orderBy_event_ts_desc l).
Proof.
  unfold PresenceQueries.orderBy_event_ts_desc.
  induction l as [|y r IH]; simpl; [exact I | now apply insert_desc_sorted].
Qed.

Lemma join_students_In students events v :
  In v (PresenceQueries.join_students students events)
  <-> exists e s, In e events /\ In s students
                  /\ st_student_id s = ev_student_id e
                  /\ v = PresenceQueries.mkView e (st_first_name s) (st_last_name s)
                           (st_email s).
Proof.
  unfold PresenceQueries.join_students. rewrite in_flat_map. split.
  - intros (e & He & Hv). apply in_map_iff in Hv as (s & <- & Hs).
    apply filter_In in Hs as [Hs Hk]. apply String.eqb_eq in Hk. eauto 10.
  - intros (e & s & He & Hs & Hk & ->). exists e. split; [exact He|].
    apply in_map_iff. exists s. split; [reflexivity|].
    apply filter_In. split; [exact Hs | now apply String.eqb_eq].
Qed.

(** X18. What the listing of a session holds.  A row is listed exactly
    when it pairs an event of the log that belongs to the session with a
    student row of the same student id, so the events of a student id
    that is not registered are left out; the rows come newest first. *)
Theorem listing_holds_events_of_registered_students :
  forall (students : list StudentRow) (sid : Z) (w : World),
    let rows := PresenceQueries.events_of_session students sid w in
    PresenceQueries.listing students (Some sid) w = PresenceQueries.ListRows rows
    /\ (forall v,
          In v rows
          <-> exists e s,
                In e (presence_events w) /\ ev_session_id e = sid
                /\ In s students /\ st_student_id s = ev_student_id e
                /\ v = PresenceQueries.mkView e (st_first_name s) (st_last_name s)
                         (st_email s))
    /\ newest_first rows
    /\ (forall e, In e (presence_events w) ->
                  (forall s, In s students -> st_student_id s <> ev_student_id e) ->
                  forall v, In v rows -> PresenceQueries.v_event v <> e).
Proof.
  intros students sid w rows. subst rows.
  unfold PresenceQueries.events_of_session.
  assert (Hin : forall v,
             In v (PresenceQueries.orderBy_event_ts_desc
                     (PresenceQueries.join_students students
                        (filter (fun e => ev_session_id e =? sid) (presence_events w))))
             <-> exists e s,
                   In e (presence_events w) /\ ev_session_id e = sid
                   /\ In s students /\ st_student_id s = ev_student_id e
                   /\ v = PresenceQueries.mkView e (st_first_name s) (st_last_name s)
                            (st_email s)).
  { intros v. rewrite orderBy_In, join_students_In. split.
    - intros (e & s & He & Hs & Hk & Hv). apply filter_In in He as [He Hsid].
      apply Z.eqb_eq in Hsid. eauto 10.
    - intros (e & s & He & Hsid & Hs & Hk & Hv). exists e, s.
      repeat split; auto. apply filter_In. split; [exact He | now apply Z.eqb_eq]. }
  split; [reflexivity|]. split; [exact Hin|]. split; [apply orderBy_sorted|].
  intros e He Hnone v Hv Heq. apply Hin in Hv as (e' & s & _ & _ & Hs & Hk & ->).
  simpl in Heq. subst e'. exact (Hnone s Hs Hk).
Qed.

Lemma newest_first_app l1 : forall l2,
  newest_first (l1 ++ l2) ->
  forall x y, In x l1 -> In y l2 ->
              ev_event_ts (PresenceQueries.v_event y)
              <= ev_event_ts (PresenceQueries.v_event x).
Proof.
  induction l1 as [|a l1 IH]; simpl; intros l2 H x y Hx Hy; [contradiction|].
  destruct H as [Ha Hr]. destruct Hx as [<-|Hx].
  - apply Ha. apply in_or_app. now right.
  - now apply (IH l2 Hr).
Qed.

Lemma insert_desc_Permutation v l :
  Permutation (v :: l) (PresenceQueries.insert_desc v l).
Proof.
  induction l as [|x r IH]; cbn [PresenceQueries.insert_desc]; [apply Permutation_refl|].
  destruct (_ <=? _); [apply Permutation_refl|].
  eapply perm_trans; [apply perm_swap|]. now apply perm_skip.
Qed.

Lemma orderBy_Permutation l :
  Permutation l (PresenceQueries.orderBy_event_ts_desc l).
Proof.
  unfold PresenceQueries.orderBy_event_ts_desc.
  induction l as [|y r IH]; cbn [fold_right]; [apply perm_nil|].
  eapply perm_trans; [|apply insert_desc_Permutation]. now apply perm_skip.
Qed.

Lemma newest_first_firstn n : forall l, newest_first l -> newest_first (firstn n l).
Proof.
  induction n as [|n IH]; intros [|a l] H; cbn [firstn newest_first]; try exact I.
  destruct H as [Ha Hr]. split; [|now apply IH].
  intros y Hy. apply Ha. rewrite <- (firstn_skipn n l). apply in_or_app. now left.
Qed.

(** X19. The realtime listing holds a newest hundred of the session.
    Whatever order the database picks among rows of equal timestamp, the
    answer holds min(100, n) of the n rows of the listing of the session,
    newest first, and every row it leaves out is no more recent than any
    row it holds: the answer and the rows left out are, together, the
    rows of the listing.  With 100 rows or fewer the answer holds the
    rows of the listing, possibly in another order among equal
    timestamps. *)
Theorem realtime_holds_a_newest_hundred :
  forall (orderBy : list PresenceQueries.EventView -> list PresenceQueries.EventView)
         (students : list StudentRow) (sid : Z) (w : World),
    let selected := PresenceQueries.session_rows students sid w in
    let all := PresenceQueries.events_of_session students sid w in
    ordered_by_event_ts_desc selected (orderBy selected) ->
    exists recent rest,
      PresenceQueries.realtime orderBy students sid w = PresenceQueries.ListRows recent
      /\ Permutation (recent ++ rest) all
      /\ List.length recent = Nat.min 100 (List.length all)
      /\ newest_first recent
      /\ (forall x y, In x recent -> In y rest ->
                      ev_event_ts (PresenceQueries.v_event y)
                      <= ev_event_ts (PresenceQueries.v_event x))
      /\ (forall v, In v recent -> In v all)
      /\ ((List.length all <= 100)%nat -> Permutation recent all).
Proof.
  intros orderBy students sid w selected all [Hperm Hsorted].
  set (sorted := orderBy selected) in *.
  assert (Hall : Permutation sorted all).
  { eapply perm_trans; [apply Permutation_sym, Hperm|]. apply orderBy_Permutation. }
  pose proof (firstn_skipn 100 sorted) as Hsplit.
  exists (firstn 100 sorted), (skipn 100 sorted).
  split; [reflexivity|]. split; [now rewrite Hsplit|].
  split; [rewrite length_firstn; now rewrite (Permutation_length Hall)|].
  split; [now apply newest_first_firstn|]. split; [|split].
  - rewrite <- Hsplit in Hsorted. now apply newest_first_app.
  - intros v Hv. apply (Permutation_in v Hall).
    rewrite <- Hsplit. apply in_or_app. now left.
  - intros Hle. rewrite firstn_all2; [exact Hall|].
    now rewrite (Permutation_length Hall).
Qed.

Lemma realtime_holds_a_newest_hundred_witness :
  ordered_by_event_ts_desc
    (PresenceQueries.session_rows [student_S1] 1 S1_in_and_out_at_once)
    (rev (PresenceQueries.session_rows [student_S1] 1 S1_in_and_out_at_once))
  /\ rev (PresenceQueries.session_rows [student_S1] 1 S1_in_and_out_at_once)
     <> PresenceQueries.events_of_session [student_S1] 1 S1_in_and_out_at_once
  /\ exists recent rest,
       PresenceQueries.realtime (@rev _) [student_S1] 1 S1_in_and_out_at_once
       = PresenceQueries.ListRows recent
       /\ Permutation (recent ++ rest)
            (PresenceQueries.events_of_session [student_S1] 1 S1_in_and_out_at_once)
       /\ List.length recent = 2%nat.
Proof.
  assert (H : ordered_by_event_ts_desc
                (PresenceQueries.session_rows [student_S1] 1 S1_in_and_out_at_once)
                (rev (PresenceQueries.session_rows [student_S1] 1
                        S1_in_and_out_at_once))).
  { split; [apply Permutation_rev|].
    match goal with
    | |- newest_first ?l => let v := eval vm_compute in l in change (newest_first v)
    end.
    cbn [newest_first In].
    repeat split; intros y Hy; repeat destruct Hy as [<-|Hy];
      try contradiction; vm_compute; discriminate. }
  split; [exact H|]. split; [vm_compute; discriminate|].
  destruct (realtime_holds_a_newest_hundred (@rev _) [student_S1] 1
              S1_in_and_out_at_once H)
    as (recent & rest & Hr & Hp & Hl & _).
  exists recent, rest. split; [exact Hr|]. split; [exact Hp|]. exact Hl.
Defined.

(** ** The export *)

Lemma split_lacks c s : lacks c s = true -> Auth.split c s = [s].
Proof.
  induction s as [|x r IH]; simpl; [reflexivity|].
  intros H. apply andb_true_iff in H as [Hx Hr].
  apply negb_true_iff in Hx. rewrite Hx, (IH Hr). reflexivity.
Qed.

Lemma split_cons c a b :
  lacks c a = true -> Auth.split c (a ++ String c b) = a :: Auth.split c b.
Proof.
  induction a as [|x r IH]; simpl; intros H.
  - now rewrite Ascii.eqb_refl.
  - apply andb_true_iff in H as [Hx Hr]. apply negb_true_iff in Hx.
    rewrite Hx, (IH Hr). reflexivity.
Qed.

Lemma split_sep c a b :
  lacks c a = true ->
  Auth.split c (a ++ String c EmptyString ++ b) = a :: Auth.split c b.
Proof. apply split_cons. Qed.

Lemma lacks_app c a b : lacks c (a ++ b) = lacks c a && lacks c b.
Proof.
  induction a as [|x r IH]; simpl; [reflexivity|]. now rewrite IH, andb_assoc.
Qed.

Lemma split_nonempty c s : Auth.split c s <> [].
Proof.
  destruct s as [|x r]; simpl; [discriminate|].
  destruct (Ascii.eqb x c); [discriminate|].
  destruct (Auth.split c r); discriminate.
Qed.

Lemma split_length c s : List.length (Auth.split c s) = S (occurrences c s).
Proof.
  induction s as [|x r IH]; simpl; [reflexivity|].
  destruct (Ascii.eqb x c); simpl; [now rewrite IH|].
  destruct (Auth.split c r) as [|h t] eqn:E; [now apply split_nonempty in E|].
  simpl in *. exact IH.
Qed.

Lemma occurrences_app c a b :
  occurrences c (a ++ b) = (occurrences c a + occurrences c b)%nat.
Proof.
  induction a as [|x r IH]; simpl; [reflexivity|]. rewrite IH. lia.
Qed.

Lemma lacks_iff c s : lacks c s = true <-> occurrences c s = 0%nat.
Proof.
  induction s as [|x r IH]; simpl; [tauto|].
  destruct (Ascii.eqb x c); simpl; [split; [discriminate | lia] | exact IH].
Qed.

Lemma string_app_assoc (a b c : string) : ((a ++ b) ++ c = a ++ (b ++ c))%string.
Proof. induction a as [|x r IH]; simpl; [reflexivity | now rewrite IH]. Qed.

Lemma split_join_lines lines :
  Forall (fun l => lacks LF l = true) lines ->
  Auth.split LF (AttendanceExport.join AttendanceExport.newline lines)
  = match lines with
    | [] => [EmptyString]
    | _ => lines
    end.
Proof.
  induction 1 as [|l rest Hl Hrest IH]; [reflexivity|].
  destruct rest as [|l' rest'].
  - simpl. now apply split_lacks.
  - change (AttendanceExport.join AttendanceExport.newline (l :: l' :: rest'))
      with (l ++ String LF (AttendanceExport.join AttendanceExport.newline (l' :: rest'))).
    rewrite split_cons by exact Hl. now rewrite IH.
Qed.

Lemma line_lacks c showDate r :
  c <> ","%char ->
  Forall (fun f => lacks c f = true) (AttendanceExport.fields showDate r) ->
  lacks c (AttendanceExport.line showDate r) = true.
Proof.
  intros Hc H. unfold AttendanceExport.fields in H.
  repeat match goal with
         | H : Forall _ (_ :: _) |- _ => inversion H; subst; clear H
         end.
  unfold AttendanceExport.line.
  assert (Hcomma : lacks c "," = true).
  { change (lacks c ",") with (negb (Ascii.eqb "," c) && true).
    assert (E : Ascii.eqb "," c = false) by (apply Ascii.eqb_neq; congruence).
    now rewrite E. }
  repeat rewrite lacks_app.
  repeat match goal with H : lacks c _ = true |- _ => rewrite H; clear H end.
  reflexivity.
Qed.

(** X20. The CSV of an export reads back.  When no exported value holds
    a comma or a line feed, the body split on line feeds is the header
    line followed by one line per row (by one empty line when there is
    no row), and each line split on commas gives back the eight values of
    its row, in the order of the header. *)
Theorem export_csv_reads_back :
  forall (showDate : Z -> string) (rows : list AttendanceExport.Row),
    Forall (fun r => Forall (fun f => lacks "," f = true /\ lacks LF f = true)
                       (AttendanceExport.fields showDate r)) rows ->
    Auth.split LF (AttendanceExport.csv showDate rows)
    = AttendanceExport.header_text
      :: match rows with
         | [] => [EmptyString]
         | _ => map (AttendanceExport.line showDate) rows
         end
    /\ (forall r, In r rows ->
                  Auth.split "," (AttendanceExport.line showDate r)
                  = AttendanceExport.fields showDate r).
Proof.
  intros showDate rows H. split.
  - unfold AttendanceExport.csv, AttendanceExport.csvHeader.
    rewrite string_app_assoc.
    change (AttendanceExport.newline ++ ?x) with (String LF x).
    rewrite split_cons by reflexivity. f_equal.
    rewrite split_join_lines.
    + now destruct rows.
    + apply Forall_map. eapply Forall_impl; [|exact H].
      intros r Hr. apply line_lacks; [discriminate|].
      eapply Forall_impl; [|exact Hr]. now intros f [_ Hf].
  - intros r Hr. rewrite Forall_forall in H. specialize (H r Hr).
    unfold AttendanceExport.fields in *.
    repeat match goal with
           | H : Forall _ (_ :: _) |- _ => inversion H; subst; clear H
           end.
    repeat match goal with H : _ /\ _ |- _ => destruct H as [? _] end.
    unfold AttendanceExport.line.
    repeat (rewrite split_sep by assumption; f_equal).
    now apply split_lacks.
Qed.

Lemma export_csv_reads_back_witness :
  let showDate := fun t => JS.toString t in
  let row := AttendanceExport.mkRow "S1" "Ana" "Cruz" (Some "ana@pup.edu") late
               (Some t_09_45) None None in
  Auth.split "," (AttendanceExport.line showDate row)
  = ["S1"; "Ana"; "Cruz"; "ana@pup.edu"; "late"; "35100000"; ""; ""].
Proof.
  assert (H : Forall (fun r => Forall (fun f => lacks "," f = true /\ lacks LF f = true)
                                 (AttendanceExport.fields (fun t => JS.toString t) r))
                [AttendanceExport.mkRow "S1" "Ana" "Cruz" (Some "ana@pup.edu") late
                   (Some t_09_45) None None])
    by (repeat constructor).
  destruct (export_csv_reads_back (fun t => JS.toString t)
              [AttendanceExport.mkRow "S1" "Ana" "Cruz" (Some "ana@pup.edu") late
                 (Some t_09_45) None None] H) as [_ Hline].
  apply (Hline _ (or_introl eq_refl)).
Defined.

(** X21. Values are written as they are, without quoting: the number of
    comma-separated fields of a line is eight plus the number of commas
    in the values of its row, so a line has its eight columns exactly
    when no value holds a comma. *)
Theorem export_line_is_not_quoted :
  forall (showDate : Z -> string) (r : AttendanceExport.Row),
    List.length (Auth.split "," (AttendanceExport.line showDate r))
    = (8 + list_sum (map (occurrences ",") (AttendanceExport.fields showDate r)))%nat
    /\ (List.length (Auth.split "," (AttendanceExport.line showDate r)) = 8%nat
        <-> Forall (fun f => lacks "," f = true) (AttendanceExport.fields showDate r)).
Proof.
  intros showDate r.
  assert (Hlen : List.length (Auth.split "," (AttendanceExport.line showDate r))
                 = (8 + list_sum (map (occurrences ",")
                                    (AttendanceExport.fields showDate r)))%nat).
  { rewrite split_length. unfold AttendanceExport.line, AttendanceExport.fields.
    repeat rewrite occurrences_app. simpl. lia. }
  split; [exact Hlen|]. rewrite Hlen.
  unfold AttendanceExport.fields. simpl. split.
  - intros H. repeat constructor; apply lacks_iff; lia.
  - intros H.
    repeat match goal with
           | H : Forall _ (_ :: _) |- _ => inversion H; subst; clear H
           end.
    repeat match goal with H : lacks _ _ = true |- _ => apply lacks_iff in H end.
    lia.
Qed.

Lemma run_row_shape env reqs : forall w,
  Forall row_shape (attendance w) ->
  Forall row_shape (attendance (fst (run env reqs w))).
Proof.
  induction reqs as [|[now r] rest IH]; intros w H; [exact H|].
  rewrite run_cons. cbn [fst]. apply IH. now apply handle_row_shape.
Qed.

Lemma export_rows_In students sid w r :
  In r (AttendanceExport.rows students sid w)
  <-> exists a s,
        In a (attendance w) /\ a_session_id a = sid
        /\ In s students /\ st_student_id s = a_student_id a
        /\ r = AttendanceExport.mkRow (st_student_id s) (st_first_name s)
                 (st_last_name s) (st_email s) (a_status a) (a_checkin_ts a)
                 (a_checkout_ts a) (a_presence_minutes a).
Proof.
  unfold AttendanceExport.rows. rewrite in_flat_map. split.
  - intros (a & Ha & Hr). apply in_map_iff in Hr as (s & <- & Hs).
    apply filter_In in Ha as [Ha Hsid]. apply Z.eqb_eq in Hsid.
    apply filter_In in Hs as [Hs Hk]. apply String.eqb_eq in Hk. eauto 10.
  - intros (a & s & Ha & Hsid & Hs & Hk & ->). exists a. split.
    + apply filter_In. split; [exact Ha | now apply Z.eqb_eq].
    + apply in_map_iff. exists s. split; [reflexivity|].
      apply filter_In. split; [exact Hs | now apply String.eqb_eq].
Qed.

(** X22. What an export shows of the states the handlers build.  The
    export lists the attendance rows of the session whose student is
    registered, with the names and email of the student.  In every state
    reached from an empty attendance table, the Presence Minutes field
    of every exported line is empty and its Check-in Time field is the
    text of a date, for absent students too. *)
Theorem export_of_reachable_state :
  forall (env : Env) (reqs : list (Z * Request)) (w0 : World)
         (showDate : Z -> string) (students : list StudentRow) (sid : Z),
    attendance w0 = [] ->
    let w := fst (run env reqs w0) in
    forall r, In r (AttendanceExport.rows students sid w) ->
      (exists a s,
          In a (attendance w) /\ a_session_id a = sid
          /\ In s students /\ st_student_id s = a_student_id a
          /\ r = AttendanceExport.mkRow (st_student_id s) (st_first_name s)
                   (st_last_name s) (st_email s) (a_status a) (a_checkin_ts a)
                   (a_checkout_ts a) (a_presence_minutes a))
      /\ nth 7 (AttendanceExport.fields showDate r) "?" = ""
      /\ exists t, nth 5 (AttendanceExport.fields showDate r) "?" = showDate t.
Proof.
  intros env reqs w0 showDate students sid H0 w r Hr.
  assert (Hshape : Forall row_shape (attendance w)).
  { apply run_row_shape. rewrite H0. constructor. }
  pose proof (proj1 (export_rows_In students sid w r) Hr) as Hex.
  split; [exact Hex|].
  destruct Hex as (a & s & Ha & _ & _ & _ & ->).
  rewrite Forall_forall in Hshape. destruct (Hshape a Ha) as (Hm & Hc & _).
  simpl. rewrite Hm. split; [reflexivity|].
  destruct (a_checkin_ts a) as [t|]; [now exists t | contradiction].
Qed.

Lemma export_of_reachable_state_witness :
  let w := fst (run (mkEnv None None) [(36000000, ReqForceAbsent "P1" 1)]
                  one_student_session) in
  let r := AttendanceExport.mkRow "S1" "Ana" "Cruz" None absent (Some 36000000)
             None None in
  attendance one_student_session = []
  /\ In r (AttendanceExport.rows [mkStudent "S1" "Ana" "Cruz" None] 1 w)
  /\ nth 7 (AttendanceExport.fields JS.toString r) "?" = "".
Proof.
  split; [reflexivity|]. split; [left; reflexivity|].
  destruct (export_of_reachable_state (mkEnv None None)
              [(36000000, ReqForceAbsent "P1" 1)] one_student_session JS.toString
              [mkStudent "S1" "Ana" "Cruz" None] 1 eq_refl
              (AttendanceExport.mkRow "S1" "Ana" "Cruz" None absent (Some 36000000)
                 None None) (or_introl eq_refl)) as (_ & H & _).
  exact H.
Defined.

(** ** Rooms of the channel *)

Lemma toString_inj (a b : Z) : JS.toString a = JS.toString b -> a = b.
Proof.
  unfold JS.toString. intros H.
  assert (Hnn : forall z, Z.to_int z <> Decimal.Pos Decimal.Nil
                          /\ Z.to_int z <> Decimal.Neg Decimal.Nil).
  { intros [|p|p]; simpl; split; try discriminate; intros E; injection E as E;
      now apply DecimalPos.Unsigned.to_uint_nonnil in E. }
  apply DecimalZ.to_int_inj.
  assert (E : Some (Z.to_int a) = Some (Z.to_int b)).
  { rewrite <- (NilZero.isi (Z.to_int a)), <- (NilZero.isi (Z.to_int b));
      try apply Hnn. now rewrite H. }
  now injection E.
Qed.

Lemma room_inj a b : SocketIO.room a = SocketIO.room b -> a = b.
Proof. unfold SocketIO.room. simpl. intros H. now injection H. Qed.

Lemma room_eqb a b : String.eqb (SocketIO.room a) (SocketIO.room b) = String.eqb a b.
Proof.
  destruct (String.eqb_spec a b) as [->|Hne]; [apply String.eqb_refl|].
  apply String.eqb_neq. intros H. now apply room_inj in H.
Qed.

Lemma in_room_join s r s' r' m :
  Rooms.in_room s r (Rooms.join s' r' m)
  = (String.eqb s' s && String.eqb r' r) || Rooms.in_room s r m.
Proof.
  unfold Rooms.join. destruct (Rooms.in_room s' r' m) eqn:E; [|reflexivity].
  destruct (String.eqb s' s && String.eqb r' r) eqn:K; [|reflexivity].
  apply andb_true_iff in K as [K1 K2].
  apply String.eqb_eq in K1, K2. subst. now rewrite E.
Qed.

Lemma in_room_filter s r q m :
  Rooms.in_room s r (filter q m) = existsb (fun p => q p && (String.eqb (fst p) s
                                                             && String.eqb (snd p) r)) m.
Proof.
  unfold Rooms.in_room. induction m as [|p m IH]; simpl; [reflexivity|].
  destruct (q p); simpl; now rewrite IH.
Qed.

Lemma in_room_leave s r s' r' m :
  Rooms.in_room s r (Rooms.leave s' r' m)
  = negb (String.eqb s' s && String.eqb r' r) && Rooms.in_room s r m.
Proof.
  unfold Rooms.leave. rewrite in_room_filter. unfold Rooms.in_room.
  induction m as [|[ps pr] m IH]; simpl; [now rewrite andb_false_r|].
  rewrite IH. clear IH.
  destruct (String.eqb_spec ps s) as [->|Hs], (String.eqb_spec pr r) as [->|Hr];
    simpl; rewrite ?andb_false_r, ?andb_true_r; simpl.
  - rewrite (String.eqb_sym s s'), (String.eqb_sym r r').
    destruct (String.eqb s' s && String.eqb r' r); reflexivity.
  - reflexivity.
  - reflexivity.
  - reflexivity.
Qed.

Lemma in_room_disconnect s r s' m :
  Rooms.in_room s r (Rooms.disconnect s' m)
  = negb (String.eqb s' s) && Rooms.in_room s r m.
Proof.
  unfold Rooms.disconnect. rewrite in_room_filter. unfold Rooms.in_room.
  induction m as [|[ps pr] m IH]; simpl; [now rewrite andb_false_r|].
  rewrite IH. clear IH.
  destruct (String.eqb_spec ps s) as [->|Hs]; simpl.
  - rewrite (String.eqb_sym s s'). destruct (String.eqb s' s); simpl; [reflexivity|].
    now destruct (String.eqb pr r).
  - rewrite andb_false_r. reflexivity.
Qed.

Lemma in_room_serve socket sid msgs : forall m,
  Rooms.in_room socket (SocketIO.room sid) (Rooms.serve msgs m)
  = subscribed socket sid msgs (Rooms.in_room socket (SocketIO.room sid) m).
Proof.
  unfold Rooms.serve.
  induction msgs as [|[s msg] rest IH]; intros m; simpl; [reflexivity|].
  rewrite IH. f_equal. destruct msg as [x|x|]; simpl.
  - rewrite in_room_join, room_eqb.
    destruct (String.eqb s socket), (String.eqb x sid); reflexivity.
  - rewrite in_room_leave, room_eqb.
    destruct (String.eqb s socket), (String.eqb x sid); simpl; try reflexivity.
  - rewrite in_room_disconnect. destruct (String.eqb s socket); reflexivity.
Qed.

Lemma receivers_In e m socket :
  In socket (Rooms.receivers e m) <-> Rooms.in_room socket (Rooms.room_of e) m = true.
Proof.
  unfold Rooms.receivers, Rooms.in_room. rewrite in_map_iff, existsb_exists. split.
  - intros (p & <- & Hp). apply filter_In in Hp as [Hin Hr].
    exists p. split; [exact Hin|]. now rewrite String.eqb_refl, Hr.
  - intros (p & Hin & Hp). apply andb_true_iff in Hp as [Hs Hr].
    apply String.eqb_eq in Hs. exists p. split; [exact Hs|].
    apply filter_In. now split.
Qed.

(** X23. Who gets a message of a session.  After any history of client
    messages, a message sent to the room of a session reaches a socket
    exactly when the last message of that socket about the session was a
    join and the socket has not disconnected since: joining twice is
    joining once, a leave undoes the joins, and the messages of other
    sockets or about other sessions change nothing for it. *)
Theorem message_reaches_current_subscribers :
  forall (msgs : list (string * Rooms.ClientMessage)) (socket sessionId : string)
         (e : Emit),
    Rooms.room_of e = SocketIO.room sessionId ->
    (In socket (Rooms.receivers e (Rooms.serve msgs []))
     <-> subscribed socket sessionId msgs false = true).
Proof.
  intros msgs socket sessionId e He.
  rewrite receivers_In, He, in_room_serve. reflexivity.
Qed.

Lemma message_reaches_current_subscribers_witness :
  let msgs := [("k1", Rooms.JoinAttendance "1"); ("k2", Rooms.JoinAttendance "1");
               ("k1", Rooms.JoinAttendance "1"); ("k1", Rooms.LeaveAttendance "1");
               ("k2", Rooms.JoinAttendance "2")] in
  Rooms.room_of (EmitSessionStatus "attendance:1" "1" "stopped") = SocketIO.room "1"
  /\ In "k2" (Rooms.receivers (EmitSessionStatus "attendance:1" "1" "stopped")
                (Rooms.serve msgs [])).
Proof.
  split; [reflexivity|].
  apply (message_reaches_current_subscribers
           [("k1", Rooms.JoinAttendance "1"); ("k2", Rooms.JoinAttendance "1");
            ("k1", Rooms.JoinAttendance "1"); ("k1", Rooms.LeaveAttendance "1");
            ("k2", Rooms.JoinAttendance "2")] "k2" "1"
           (EmitSessionStatus "attendance:1" "1" "stopped") eq_refl).
  reflexivity.
Defined.

Lemma never_joined socket sid msgs :
  (forall x, In (socket, Rooms.JoinAttendance x) msgs -> x <> sid) ->
  subscribed socket sid msgs false = false.
Proof.
  induction msgs as [|[s msg] rest IH]; simpl; intros H; [reflexivity|].
  assert (Hrest : forall x, In (socket, Rooms.JoinAttendance x) rest -> x <> sid)
    by (intros x Hx; apply H; now right).
  destruct (String.eqb_spec s socket) as [->|Hs]; [|now apply IH].
  destruct msg as [x|x|].
  - destruct (String.eqb_spec x sid) as [->|Hx]; [|now apply IH].
    exfalso. apply (H sid); [now left | reflexivity].
  - destruct (String.eqb x sid); now apply IH.
  - now apply IH.
Qed.

(** X24. Sessions do not leak into each other.  The handlers send the
    messages of session [n] to the room named after the decimal text of
    [n]; a socket whose joins were all for another session [m] receives
    none of them, whatever else the clients did. *)
Theorem sessions_are_isolated :
  forall (n m : Z) (msgs : list (string * Rooms.ClientMessage)) (socket : string)
         (e : Emit),
    n <> m ->
    Rooms.room_of e = SocketIO.room (JS.toString n) ->
    (forall x, In (socket, Rooms.JoinAttendance x) msgs -> x = JS.toString m) ->
    ~ In socket (Rooms.receivers e (Rooms.serve msgs [])).
Proof.
  intros n m msgs socket e Hnm He Hjoins Hin.
  rewrite receivers_In, He, in_room_serve in Hin. simpl in Hin.
  rewrite never_joined in Hin; [discriminate|].
  intros x Hx Heq. apply Hjoins in Hx. subst x.
  apply toString_inj in Heq. congruence.
Qed.

Lemma sessions_are_isolated_witness :
  let e := EmitSessionStatus (SocketIO.room (JS.toString 1)) "1" "stopped" in
  let msgs := [("k1", Rooms.JoinAttendance "2"); ("k2", Rooms.JoinAttendance "1")] in
  1 <> 2
  /\ ~ In "k1" (Rooms.receivers e (Rooms.serve msgs [])).
Proof.
  assert (H12 : 1 <> 2) by discriminate.
  split; [exact H12|].
  apply (sessions_are_isolated 1 2
           [("k1", Rooms.JoinAttendance "2"); ("k2", Rooms.JoinAttendance "1")] "k1"
           (EmitSessionStatus (SocketIO.room (JS.toString 1)) "1" "stopped")
           H12 eq_refl).
  intros x [Hx|[Hx|[]]].
  - now injection Hx as <-.
  - discriminate Hx.
Defined.

(** ** The client: reconnection and joining *)

Lemma service_run_cons s e rest :
  SocketService.run s (e :: rest)
  = (fst (SocketService.run (fst (SocketService.step s e)) rest),
     match snd (SocketService.step s e) with
     | Some delay => delay :: snd (SocketService.run (fst (SocketService.step s e)) rest)
     | None => snd (SocketService.run (fst (SocketService.step s e)) rest)
     end).
Proof.
  simpl. destruct (SocketService.step s e) as [s1 d]. simpl.
  now destruct (SocketService.run s1 rest).
Qed.

Lemma service_step_attempts s e :
  0 <= SocketService.reconnectAttempts s <= 5 ->
  0 <= SocketService.reconnectAttempts (fst (SocketService.step s e)) <= 5
  /\ match snd (SocketService.step s e) with
     | Some delay =>
         e = SocketService.SocketConnectError
         /\ SocketService.reconnectAttempts (fst (SocketService.step s e))
            = SocketService.reconnectAttempts s + 1
         /\ delay = 1000 * 2 ^ (SocketService.reconnectAttempts s + 1)
     | None =>
         SocketService.reconnectAttempts (fst (SocketService.step s e)) = 0
         \/ SocketService.reconnectAttempts (fst (SocketService.step s e))
            = SocketService.reconnectAttempts s
     end.
Proof.
  intros Ha. destruct e; simpl.
  - unfold SocketService.connect.
    destruct (SocketService.socket s) as [[|]|]; simpl; auto.
  - unfold SocketService.disconnect.
    destruct (SocketService.socket s); simpl; auto.
  - split; [lia | auto].
  - auto.
  - unfold SocketService.handleReconnect, SocketService.maxReconnectAttempts.
    destruct (Z.ltb_spec (SocketService.reconnectAttempts s) 5); simpl.
    + split; [lia|]. repeat split. apply Z.mul_comm.
    + auto.
Qed.

Lemma pow2_cases a : 0 <= a <= 5 -> 2 ^ (a + 1) = 2 * 2 ^ a /\ 1 <= 2 ^ a <= 32.
Proof.
  intros H.
  assert (E : a = 0 \/ a = 1 \/ a = 2 \/ a = 3 \/ a = 4 \/ a = 5) by lia.
  destruct E as [->|[->|[->|[->|[->| ->]]]]]; simpl; lia.
Qed.

Lemma service_run_bounds events : forall s,
  0 <= SocketService.reconnectAttempts s <= 5 ->
  0 <= SocketService.reconnectAttempts (fst (SocketService.run s events)) <= 5
  /\ Forall (fun d => exists k, 1 <= k <= 5 /\ d = 1000 * 2 ^ k)
       (snd (SocketService.run s events))
  /\ (never_connects events ->
      total_delay (snd (SocketService.run s events))
      <= 64000 - 2000 * 2 ^ SocketService.reconnectAttempts s
      /\ Z.of_nat (List.length (snd (SocketService.run s events)))
         <= 5 - SocketService.reconnectAttempts s).
Proof.
  induction events as [|e rest IH]; intros s Ha.
  - cbn [SocketService.run fst snd]. split; [exact Ha|]. split; [constructor|].
    intros _. destruct (pow2_cases _ Ha) as [_ Hp].
    change (total_delay []) with 0. change (Z.of_nat (List.length (@nil Z))) with 0.
    lia.
  - rewrite service_run_cons. cbn [fst snd].
    destruct (service_step_attempts s e Ha) as [Ha1 Hstep].
    destruct (IH _ Ha1) as (Hb & Hd & Hn).
    destruct (snd (SocketService.step s e)) as [delay|].
    + destruct Hstep as (-> & Hinc & ->).
      split; [exact Hb|]. split.
      * constructor; [|exact Hd].
        exists (SocketService.reconnectAttempts s + 1). split; [lia | reflexivity].
      * intros Hnc.
        assert (Hnc' : never_connects rest) by (intros H; apply Hnc; now right).
        destruct (Hn Hnc') as [Ht Hl]. rewrite Hinc in Ht, Hl.
        assert (Ha' : 0 <= SocketService.reconnectAttempts s <= 4) by lia.
        destruct (pow2_cases (SocketService.reconnectAttempts s)) as [Hp Hq]; [lia|].
        change (total_delay (?d :: ?l)) with (d + total_delay l).
        change (List.length (?d :: ?l)) with (S (List.length l)).
        rewrite Nat2Z.inj_succ. rewrite Hp in Ht. split; lia.
    + split; [exact Hb|]. split; [exact Hd|].
      intros Hnc.
      assert (Hnc' : never_connects rest) by (intros H; apply Hnc; now right).
      destruct (Hn Hnc') as [Ht Hl].
      destruct Hstep as [E|E]; rewrite E in Ht, Hl; [|split; assumption].
      destruct e; simpl in E; try (exfalso; apply Hnc; now left).
      * unfold SocketService.connect in E.
        destruct (SocketService.socket s) as [[|]|]; simpl in E;
          rewrite E; split; assumption.
      * unfold SocketService.disconnect in E.
        destruct (SocketService.socket s); simpl in E; rewrite E; split; assumption.
      * rewrite E. split; assumption.
      * unfold SocketService.handleReconnect in E.
        destruct (_ <? _); simpl in E; [lia | rewrite E; split; assumption].
Qed.

(** X25. The reconnection gives up.  Whatever happens to the service, its
    retry counter stays between 0 and 5 and every reconnection it
    schedules is delayed by 2, 4, 8, 16 or 32 seconds.  As long as no
    connection succeeds, at most five reconnections are scheduled, with
    a total delay of at most 62 seconds: after the fifth connection
    error in a row nothing more is scheduled. *)
Theorem reconnection_is_bounded :
  forall (events : list SocketService.Event),
    let res := SocketService.run SocketService.initial events in
    0 <= SocketService.reconnectAttempts (fst res) <= 5
    /\ Forall (fun d => exists k, 1 <= k <= 5 /\ d = 1000 * 2 ^ k) (snd res)
    /\ (never_connects events ->
        (List.length (snd res) <= 5)%nat /\ total_delay (snd res) <= 62000).
Proof.
  intros events res.
  assert (Ha : 0 <= SocketService.reconnectAttempts SocketService.initial <= 5)
    by (simpl; lia).
  destruct (service_run_bounds events SocketService.initial Ha) as (Hb & Hd & Hn).
  split; [exact Hb|]. split; [exact Hd|].
  intros Hnc. destruct (Hn Hnc) as [Ht Hl]. simpl in Ht, Hl. subst res. split; lia.
Qed.

(** X26. A join is sent only by a professor on a connected socket.
    When the page of a session is shown, the join of its room is sent
    exactly when the stored user is a professor and the socket of the
    service was already connected before.  A visitor who is not a
    professor leaves the service as it was, sends nothing and leaves no
    cleanup behind, so nothing is sent when the page goes away either.
    For a professor whose service has no socket, or a socket that is
    not connected yet, the page makes the socket and sends no join, so
    the server does not add it to the room. *)
Theorem page_join_needs_connected_socket :
  forall (user : option ClientAuth.User) (has_token : bool) (sessionId : string)
         (s : SocketService.State),
    let m := SessionPage.mount user has_token sessionId s in
    (SessionPage.sent m = Some (Rooms.JoinAttendance sessionId)
     <-> (exists u, user = Some u /\ ClientAuth.type u = "professor")
         /\ SocketService.socket s = Some true)
    /\ ((forall u, user = Some u -> ClientAuth.type u <> "professor") ->
        m = SessionPage.mkMounted s None false
        /\ forall s', SessionPage.unmount m sessionId s' = None)
    /\ (SocketService.socket s <> Some true -> SessionPage.sent m = None)
    /\ (forall u, ClientAuth.type u = "professor" ->
                  SessionPage.mount (Some u) true sessionId SocketService.initial
                  = SessionPage.mkMounted (SocketService.mkState (Some false) 0)
                      None true).
Proof.
  intros user has_token sessionId s m. subst m.
  unfold SessionPage.mount, SessionPage.turned_away, SessionPage.unmount,
    SocketService.joinAttendanceRoom, SocketService.connect.
  split; [split | split; [|split]].
  - destruct user as [u|]; [|discriminate].
    destruct (String.eqb_spec (ClientAuth.type u) "professor") as [E|E];
      [|discriminate].
    cbn [negb SessionPage.sent]. intros H. split; [now exists u|].
    destruct has_token, (SocketService.socket s) as [[|]|] eqn:Es;
      cbn in H; rewrite ?Es in H; congruence.
  - intros [(u & -> & Hu) Hs]. apply String.eqb_eq in Hu. rewrite Hu.
    destruct has_token; cbn; rewrite Hs; cbn; rewrite ?Hs; reflexivity.
  - intros H. destruct user as [u|]; [|split; reflexivity].
    destruct (String.eqb_spec (ClientAuth.type u) "professor") as [E|E];
      [now destruct (H u eq_refl) | split; reflexivity].
  - intros Hs. destruct user as [u|]; [|reflexivity].
    destruct (negb (ClientAuth.type u =? "professor")%string); [reflexivity|].
    cbn [SessionPage.sent].
    destruct has_token, (SocketService.socket s) as [[|]|] eqn:Es; cbn;
      rewrite ?Es; congruence.
  - intros u Hu. apply String.eqb_eq in Hu. now rewrite Hu.
Qed.

Lemma page_join_needs_connected_socket_witness :
  let visitor := ClientAuth.mkUser "S1" "student" "s1@example.org" None None in
  let connected := SocketService.mkState (Some true) 0 in
  (forall u, Some visitor = Some u -> ClientAuth.type u <> "professor")
  /\ SessionPage.mount (Some visitor) true "7" connected
     = SessionPage.mkMounted connected None false
  /\ SessionPage.unmount (SessionPage.mount (Some visitor) true "7" connected) "7"
       connected = None.
Proof.
  assert (H : forall u,
             Some (ClientAuth.mkUser "S1" "student" "s1@example.org" None None) = Some u ->
             ClientAuth.type u <> "professor")
    by (intros u [= <-]; discriminate).
  split; [exact H|].
  destruct (page_join_needs_connected_socket
              (Some (ClientAuth.mkUser "S1" "student" "s1@example.org" None None))
              true "7" (SocketService.mkState (Some true) 0)) as (_ & Hv & _).
  destruct (Hv H) as [Hm Hu]. split; [exact Hm | apply Hu].
Defined.

(** ** The configured threshold *)

Lemma digits_end rest acc :
  ends_number rest = true -> JS.digits 10 rest acc = acc.
Proof.
  destruct rest as [|c r]; [reflexivity|]. intros H.
  cbn [JS.digits].
  assert (E : JS.digitValue 10 c = None); [|now rewrite E].
  revert H. clear. destruct c as [[] [] [] [] [] [] [] []]; vm_compute; congruence.
Qed.

Lemma digits_uint d : forall rest acc,
  ends_number rest = true ->
  JS.digits 10 (NilEmpty.string_of_uint d ++ rest) (Some acc)
  = Some (uint_value d acc).
Proof.
  induction d as [|l IH|l IH|l IH|l IH|l IH|l IH|l IH|l IH|l IH|l IH];
    intros rest acc H;
    cbn [NilEmpty.string_of_uint append JS.digits uint_value];
    [now apply digits_end | ..];
    match goal with
    | |- context [JS.digitValue 10 ?c] =>
        let v := eval vm_compute in (JS.digitValue 10 c) in
        change (JS.digitValue 10 c) with v
    end; cbv iota beta; now apply IH.
Qed.

Lemma uint_value_pos d : forall a,
  uint_value d (Z.pos a) = Z.pos (Pos.of_uint_acc d a).
Proof.
  induction d as [|l IH|l IH|l IH|l IH|l IH|l IH|l IH|l IH|l IH|l IH];
    intros a; cbn [uint_value Pos.of_uint_acc]; [reflexivity | ..];
    match goal with
    | |- uint_value l ?x = Z.pos (Pos.of_uint_acc l ?y) =>
        replace x with (Z.pos y) by lia; apply IH
    end.
Qed.

Lemma uint_value_zero d : uint_value d 0 = Z.of_N (Pos.of_uint d).
Proof.
  induction d as [|l IH|l IH|l IH|l IH|l IH|l IH|l IH|l IH|l IH|l IH];
    cbn [uint_value Pos.of_uint]; [reflexivity | exact IH | ..];
    match goal with
    | |- uint_value l ?x = _ =>
        let v := eval vm_compute in x in
        change x with v; apply uint_value_pos
    end.
Qed.

Lemma uint_value_to_uint p : uint_value (Pos.to_uint p) 0 = Z.pos p.
Proof. now rewrite uint_value_zero, DecimalPos.Unsigned.of_to. Qed.

(** The decimal text of a positive number starts with a digit from 1 to
    9. *)
Lemma to_uint_head p :
  match Pos.to_uint p with
  | Decimal.Nil | Decimal.D0 _ => False
  | _ => True
  end.
Proof.
  pose proof (DecimalPos.Unsigned.to_of (Pos.to_uint p)) as H.
  rewrite DecimalPos.Unsigned.of_to in H. simpl in H.
  pose proof (DecimalPos.Unsigned.to_uint_nonzero p) as Hnz.
  destruct (Pos.to_uint p) as [|u| | | | | | | | |] eqn:E; try exact I.
  - discriminate H.
  - rewrite DecimalFacts.unorm_D0 in H.
    destruct u as [|u'| | | | | | | | |]; [now apply Hnz | ..];
      match goal with
      | H : Decimal.D0 ?u = Decimal.unorm ?u |- _ =>
          assert (Hn : u <> Decimal.Nil) by discriminate;
          pose proof (DecimalFacts.nb_digits_unorm u Hn) as Hle;
          rewrite <- H in Hle; simpl in Hle; lia
      end.
Qed.

(** A string that starts with a character of one byte that is not
    white space has no white space to skip. *)
Lemma trimStart_head c r :
  JS.isWhiteSpace c = false -> JS.isLeadByte c = false ->
  JS.trimStart (String c r) = String c r.
Proof. intros H1 H2. cbn [JS.trimStart]. now rewrite H1, H2. Qed.

Lemma parseInt_pos p rest :
  ends_number rest = true ->
  JS.parseInt (NilEmpty.string_of_uint (Pos.to_uint p) ++ rest) = Some (Z.pos p)
  /\ JS.parseInt (String "-" (NilEmpty.string_of_uint (Pos.to_uint p) ++ rest))
     = Some (Z.neg p).
Proof.
  intros H. pose proof (to_uint_head p) as Hh.
  pose proof (uint_value_to_uint p) as Hv.
  assert (Hd : JS.digits 10 (NilEmpty.string_of_uint (Pos.to_uint p) ++ rest) None
               = Some (Z.pos p)).
  { destruct (Pos.to_uint p) as [|l|l|l|l|l|l|l|l|l|l]; try contradiction;
      cbn [NilEmpty.string_of_uint append JS.digits];
      match goal with
      | |- context [JS.digitValue 10 ?c] =>
          let v := eval vm_compute in (JS.digitValue 10 c) in
          change (JS.digitValue 10 c) with v
      end; cbv iota beta;
      cbn [uint_value] in Hv; rewrite <- Hv; now apply digits_uint. }
  unfold JS.parseInt.
  destruct (Pos.to_uint p) as [|l|l|l|l|l|l|l|l|l|l]; try contradiction;
    cbn [NilEmpty.string_of_uint append] in *;
    rewrite !trimStart_head by reflexivity;
    cbv iota beta; rewrite Hd; split; reflexivity.
Qed.

(** X27. Reading the threshold from the environment.  When
    [LATE_THRESHOLD_MINUTES] holds the decimal text of an integer,
    possibly followed by other text that starts neither with a digit
    nor with the letter x (a unit, say), the threshold is that integer:
    what follows the number is ignored. *)
Theorem threshold_reads_the_leading_number :
  forall (n : Z) (rest : string) (endpoint : option string),
    ends_number rest = true ->
    lateThresholdMinutes (mkEnv (Some (JS.toString n ++ rest)) endpoint) = Some n.
Proof.
  intros n rest endpoint H. unfold lateThresholdMinutes.
  cbn [LATE_THRESHOLD_MINUTES].
  assert (Hne : JS.or_default (Some (JS.toString n ++ rest)) "30"
                = JS.toString n ++ rest).
  { unfold JS.or_default.
    destruct (String.eqb_spec (JS.toString n ++ rest) "") as [E|_]; [|reflexivity].
    exfalso. unfold JS.toString in E. destruct n as [|p|p]; simpl in E.
    - discriminate E.
    - pose proof (to_uint_head p) as Hh.
      destruct (Pos.to_uint p); try contradiction; discriminate E.
    - discriminate E. }
  rewrite Hne. unfold JS.toString. destruct n as [|p|p].
  - change (NilZero.string_of_int (Z.to_int 0)) with "0".
    assert (E : JS.parseInt ("0" ++ rest)
                = match JS.digits 10 rest (Some 0) with
                  | Some v => Some (1 * v)
                  | None => None
                  end).
    { destruct rest as [|c r]; [reflexivity|].
      revert H. destruct c as [[] [] [] [] [] [] [] []]; vm_compute; congruence. }
    rewrite E, digits_end by exact H. reflexivity.
  - cbn [Z.to_int NilZero.string_of_int].
    assert (Es : NilZero.string_of_uint (Pos.to_uint p)
                 = NilEmpty.string_of_uint (Pos.to_uint p)).
    { pose proof (to_uint_head p). now destruct (Pos.to_uint p). }
    rewrite Es. now apply parseInt_pos.
  - cbn [Z.to_int NilZero.string_of_int].
    assert (Es : NilZero.string_of_uint (Pos.to_uint p)
                 = NilEmpty.string_of_uint (Pos.to_uint p)).
    { pose proof (to_uint_head p). now destruct (Pos.to_uint p). }
    rewrite Es. now apply parseInt_pos.
Qed.

Lemma threshold_reads_the_leading_number_witness :
  ends_number " minutes" = true
  /\ lateThresholdMinutes (mkEnv (Some "45 minutes") None) = Some 45.
Proof.
  split; [reflexivity|].
  apply (threshold_reads_the_leading_number 45 " minutes" None eq_refl).
Defined.
